(** * LightAutoML readers: role inference, target validation, feature set

    A shallow embedding of [lightautoml/reader/base.py] (classes [Reader],
    [PandasToPandasReader] and [DictToPandasSeqReader]) together with the
    properties of it that the specification states.

    Conventions of the embedding:
    - a method of a reader is a computation in the monad [M]: it takes the
      reader object, returns a value or raises, and leaves the (possibly
      mutated) reader behind, also when it raises;
    - pandas, numpy and the sibling modules of the package that are not
      part of the file ([guess_roles], [seq], [utils], [dataset]) are
      collaborators: the operations whose result the file only passes on
      are Section variables or the fields of a class, the ones whose
      result the file inspects are written out;
    - what Python leaves open, the order in which a [set] is listed, is
      open here as well ([SetOrder]);
    - floating point numbers (rates and scores) are values of any type
      [F] that carries the few operations the file applies to them
      ([FloatOps]); exact rationals are one instance. *)

From stdpp Require Import gmap strings list sorting.
From Stdlib Require Import QArith.
Close Scope Q_scope.
Open Scope string_scope.
Open Scope list_scope.
Open Scope nat_scope.

#[global] Set Warnings "-clear-no-such-hyp".

(** ** Raised exceptions *)

(** The exception classes that the file catches by name. *)
Inductive pyexn :=
| PyValueError
| PyTypeError
| PyAttributeError
| PyKeyError
| PyIndexError
| PyOther (class_name : string).

(** A value of a raw column: an integer, a piece of text (any object that
    is not a number) or the missing value NaN. There is no cell for
    None, which only a column of objects holds: [isnull] takes it for a
    missing value as it takes NaN, but the checks of the target, [np.nan
    in index] and [np.isnan], do not find it, so what is proved of the
    target is about columns that hold no None. *)
Inductive cell :=
| CInt (z : Z)
| CStr (s : string)
| CNaN.

#[global] Instance cell_eq_dec : EqDecision cell.
Proof. solve_decision. Defined.

(** One constructor per [assert] and [raise] of the file, named after the
    message; [Propagated] is an exception of a collaborator that no
    handler of the file catches. *)
Inductive exn :=
| NanInTarget                    (* assert, "Nan in target detected" *)
| LessThan2Unique                (* assert, "Less than 2 unique values in target" *)
| BinaryMoreThan2                (* assert, "Binary task and more than 2 values in target" *)
| OneSampleClass (cls : cell)    (* ValueError, "Class {cls} of target has only 1 sample, ..." *)
| TargetNotDefined               (* assert, "Target should be defined" *)
| FeatureNameNotString           (* assert, "Feature names must be string, ..." *)
| BadDatetimeParams              (* ValueError, "Looks like given datetime parsing params ..." *)
| AllFeaturesExcluded            (* assert, "All features are excluded for some reasons" *)
| IdsDontMatch                   (* assert, "Time series ids don`t match" *)
| Propagated (e : pyexn).

#[global] Instance pyexn_eq_dec : EqDecision pyexn.
Proof. solve_decision. Defined.

#[global] Instance exn_eq_dec : EqDecision exn.
Proof. solve_decision. Defined.

(** The error taxonomy of the specification (section 7), and the class
    each raise site of the file belongs to. *)
Inductive error_class :=
| InvalidRoleParamsError
| MissingTargetError
| InvalidTargetError
| UnsplittableTargetError
| EmptyFeatureSetError
| MisalignedIndexError
| NonStringFeatureNameError
| CollaboratorError.

Definition classify (e : exn) : error_class :=
  match e with
  | NanInTarget | LessThan2Unique | BinaryMoreThan2 => InvalidTargetError
  | OneSampleClass _ => UnsplittableTargetError
  | TargetNotDefined => MissingTargetError
  | FeatureNameNotString => NonStringFeatureNameError
  | BadDatetimeParams => InvalidRoleParamsError
  | AllFeaturesExcluded => EmptyFeatureSetError
  | IdsDontMatch => MisalignedIndexError
  | Propagated _ => CollaboratorError
  end.

(** ** Results and the reader monad *)

Inductive result (A : Type) :=
| Ok (a : A)
| Raise (e : exn).
Arguments Ok {A} a.
Arguments Raise {A} e.

Definition is_Ok {A} (r : result A) : bool :=
  match r with Ok _ => true | Raise _ => false end.

Definition raises {A} (r : result A) (c : error_class) : Prop :=
  ∃ e, r = Raise e ∧ classify e = c.

(** A computation over a mutable object of type [S]: the object survives
    an exception with the mutations made before it. *)
Definition M (S A : Type) : Type := S → result A * S.

#[global] Instance M_ret {S} : MRet (M S) := fun A a s => (Ok a, s).
#[global] Instance M_bind {S} : MBind (M S) := fun A B k m s =>
  match m s with
  | (Ok a, s') => k a s'
  | (Raise e, s') => (Raise e, s')
  end.

Definition throw {S A} (e : exn) : M S A := fun s => (Raise e, s).
Definition get {S} : M S S := fun s => (Ok s, s).
Definition gets {S A} (f : S → A) : M S A := fun s => (Ok (f s), s).
Definition modify {S} (f : S → S) : M S unit := fun s => (Ok tt, f s).
Definition lift {S A} (r : result A) : M S A := fun s => (r, s).
Definition assert {S} (b : bool) (e : exn) : M S unit :=
  if b then mret tt else throw e.

(** [for x in xs: body x] *)
Fixpoint for_each {S A} (xs : list A) (body : A → M S unit) : M S unit :=
  match xs with
  | [] => mret tt
  | x :: xs' => body x ;; for_each xs' body
  end.

(** ** Floating point numbers *)

(** The operations the file applies to rates and scores. [f_ratio k n] is
    the quotient of two counts as pandas computes a mean or a share. *)
Class FloatOps (F : Type) := {
  f_ratio : nat → nat → F;
  f_one : F;
  f_geb : F → F → bool;
  f_ltb : F → F → bool;
  f_max : F → F → F
}.

(** What the properties below use of the arithmetic: a count divided by
    itself, which is one, is at least any rate below one. *)
Class FloatLaws (F : Type) `{FloatOps F} : Prop := {
  f_whole_ge : ∀ n r, 0 < n → f_ltb r f_one = true → f_geb (f_ratio n n) r = true
}.

#[global] Instance Q_FloatOps : FloatOps Q := {
  f_ratio k n := Qmake (Z.of_nat k) (Pos.of_nat n);
  f_one := 1%Q;
  f_geb a b := Qle_bool b a;
  f_ltb a b := negb (Qle_bool b a);
  f_max a b := if Qle_bool a b then b else a
}.

#[global] Instance Q_FloatLaws : FloatLaws Q.
Proof.
  constructor. intros n [a b] Hn Hlt. simpl in *.
  apply Qle_bool_iff. apply negb_true_iff in Hlt.
  assert (Hr : ¬ (1 <= a # b)%Q) by (rewrite <- Qle_bool_iff; congruence).
  apply Qnot_le_lt in Hr. unfold Qle, Qlt in *. simpl in *.
  assert (Hpos : Z.pos (Pos.of_nat n) = Z.of_nat n).
  { rewrite <- positive_nat_Z, Nat2Pos.id; [reflexivity | lia]. }
  rewrite Hpos. nia.
Qed.

(** ** Columns and tables *)

Inductive Dtype :=
| np_float32 | np_float64 | np_int32 | np_int64
| np_object | np_datetime64 | np_bool.

#[global] Instance Dtype_eq_dec : EqDecision Dtype.
Proof. solve_decision. Defined.

(** [np.issubdtype(d, np.number)] *)
Definition is_number (d : Dtype) : bool :=
  match d with
  | np_float32 | np_float64 | np_int32 | np_int64 => true
  | _ => false
  end.

Record Series := mkSeries {
  s_dtype : Dtype;
  s_values : list cell
}.

(** The label of a column: a [str], or an object of another type. *)
Inductive label :=
| LStr (s : string)
| LObj (z : Z).

#[global] Instance label_eq_dec : EqDecision label.
Proof. solve_decision. Defined.

Record DataFrame := mkFrame {
  df_columns : list (label * Series)
}.

(** [df.shape[0]] *)
Definition shape0 (df : DataFrame) : nat :=
  match df_columns df with
  | [] => 0
  | (_, s) :: _ => length (s_values s)
  end.

(** [df[feat]] for a [str] label; the first column of that label. *)
Fixpoint lookup_col (cols : list (label * Series)) (feat : string) : option Series :=
  match cols with
  | [] => None
  | (LStr s, c) :: rest => if decide (s = feat) then Some c else lookup_col rest feat
  | (LObj _, _) :: rest => lookup_col rest feat
  end.

Definition isnull (c : cell) : bool :=
  match c with CNaN => true | _ => false end.

(** ** [Series.value_counts] *)

(** The distinct values in the order of first appearance. *)
Fixpoint uniques (l : list cell) : list cell :=
  match l with
  | [] => []
  | x :: l' => x :: filter (fun y => y ≠ x) (uniques l')
  end.

Definition count (x : cell) (l : list cell) : nat :=
  length (filter (fun y => y = x) l).

(** Insertion into a list sorted by decreasing count, in front of the
    entries whose count is not larger. *)
Fixpoint insert_count (p : cell * nat) (s : list (cell * nat)) : list (cell * nat) :=
  match s with
  | [] => [p]
  | q :: s' => if decide (p.2 < q.2) then q :: insert_count p s' else p :: s
  end.

Definition sort_counts (l : list (cell * nat)) : list (cell * nat) :=
  foldr insert_count [] l.

(** [Series(l).value_counts(dropna=False)]: every distinct value with the
    number of its occurrences, by decreasing count. Values of equal
    count stay here in the order of first appearance; among many values
    of equal count pandas has an order of its own. The counts, and so
    the largest and the smallest of them, are the same in either order;
    which of several values of the smallest count comes last is not. *)
Definition value_counts_all (l : list cell) : list (cell * nat) :=
  sort_counts (map (fun x => (x, count x l)) (uniques l)).

(** [Series(l).value_counts()]: the same over the values that are not
    missing. *)
Definition value_counts (l : list cell) : list (cell * nat) :=
  value_counts_all (filter (fun c => isnull c = false) l).

(** ** Roles *)

(** A keyword argument of a role or of an index builder. *)
Inductive pyval :=
| VInt (z : Z)
| VBool (b : bool)
| VStr (s : string)
| VDtype (d : Dtype)
| VNone.

Abbreviation kwargs := (gmap string pyval).

(** Modelled from the spec: the role classes of [lightautoml.dataset.roles]
    (RoleSpec of the data model): the variant tag [r_name], which the file
    compares with string literals, the storage type, the pin
    [force_input] and the parsing parameters of a datetime role. *)
Record ColumnRole := mkRole {
  r_name : string;
  r_dtype : Dtype;
  r_force_input : bool;
  r_format : option string;
  r_origin : string;
  r_unit : option string
}.

Definition DropRole : ColumnRole :=
  mkRole "Drop" np_object false None "unix" None.
Definition NumericRole (dtype : Dtype) : ColumnRole :=
  mkRole "Numeric" dtype false None "unix" None.
Definition CategoryRole (dtype : Dtype) : ColumnRole :=
  mkRole "Category" dtype false None "unix" None.
Definition DatetimeRole (dtype : Dtype) (date_format : option string) : ColumnRole :=
  mkRole "Datetime" dtype false date_format "unix" None.

(** [r.dtype = d] *)
Definition with_dtype (d : Dtype) (r : ColumnRole) : ColumnRole :=
  mkRole (r_name r) d (r_force_input r) (r_format r) (r_origin r) (r_unit r).

(** A role as the user gives it: by name, or as a role object. *)
Inductive UserRole :=
| RoleName (s : string)
| RoleObj (r : ColumnRole).

(** An insertion-ordered [dict], for the dictionaries the file iterates
    over. *)
Fixpoint dict_get {K V} `{EqDecision K} (k : K) (d : list (K * V)) : option V :=
  match d with
  | [] => None
  | (k', v) :: d' => if decide (k' = k) then Some v else dict_get k d'
  end.

Fixpoint dict_set {K V} `{EqDecision K} (k : K) (v : V) (d : list (K * V)) : list (K * V) :=
  match d with
  | [] => [(k, v)]
  | (k', v') :: d' => if decide (k' = k) then (k, v) :: d' else (k', v') :: dict_set k v d'
  end.

(** ** The reader object *)

(** The value of [_used_array_attrs]: a column, or the columns of a
    multi-column target. *)
Inductive UsedAttr :=
| AttrCol (feat : string)
| AttrCols (feats : list string).

(** [self.target]: the name of the target series, or the labels of the
    target frame. *)
Inductive TargetName :=
| TName (name : option string)
| TColumns (cols : list label).

Abbreviation class_map := (list (cell * nat)).

(** [self.class_mapping]: [None], the mapping of the target, or one
    mapping (or [None]) per column of a multilabel target. *)
Inductive ClassMapping :=
| CMNone
| CMDict (m : class_map)
| CMPerCol (ms : list (label * option class_map)).

(** A row-window index: for each row, positions in an auxiliary table. *)
Abbreviation Idx := (list (list Z)).

Record SeqParams := mkSeqParams {
  sp_case : string;
  sp_params : kwargs;
  sp_scheme : option kwargs
}.

(** The index builders of [lightautoml.reader.seq], after their [read]:
    what they were built from and what they have read. *)
Inductive Indexer :=
| TopInd (scheme : option kwargs) (roles : gmap string ColumnRole)
    (params : kwargs) (seq_data : DataFrame) (plain_data : option DataFrame)
| IDSInd (scheme : option kwargs) (params : kwargs)
    (seq_data : DataFrame) (plain_data : option DataFrame).

(** [self.meta[name]]; [m_seq_idx] holds the keys "seq_idx_data" and
    "seq_idx_target" once [parse_seq] has set them. *)
Record SeqMeta := mkSeqMeta {
  m_roles : gmap string ColumnRole;
  m_features : list string;
  m_attributes : gmap string string;
  m_seq_idx : option (Idx * option Idx)
}.

Inductive Warning :=
| CvReduced (smallest_class : cell) (smallest : nat) (old_cv : Z).

(** What a call of a collaborator does: it returns, or it raises. *)
Inductive outcome (A : Type) :=
| Returns (a : A)
| Throws (e : pyexn).
Arguments Returns {A} a.
Arguments Throws {A} e.

(** What [read] and [_create_target] leave to pandas when they send a
    target through a class mapping: [map_dtype] is the storage type of
    the values that [Series.map] returns and [setitem_dtype] the one of
    a column of a frame whose values are replaced
    ([val.loc[:, col] = ...]);
    [map_by_columns] is [val.map(d)] for a dict [d] whose values are the
    mappings of the columns and [map_by_code] is [s.map(n)] for a number
    [n], which is what [Series.map] is called with when the class mapping
    is the one of a target of the other shape. *)
Class SeriesMap := {
  map_dtype : list cell → Dtype;
  setitem_dtype : Dtype → list cell → Dtype;
  map_by_columns : list (label * option class_map) → Series → outcome Series;
  map_by_code : nat → Series → outcome Series
}.

(** What [Series.astype] refuses for the storage types alone, before it
    casts any value: [astype_dtype from to] is the exception that the
    cast of a column of type [from] to the type [to] raises whatever the
    column holds, if there is one. pandas casts no datetime64 column to
    a float type (TypeError), also not a column without values. *)
Class DtypeCast := {
  astype_dtype : Dtype → Dtype → option pyexn
}.

(** [list(s)] of a Python [set] of feature names: the elements of the
    set, each once, in an order that the language leaves open. The order
    in CPython follows the hashes of the strings, which change from one
    run of the interpreter to the next, and the way the set was built:
    [list_of_set] takes the set together with what it was built from,
    the used features and the arguments [add] and [remove]. *)
Class SetOrder := {
  list_of_set :
    list string → option (list string) → option (list string) → gset string → list string;
  list_of_set_perm used add remove s : list_of_set used add remove s ≡ₚ elements s
}.

Section Readers.

#[local] Set Default Proof Using "Type".

Context {F : Type} {float_ops : FloatOps F}.

Record AdvancedRolesParams := mkAdvParams {
  numeric_unique_rate : F;
  max_to_3rd_rate : F;
  binning_enc_rate : F;
  raw_decr_rate : F;
  max_score_rate : F;
  abs_score_val : F;
  drop_score_co : F
}.

Record Reader := mkReader {
  task_name : string;  (* [self.task.name] *)
  _roles : gmap string ColumnRole;
  _dropped_features : list string;
  _used_array_attrs : gmap string UsedAttr;
  _used_features : list string;
  samples : option N;
  max_nan_rate : F;
  max_constant_rate : F;
  cv : option Z;
  random_state : Z;
  n_jobs : Z;
  roles_params : gmap string kwargs;
  target : option TargetName;
  advanced_roles : bool;
  advanced_roles_params : AdvancedRolesParams;
  class_mapping : ClassMapping;
  _n_classes : option nat;
  seq_params : gmap string SeqParams;  (* [DictToPandasSeqReader] only, as the four below *)
  ti : gmap string Indexer;
  meta : list (string * SeqMeta);
  plain_used_features : list string;
  plain_roles : gmap string ColumnRole;
  warnings_emitted : list Warning  (* not a field: what [warnings.warn] was called with, latest first *)
}.

Definition set_roles (v : gmap string ColumnRole) (rd : Reader) : Reader :=
  mkReader (rd.(task_name)) v (rd.(_dropped_features))
    (rd.(_used_array_attrs)) (rd.(_used_features)) (rd.(samples))
    (rd.(max_nan_rate)) (rd.(max_constant_rate)) (rd.(cv)) (rd.(random_state))
    (rd.(n_jobs)) (rd.(roles_params)) (rd.(target)) (rd.(advanced_roles))
    (rd.(advanced_roles_params)) (rd.(class_mapping)) (rd.(_n_classes))
    (rd.(seq_params)) (rd.(ti)) (rd.(meta)) (rd.(plain_used_features))
    (rd.(plain_roles)) (rd.(warnings_emitted)).

Definition set_dropped_features (v : list string) (rd : Reader) : Reader :=
  mkReader (rd.(task_name)) (rd.(_roles)) v (rd.(_used_array_attrs))
    (rd.(_used_features)) (rd.(samples)) (rd.(max_nan_rate))
    (rd.(max_constant_rate)) (rd.(cv)) (rd.(random_state)) (rd.(n_jobs))
    (rd.(roles_params)) (rd.(target)) (rd.(advanced_roles))
    (rd.(advanced_roles_params)) (rd.(class_mapping)) (rd.(_n_classes))
    (rd.(seq_params)) (rd.(ti)) (rd.(meta)) (rd.(plain_used_features))
    (rd.(plain_roles)) (rd.(warnings_emitted)).

Definition set_used_array_attrs (v : gmap string UsedAttr) (rd : Reader) : Reader :=
  mkReader (rd.(task_name)) (rd.(_roles)) (rd.(_dropped_features)) v
    (rd.(_used_features)) (rd.(samples)) (rd.(max_nan_rate))
    (rd.(max_constant_rate)) (rd.(cv)) (rd.(random_state)) (rd.(n_jobs))
    (rd.(roles_params)) (rd.(target)) (rd.(advanced_roles))
    (rd.(advanced_roles_params)) (rd.(class_mapping)) (rd.(_n_classes))
    (rd.(seq_params)) (rd.(ti)) (rd.(meta)) (rd.(plain_used_features))
    (rd.(plain_roles)) (rd.(warnings_emitted)).

Definition set_used_features (v : list string) (rd : Reader) : Reader :=
  mkReader (rd.(task_name)) (rd.(_roles)) (rd.(_dropped_features))
    (rd.(_used_array_attrs)) v (rd.(samples)) (rd.(max_nan_rate))
    (rd.(max_constant_rate)) (rd.(cv)) (rd.(random_state)) (rd.(n_jobs))
    (rd.(roles_params)) (rd.(target)) (rd.(advanced_roles))
    (rd.(advanced_roles_params)) (rd.(class_mapping)) (rd.(_n_classes))
    (rd.(seq_params)) (rd.(ti)) (rd.(meta)) (rd.(plain_used_features))
    (rd.(plain_roles)) (rd.(warnings_emitted)).

Definition set_cv (v : option Z) (rd : Reader) : Reader :=
  mkReader (rd.(task_name)) (rd.(_roles)) (rd.(_dropped_features))
    (rd.(_used_array_attrs)) (rd.(_used_features)) (rd.(samples))
    (rd.(max_nan_rate)) (rd.(max_constant_rate)) v (rd.(random_state))
    (rd.(n_jobs)) (rd.(roles_params)) (rd.(target)) (rd.(advanced_roles))
    (rd.(advanced_roles_params)) (rd.(class_mapping)) (rd.(_n_classes))
    (rd.(seq_params)) (rd.(ti)) (rd.(meta)) (rd.(plain_used_features))
    (rd.(plain_roles)) (rd.(warnings_emitted)).

Definition set_random_state (v : Z) (rd : Reader) : Reader :=
  mkReader (rd.(task_name)) (rd.(_roles)) (rd.(_dropped_features))
    (rd.(_used_array_attrs)) (rd.(_used_features)) (rd.(samples))
    (rd.(max_nan_rate)) (rd.(max_constant_rate)) (rd.(cv)) v (rd.(n_jobs))
    (rd.(roles_params)) (rd.(target)) (rd.(advanced_roles))
    (rd.(advanced_roles_params)) (rd.(class_mapping)) (rd.(_n_classes))
    (rd.(seq_params)) (rd.(ti)) (rd.(meta)) (rd.(plain_used_features))
    (rd.(plain_roles)) (rd.(warnings_emitted)).

Definition set_target (v : option TargetName) (rd : Reader) : Reader :=
  mkReader (rd.(task_name)) (rd.(_roles)) (rd.(_dropped_features))
    (rd.(_used_array_attrs)) (rd.(_used_features)) (rd.(samples))
    (rd.(max_nan_rate)) (rd.(max_constant_rate)) (rd.(cv)) (rd.(random_state))
    (rd.(n_jobs)) (rd.(roles_params)) v (rd.(advanced_roles))
    (rd.(advanced_roles_params)) (rd.(class_mapping)) (rd.(_n_classes))
    (rd.(seq_params)) (rd.(ti)) (rd.(meta)) (rd.(plain_used_features))
    (rd.(plain_roles)) (rd.(warnings_emitted)).

Definition set_class_mapping (v : ClassMapping) (rd : Reader) : Reader :=
  mkReader (rd.(task_name)) (rd.(_roles)) (rd.(_dropped_features))
    (rd.(_used_array_attrs)) (rd.(_used_features)) (rd.(samples))
    (rd.(max_nan_rate)) (rd.(max_constant_rate)) (rd.(cv)) (rd.(random_state))
    (rd.(n_jobs)) (rd.(roles_params)) (rd.(target)) (rd.(advanced_roles))
    (rd.(advanced_roles_params)) v (rd.(_n_classes)) (rd.(seq_params))
    (rd.(ti)) (rd.(meta)) (rd.(plain_used_features)) (rd.(plain_roles))
    (rd.(warnings_emitted)).

Definition set_n_classes (v : option nat) (rd : Reader) : Reader :=
  mkReader (rd.(task_name)) (rd.(_roles)) (rd.(_dropped_features))
    (rd.(_used_array_attrs)) (rd.(_used_features)) (rd.(samples))
    (rd.(max_nan_rate)) (rd.(max_constant_rate)) (rd.(cv)) (rd.(random_state))
    (rd.(n_jobs)) (rd.(roles_params)) (rd.(target)) (rd.(advanced_roles))
    (rd.(advanced_roles_params)) (rd.(class_mapping)) v (rd.(seq_params))
    (rd.(ti)) (rd.(meta)) (rd.(plain_used_features)) (rd.(plain_roles))
    (rd.(warnings_emitted)).

Definition set_ti (v : gmap string Indexer) (rd : Reader) : Reader :=
  mkReader (rd.(task_name)) (rd.(_roles)) (rd.(_dropped_features))
    (rd.(_used_array_attrs)) (rd.(_used_features)) (rd.(samples))
    (rd.(max_nan_rate)) (rd.(max_constant_rate)) (rd.(cv)) (rd.(random_state))
    (rd.(n_jobs)) (rd.(roles_params)) (rd.(target)) (rd.(advanced_roles))
    (rd.(advanced_roles_params)) (rd.(class_mapping)) (rd.(_n_classes))
    (rd.(seq_params)) v (rd.(meta)) (rd.(plain_used_features))
    (rd.(plain_roles)) (rd.(warnings_emitted)).

Definition set_meta (v : list (string * SeqMeta)) (rd : Reader) : Reader :=
  mkReader (rd.(task_name)) (rd.(_roles)) (rd.(_dropped_features))
    (rd.(_used_array_attrs)) (rd.(_used_features)) (rd.(samples))
    (rd.(max_nan_rate)) (rd.(max_constant_rate)) (rd.(cv)) (rd.(random_state))
    (rd.(n_jobs)) (rd.(roles_params)) (rd.(target)) (rd.(advanced_roles))
    (rd.(advanced_roles_params)) (rd.(class_mapping)) (rd.(_n_classes))
    (rd.(seq_params)) (rd.(ti)) v (rd.(plain_used_features))
    (rd.(plain_roles)) (rd.(warnings_emitted)).

Definition set_plain_used_features (v : list string) (rd : Reader) : Reader :=
  mkReader (rd.(task_name)) (rd.(_roles)) (rd.(_dropped_features))
    (rd.(_used_array_attrs)) (rd.(_used_features)) (rd.(samples))
    (rd.(max_nan_rate)) (rd.(max_constant_rate)) (rd.(cv)) (rd.(random_state))
    (rd.(n_jobs)) (rd.(roles_params)) (rd.(target)) (rd.(advanced_roles))
    (rd.(advanced_roles_params)) (rd.(class_mapping)) (rd.(_n_classes))
    (rd.(seq_params)) (rd.(ti)) (rd.(meta)) v (rd.(plain_roles))
    (rd.(warnings_emitted)).

Definition set_plain_roles (v : gmap string ColumnRole) (rd : Reader) : Reader :=
  mkReader (rd.(task_name)) (rd.(_roles)) (rd.(_dropped_features))
    (rd.(_used_array_attrs)) (rd.(_used_features)) (rd.(samples))
    (rd.(max_nan_rate)) (rd.(max_constant_rate)) (rd.(cv)) (rd.(random_state))
    (rd.(n_jobs)) (rd.(roles_params)) (rd.(target)) (rd.(advanced_roles))
    (rd.(advanced_roles_params)) (rd.(class_mapping)) (rd.(_n_classes))
    (rd.(seq_params)) (rd.(ti)) (rd.(meta)) (rd.(plain_used_features)) v
    (rd.(warnings_emitted)).

Definition set_warnings_emitted (v : list Warning) (rd : Reader) : Reader :=
  mkReader (rd.(task_name)) (rd.(_roles)) (rd.(_dropped_features))
    (rd.(_used_array_attrs)) (rd.(_used_features)) (rd.(samples))
    (rd.(max_nan_rate)) (rd.(max_constant_rate)) (rd.(cv)) (rd.(random_state))
    (rd.(n_jobs)) (rd.(roles_params)) (rd.(target)) (rd.(advanced_roles))
    (rd.(advanced_roles_params)) (rd.(class_mapping)) (rd.(_n_classes))
    (rd.(seq_params)) (rd.(ti)) (rd.(meta)) (rd.(plain_used_features))
    (rd.(plain_roles)) v.

(** ** [Reader.upd_used_features] *)

(** A Python [set] is a [gset]; [list(curr_feats)] is the list that the
    order of the sets, [set_order], makes of it. *)
Definition upd_used_features {set_order : SetOrder} (add remove : option (list string))
    : M Reader unit :=
  rd ← get ;
  let curr_feats : gset string := list_to_set (_used_features rd) in
  let curr_feats :=
    match add with
    | Some add => curr_feats ∪ list_to_set add
    | None => curr_feats
    end in
  let curr_feats :=
    match remove with
    | Some remove => curr_feats ∖ list_to_set remove
    | None => curr_feats
    end in
  modify (set_used_features (list_of_set (_used_features rd) add remove curr_feats)).

Context {set_order : SetOrder}.

(** ** [PandasToPandasReader.check_class_target] *)

Definition cell_int (c : cell) : option Z :=
  match c with CInt z => Some z | _ => None end.

Definition cell_str (c : cell) : option string :=
  match c with CStr s => Some s | _ => None end.

(** [np.sort] of an array of values: integers by value, text in the order
    of [str], missing values last; unlike values do not compare. *)
Definition np_sort (l : list cell) : result (list cell) :=
  let nans := filter (fun c => isnull c = true) l in
  let vals := filter (fun c => isnull c = false) l in
  match mapM cell_int vals with
  | Some zs => Ok ((CInt <$> merge_sort Z.le zs) ++ nans)%list
  | None =>
      match mapM cell_str vals, nans with
      | Some ss, [] => Ok (CStr <$> merge_sort String.le ss)
      | _, _ => Raise (Propagated PyTypeError)
      end
  end.

(** [np.arange(n)] *)
Definition arange (n : nat) : list Z := Z.of_nat <$> seq 0 n.

(** [(np.arange(srtd.shape[0]) == srtd).all()] *)
Definition is_arange (srtd : list cell) : bool :=
  bool_decide (srtd = CInt <$> arange (length srtd)).

(** [{n: x for (x, n) in enumerate(unqiues)}] *)
Definition enumerate_classes (unqiues : list cell) : class_map :=
  imap (fun x n => (n, x)) unqiues.

(** One value of [target.map(class_mapping)]: a value that is no key
    becomes missing. *)
Definition map_cell (m : class_map) (c : cell) : cell :=
  match dict_get c m with
  | Some x => CInt (Z.of_nat x)
  | None => CNaN
  end.

(** The value a 32-bit signed integer holds after a cast from a wider
    one. *)
Definition wrap32 (z : Z) : Z := ((z + 2 ^ 31) `mod` 2 ^ 32 - 2 ^ 31)%Z.

(** [.astype(np.int32)] *)
Fixpoint astype_int32 (l : list cell) : result (list cell) :=
  match l with
  | [] => Ok []
  | CInt z :: l' =>
      match astype_int32 l' with
      | Ok r => Ok (CInt (wrap32 z) :: r)
      | Raise e => Raise e
      end
  | _ :: _ => Raise (Propagated PyValueError)
  end.

Definition warn (w : Warning) : M Reader unit :=
  modify (fun rd => set_warnings_emitted (w :: warnings_emitted rd) rd).

(** The block under [if self.task.name == "multiclass"]. *)
Definition check_smallest_class (cnts : list (cell * nat)) : M Reader unit :=
  match last cnts with
  | None => throw (Propagated PyIndexError)
  | Some (smallest_class, smallest) =>
      if decide (smallest = 1) then throw (OneSampleClass smallest_class)
      else
        rd ← get ;
        match cv rd with
        | None => throw (Propagated PyTypeError)
        | Some cv_ =>
            if decide (Z.of_nat smallest < cv_)%Z then
              warn (CvReduced smallest_class smallest cv_) ;;
              modify (set_cv (Some (Z.of_nat smallest)))
            else mret tt
        end
  end.

(** [assert np.nan not in cnts.index] is the search for the cell NaN
    among the counted values. *)
Definition check_class_target (target : Series) : M Reader (Series * option class_map) :=
  let cnts := value_counts_all (s_values target) in
  assert (negb (existsb isnull cnts.*1)) NanInTarget ;;
  let unqiues := cnts.*1 in
  srtd ← lift (np_sort unqiues) ;
  modify (set_n_classes (Some (length unqiues))) ;;
  rd ← get ;
  (if decide (task_name rd = "multiclass") then check_smallest_class cnts
   else mret tt) ;;
  if is_arange srtd then
    assert (bool_decide (1 < length srtd)) LessThan2Unique ;;
    (if decide (task_name rd = "binary" ∨ task_name rd = "multilabel")
     then assert (bool_decide (length srtd = 2)) BinaryMoreThan2
     else mret tt) ;;
    mret (target, None)
  else
    let class_mapping := enumerate_classes unqiues in
    mapped ← lift (astype_int32 (map_cell class_mapping <$> s_values target)) ;
    mret (mkSeries np_int32 mapped, Some class_mapping).

(** ** Collaborators *)

(** [ColumnRole.from_string(name, **role_params)] *)
Variable from_string : string → kwargs → ColumnRole.
(** The cast of one value by [Series.astype(dtype)]: the exception it
    raises, if it raises. *)
Variable astype_cell : Dtype → cell → option pyexn.
Context {dtype_cast : DtypeCast}.
(** [pd.to_datetime(s, format=.., origin=.., unit=..)] *)
Variable to_datetime : Series → option string → string → option string → outcome Series.
(** [t.dt.tz_localize(tz)]: the exception it raises, if it raises. *)
Variable tz_localize : Series → string → option pyexn.
(** [df.sample(n, axis=0, random_state=seed)] *)
Variable sample : N → Z → DataFrame → DataFrame.
(** [dict(zip(array_attr_roles, valid_array_attributes))]: from the name
    of an array-attribute role to the attribute. *)
Variable attrs_dict : gmap string string.

(** ** [_get_default_role_from_str], [_guess_role], [_is_ok_feature] *)

Definition lower_ascii (a : Ascii.ascii) : Ascii.ascii :=
  let n := Ascii.nat_of_ascii a in
  if bool_decide (65 ≤ n ≤ 90)%nat then Ascii.ascii_of_nat (n + 32) else a.

(** [str.lower], on the letters A to Z. *)
Fixpoint lower (s : string) : string :=
  match s with
  | EmptyString => EmptyString
  | String a s' => String (lower_ascii a) (lower s')
  end.

Definition _get_default_role_from_str (rd : Reader) (name : string) : ColumnRole :=
  let name := lower name in
  let role_params := default ∅ (roles_params rd !! name) in
  from_string name role_params.

(** The values of a column are cast one after the other. *)
Fixpoint astype_values (dtype : Dtype) (values : list cell) : option pyexn :=
  match values with
  | [] => None
  | c :: values' =>
      match astype_cell dtype c with
      | Some e => Some e
      | None => astype_values dtype values'
      end
  end.

(** [feature.astype(dtype)]: the cast is refused for the storage type of
    the column, or the values are cast. *)
Definition astype (dtype : Dtype) (feature : Series) : option pyexn :=
  match astype_dtype (s_dtype feature) dtype with
  | Some e => Some e
  | None => astype_values dtype (s_values feature)
  end.

Definition _guess_role (rd : Reader) (feature : Series) : result ColumnRole :=
  let num_dtype := r_dtype (_get_default_role_from_str rd "numeric") in
  let second_try :=
    let date_format := r_format (_get_default_role_from_str rd "datetime") in
    let dt_role := DatetimeRole np_datetime64 date_format in
    match to_datetime feature date_format "unix" None with
    | Throws PyValueError | Throws PyAttributeError | Throws PyTypeError =>
        Ok (CategoryRole np_object)
    | Throws e => Raise (Propagated e)
    | Returns t =>
        match tz_localize t "UTC" with
        | None => Ok dt_role
        | Some PyTypeError => Ok dt_role
        | Some _ => Ok (CategoryRole np_object)
        end
    end in
  match astype num_dtype feature with
  | None => Ok (NumericRole num_dtype)
  | Some PyValueError => second_try
  | Some PyTypeError => second_try
  | Some e => Raise (Propagated e)
  end.

(** [feature.isnull().mean() >= self.max_nan_rate]; the mean of no value
    is NaN, which is not at least any rate. *)
Definition nan_rate_reached (rd : Reader) (values : list cell) : bool :=
  match length values with
  | 0 => false
  | n => f_geb (f_ratio (length (filter (fun c => isnull c = true) values)) n)
               (max_nan_rate rd)
  end.

Definition _is_ok_feature (rd : Reader) (feature : Series) : result bool :=
  let values := s_values feature in
  if nan_rate_reached rd values then Ok false
  else
    match value_counts values with
    | [] => Raise (Propagated PyIndexError)
    | (_, top) :: _ =>
        if f_geb (f_ratio top (length values)) (max_constant_rate rd)
        then Ok false
        else Ok true
    end.

(** ** [PandasToPandasReader._create_target] *)

(** An array attribute passed to the dataset ([kwargs] of [fit_read]): a
    column, a frame, or, while a multi-column target is collected, the
    list of its column names. *)
Inductive AttrVal :=
| ASeries (name : option string) (s : Series)
| AFrame (df : DataFrame)
| ANames (feats : list string).

(** [pd.Series(target)] *)
Definition as_series (target : AttrVal) : result (option string * Series) :=
  match target with
  | ASeries name s => Ok (name, s)
  | ANames feats => Ok (None, mkSeries np_object (CStr <$> feats))
  | AFrame _ => Raise (Propagated PyValueError)
  end.

Context {series_map : SeriesMap}.

(** The loop over [target.columns] of a multilabel target: every column
    is checked by itself, and its values are replaced by those of its
    encoding, [target.loc[:, col] = target_col.values]: the column of
    the frame takes the values, and the storage type that such an
    assignment leaves. *)
Fixpoint check_columns (cols : list (label * Series)) : M Reader (list (label * Series)) :=
  match cols with
  | [] => mret []
  | (col, s) :: cols' =>
      '(target_col, mapping) ← check_class_target s ;
      modify (fun rd =>
        match class_mapping rd with
        | CMPerCol ms => set_class_mapping (CMPerCol (dict_set col mapping ms)) rd
        | _ => rd
        end) ;;
      rest ← check_columns cols' ;
      let values := s_values target_col in
      mret ((col, mkSeries (setitem_dtype (s_dtype s) values) values) :: rest)
  end.

(** Whether [df.values] is an array of objects: the columns of a frame
    make one array, of numbers when all are columns of numbers, of the
    type of the columns when all have the same type, and of objects
    otherwise. *)
Definition object_values (dtypes : list Dtype) : bool :=
  existsb (fun d => bool_decide (d = np_object)) dtypes
  || negb (forallb is_number dtypes
           || match dtypes with
              | [] => true
              | d :: dtypes' => forallb (fun d' => bool_decide (d' = d)) dtypes'
              end).

(** [assert not np.isnan(values).any(), "Nan in target detected"];
    [np.isnan] takes no array of objects (TypeError), whatever the array
    holds. *)
Definition assert_no_nan (of_objects : bool) (values : list cell) : M Reader unit :=
  if of_objects then throw (Propagated PyTypeError)
  else assert (negb (existsb isnull values)) NanInTarget.

Definition _create_target (target : AttrVal) : M Reader AttrVal :=
  modify (set_class_mapping CMNone) ;;
  rd ← get ;
  if decide (task_name rd = "binary" ∨ task_name rd = "multiclass") then
    '(name, s) ← lift (as_series target) ;
    '(s', mapping) ← check_class_target s ;
    modify (set_class_mapping (from_option CMDict CMNone mapping)) ;;
    mret (ASeries name s')
  else if decide (task_name rd = "multilabel") then
    modify (set_class_mapping (CMPerCol [])) ;;
    match target with
    | AFrame df =>
        cols ← check_columns (df_columns df) ;
        modify (set_n_classes (Some (length (df_columns df) * 2))) ;;
        mret (AFrame (mkFrame cols))
    | _ => throw (Propagated PyAttributeError)
    end
  else
    match target with
    | ASeries _ s =>
        assert_no_nan (bool_decide (s_dtype s = np_object)) (s_values s) ;;
        mret target
    | AFrame df =>
        assert_no_nan (object_values ((fun c => s_dtype c.2) <$> df_columns df))
          (concat ((fun c => s_values c.2) <$> df_columns df)) ;;
        mret target
    | ANames _ => throw (Propagated PyAttributeError)
    end.

(** ** Datasets and the collaborators that read them *)

(** Modelled from the spec: [SeqNumpyPandasDataset], as the record of the
    arguments it is built from. *)
Record SeqDataset := mkSeqDataset {
  sd_data : DataFrame;
  sd_features : list string;
  sd_roles : gmap string ColumnRole;
  sd_idx : Idx;
  sd_name : string;
  sd_scheme : option kwargs;
  sd_attrs : gmap string AttrVal
}.

(** Modelled from the spec: [PandasDataset], as the record of the
    arguments it is built from, with the attribute [seq_data] that the
    sequential reader sets on it. *)
Record Dataset := mkDataset {
  ds_data : DataFrame;
  ds_roles : gmap string ColumnRole;
  ds_task : string;
  ds_attrs : gmap string AttrVal;
  ds_seq_data : option (list (string * SeqDataset))
}.

(** The roles as the user declares them: a role, by name or as an object,
    with the columns that have it. *)
Abbreviation UserRoles := (list (UserRole * list string)).
(** The same per column, as [roles_parser] returns them. *)
Abbreviation ParsedRoles := (list (string * UserRole)).
(** A table of statistics, one row per scored feature. *)
Variable StatRow : Type.
Abbreviation Stat := (list (string * StatRow)).

(** [roles_parser(roles)] *)
Variable roles_parser : UserRoles → ParsedRoles.
(** [set_sklearn_folds(task, target, cv=, random_state=, group=)] *)
Variable set_sklearn_folds : string → AttrVal → option Z → Z → option AttrVal → option (list Z).
(** [stat["max_score"]] of a row *)
Variable max_score : StatRow → F.
(** [get_numeric_roles_stat(dataset, manual_roles=, random_state=, subsample=, n_jobs=)] *)
Variable get_numeric_roles_stat : Dataset → ParsedRoles → Z → option N → Z → Stat.
(** [calc_encoding_rules(stat, **advanced_roles_params)], the six
    thresholds left after [drop_score_co] is popped. *)
Variable calc_encoding_rules : Stat → F → F → F → F → F → F → Stat.
Variable rule_based_roles_guess : Stat → gmap string ColumnRole.
(** [get_category_roles_stat(dataset, random_state=, subsample=, n_jobs=)] *)
Variable get_category_roles_stat : Dataset → Z → option N → Z → Stat.
Variable calc_category_rules : Stat → Stat.
Variable rule_based_cat_handler_guess : Stat → gmap string ColumnRole.
(** [get_null_scores(dataset, feats, random_state=, subsample=)]: a series
    over [feats], read at a feature. *)
Variable get_null_scores : Dataset → list string → Z → option N → string → F.

(** ** [PandasToPandasReader.advanced_roles_guess] *)

(** [stat["max_score"]]: a series over the features of the table. *)
Definition max_scores (stat : Stat) : list (string * F) :=
  (fun row => (row.1, max_score row.2)) <$> stat.

(** [{x: DropRole() for x in rejected}] *)
Definition drop_roles (rejected : list string) : gmap string ColumnRole :=
  list_to_map ((fun x => (x, DropRole)) <$> rejected).

(** The features whose final score, the larger of the null score and of
    the best score, is below [drop_co]. *)
Definition rejected_features (null_scores : string → F) (drop_co : F)
    (top_scores : list (string * F)) : list (string * F) :=
  filter (fun fs => f_ltb fs.2 drop_co = true)
         ((fun fs => (fs.1, f_max (null_scores fs.1) fs.2)) <$> top_scores).

(** [{**d1, **d2}] is [d2 ∪ d1]: the entries of [d2] win. *)
Definition advanced_roles_guess (rd : Reader) (dataset : Dataset)
    (manual_roles : ParsedRoles) : gmap string ColumnRole :=
  let new_roles_dict := ds_roles dataset in
  let p := advanced_roles_params rd in
  let drop_co := drop_score_co p in
  let stat := get_numeric_roles_stat dataset manual_roles
                (random_state rd) (samples rd) (n_jobs rd) in
  let '(new_roles_dict, top_scores) :=
    if bool_decide (0 < length stat)%nat then
      let stat := calc_encoding_rules stat (numeric_unique_rate p)
                    (max_to_3rd_rate p) (binning_enc_rate p) (raw_decr_rate p)
                    (max_score_rate p) (abs_score_val p) in
      (rule_based_roles_guess stat ∪ new_roles_dict, [max_scores stat])
    else (new_roles_dict, []) in
  let stat := get_category_roles_stat dataset
                (random_state rd) (samples rd) (n_jobs rd) in
  let '(new_roles_dict, top_scores) :=
    if bool_decide (0 < length stat)%nat then
      let stat := calc_category_rules stat in
      (rule_based_cat_handler_guess stat ∪ new_roles_dict,
       (top_scores ++ [max_scores stat])%list)
    else (new_roles_dict, top_scores) in
  if bool_decide (0 < length top_scores)%nat then
    let top_scores := concat top_scores in
    let null_scores := get_null_scores dataset top_scores.*1
                         (random_state rd) (samples rd) in
    let rejected := (rejected_features null_scores drop_co top_scores).*1 in
    drop_roles rejected ∪ new_roles_dict
  else new_roles_dict.

(** ** [PandasToPandasReader.fit_read] *)

(** [df.loc[:, feat]] and [df[feat]] *)
Definition loc (df : DataFrame) (feat : string) : result Series :=
  match lookup_col (df_columns df) feat with
  | Some c => Ok c
  | None => Raise (Propagated PyKeyError)
  end.

(** [df[feats]] and [df.loc[:, feats]] *)
Fixpoint select (df : DataFrame) (feats : list string) : result (list (label * Series)) :=
  match feats with
  | [] => Ok []
  | feat :: feats' =>
      match loc df feat, select df feats' with
      | Ok c, Ok rest => Ok ((LStr feat, c) :: rest)
      | Raise e, _ => Raise e
      | _, Raise e => Raise e
      end
  end.

Definition is_multi_target (rd : Reader) : bool :=
  bool_decide (task_name rd = "multi:reg" ∨ task_name rd = "multilabel").

Definition resolve (rd : Reader) (r : UserRole) : ColumnRole :=
  match r with
  | RoleName s => _get_default_role_from_str rd s
  | RoleObj r => r
  end.

Definition set_used_attr (attr : string) (v : UsedAttr) : M Reader unit :=
  modify (fun rd => set_used_array_attrs (<[attr := v]> (_used_array_attrs rd)) rd).

(** The body of the first loop of [fit_read], for a role [r] that names
    an array attribute [attr]: the column leaves the features for
    [kwargs]. [plain_data] is the table the column is read from. *)
Definition take_array_attr (plain_data : DataFrame) (feat attr : string)
    (kw : gmap string AttrVal) : M Reader (gmap string AttrVal) :=
  rd ← get ;
  if is_multi_target rd && bool_decide (attr = "target") then
    match kw !! attr with
    | Some (ANames feats) =>
        match _used_array_attrs rd !! attr with
        | Some (AttrCols used) =>
            set_used_attr attr (AttrCols (used ++ [feat])) ;;
            mret (<[attr := ANames (feats ++ [feat])]> kw)
        | Some (AttrCol _) => throw (Propagated PyAttributeError)
        | None => throw (Propagated PyKeyError)
        end
    | Some _ => throw (Propagated PyAttributeError)
    | None =>
        set_used_attr attr (AttrCols [feat]) ;;
        mret (<[attr := ANames [feat]]> kw)
    end
  else
    set_used_attr attr (AttrCol feat) ;;
    col ← lift (loc plain_data feat) ;
    mret (<[attr := ASeries (Some feat) col]> kw).

(** [for feat in parsed_roles: ...], lines 290 to 316. *)
Fixpoint extract_array_attrs (train_data : DataFrame) (feats : list string)
    (parsed_roles : ParsedRoles) (kw : gmap string AttrVal)
    : M Reader (ParsedRoles * gmap string AttrVal) :=
  match feats with
  | [] => mret (parsed_roles, kw)
  | feat :: feats' =>
      rd ← get ;
      match dict_get feat parsed_roles with
      | None => throw (Propagated PyKeyError)
      | Some r =>
          let r := resolve rd r in
          '(r, kw) ← match attrs_dict !! r_name r with
                     | Some attr =>
                         kw ← take_array_attr train_data feat attr kw ;
                         mret (DropRole, kw)
                     | None => mret (r, kw)
                     end ;
          extract_array_attrs train_data feats'
            (dict_set feat (RoleObj r) parsed_roles) kw
      end
  end.

(** [roles[name]] for a role given by name: its columns. *)
Fixpoint roles_by_name (name : string) (roles : UserRoles) : option (list string) :=
  match roles with
  | [] => None
  | (RoleName s, cols) :: roles' =>
      if decide (s = name) then Some cols else roles_by_name name roles'
  | (RoleObj _, _) :: roles' => roles_by_name name roles'
  end.

(** The checks of a declared role, shared by the three inference loops:
    a datetime role (one whose name is in [date_names]) must parse with
    its own parameters, and a category role declared by the bare name
    "category" takes the numeric storage type over a numeric column. *)
Definition check_declared_role (rd : Reader) (date_names : list string)
    (roles : UserRoles) (feat : string) (col : Series) (r : ColumnRole)
    : result ColumnRole :=
  let parsed :=
    if bool_decide (r_name r ∈ date_names) then
      match to_datetime col (r_format r) (r_origin r) (r_unit r) with
      | Returns _ => None
      | Throws PyValueError => Some BadDatetimeParams
      | Throws e => Some (Propagated e)
      end
    else None in
  match parsed with
  | Some e => Raise e
  | None =>
      if bool_decide (r_name r = "Category") then
        let cat_role := _get_default_role_from_str rd "category" in
        let flg_default_params :=
          match roles_by_name "category" roles with
          | Some cols => bool_decide (feat ∈ cols)
          | None => false
          end in
        if flg_default_params && negb (is_number (r_dtype cat_role))
           && is_number (s_dtype col)
        then Ok (with_dtype (r_dtype (_get_default_role_from_str rd "numeric")) r)
        else Ok r
      else Ok r
  end.

(** The role of a column without a declared role. *)
Definition infer_role (rd : Reader) (col : Series) : result ColumnRole :=
  match _is_ok_feature rd col with
  | Raise e => Raise e
  | Ok true => _guess_role rd col
  | Ok false => Ok DropRole
  end.

(** [# set back] *)
Definition set_back (feat : string) (r : ColumnRole) : M Reader unit :=
  if bool_decide (r_name r ≠ "Drop") then
    modify (fun rd =>
      set_used_features (_used_features rd ++ [feat])
        (set_roles (<[feat := r]> (_roles rd)) rd))
  else
    modify (fun rd => set_dropped_features (_dropped_features rd ++ [feat]) rd).

(** [for feat in subsample.columns: ...], lines 331 to 380. A declared
    role is the object that [parsed_roles] holds, so a change of its
    storage type shows there too. *)
Fixpoint infer_roles (roles : UserRoles) (cols : list (label * Series))
    (parsed_roles : ParsedRoles) : M Reader ParsedRoles :=
  match cols with
  | [] => mret parsed_roles
  | (LObj _, _) :: _ => throw FeatureNameNotString
  | (LStr feat, col) :: cols' =>
      rd ← get ;
      '(r, parsed_roles) ←
        match dict_get feat parsed_roles with
        | Some (RoleObj r) =>
            r ← lift (check_declared_role rd ["Datetime"] roles feat col r) ;
            mret (r, dict_set feat (RoleObj r) parsed_roles)
        | Some (RoleName _) => throw (Propagated PyAttributeError)
        | None =>
            r ← lift (infer_role rd col) ;
            mret (r, parsed_roles)
        end ;
      set_back feat r ;;
      infer_roles roles cols' parsed_roles
  end.

(** [subsample], lines 326 to 328: the seed is the literal 42. *)
Definition take_subsample (rd : Reader) (data : DataFrame) : DataFrame :=
  match samples rd with
  | Some n =>
      if bool_decide (n < N.of_nat (shape0 data))%N then sample n 42 data else data
  | None => data
  end.

(** [t.name if isinstance(t, pd.Series) else t.columns] *)
Definition target_name (t : AttrVal) : result TargetName :=
  match t with
  | ASeries name _ => Ok (TName name)
  | AFrame df => Ok (TColumns (df_columns df).*1)
  | ANames _ => Raise (Propagated PyAttributeError)
  end.

(** Lines 282 to 322: the declared roles, the array attributes and the
    target. *)
Definition read_roles_and_target (train_data : DataFrame) (roles : UserRoles)
    (kw : gmap string AttrVal) : M Reader (ParsedRoles * gmap string AttrVal) :=
  let parsed_roles := roles_parser roles in
  '(parsed_roles, kw) ←
    extract_array_attrs train_data parsed_roles.*1 parsed_roles kw ;
  match kw !! "target" with
  | None => throw TargetNotDefined
  | Some t =>
      rd ← get ;
      t ← (if is_multi_target rd then
             match t with
             | ANames feats =>
                 cols ← lift (select train_data feats) ;
                 mret (AFrame (mkFrame cols))
             | _ => throw (Propagated PyKeyError)
             end
           else mret t) ;
      name ← lift (target_name t) ;
      modify (set_target (Some name)) ;;
      t ← _create_target t ;
      mret (parsed_roles, <["target" := t]> kw)
  end.

(** Lines 326 to 382: the subsample and the simple guess of the roles. *)
Definition simple_roles_pass (train_data : DataFrame) (roles : UserRoles)
    (parsed_roles : ParsedRoles) : M Reader ParsedRoles :=
  rd ← get ;
  let subsample := take_subsample rd train_data in
  parsed_roles ← infer_roles roles (df_columns subsample) parsed_roles ;
  rd ← get ;
  assert (bool_decide (0 < length (_used_features rd))%nat) AllFeaturesExcluded ;;
  mret parsed_roles.

(** [PandasDataset(train_data[self.used_features], self.roles, task=self.task, **kwargs)] *)
Definition make_dataset (train_data : DataFrame) (kw : gmap string AttrVal)
    : M Reader Dataset :=
  rd ← get ;
  cols ← lift (select train_data (_used_features rd)) ;
  mret (mkDataset (mkFrame cols) (_roles rd) (task_name rd) kw None).

(** [[x for x in new_roles if new_roles[x].name == "Drop" and not self._roles[x].force_input]] *)
Fixpoint make_droplist (roles : gmap string ColumnRole)
    (new_roles : list (string * ColumnRole)) : result (list string) :=
  match new_roles with
  | [] => Ok []
  | (x, r) :: rest =>
      if bool_decide (r_name r = "Drop") then
        match roles !! x with
        | None => Raise (Propagated PyKeyError)
        | Some old =>
            match make_droplist roles rest with
            | Ok l => Ok (if r_force_input old then l else x :: l)
            | Raise e => Raise e
            end
        end
      else make_droplist roles rest
  end.

(** Lines 399 to 403: the advanced guess and what it drops. *)
Definition apply_advanced_roles (dataset : Dataset) (parsed_roles : ParsedRoles)
    : M Reader unit :=
  rd ← get ;
  let new_roles := advanced_roles_guess rd dataset parsed_roles in
  droplist ← lift (make_droplist (_roles rd) (map_to_list new_roles)) ;
  upd_used_features None (Some droplist) ;;
  modify (set_roles (filter (fun xr => xr.1 ∉ droplist) new_roles)).

(** Lines 282 to 382: [fit_read] up to the end of the simple guess. *)
Definition infer_pass (train_data : DataFrame) (roles : UserRoles)
    (kw : gmap string AttrVal) : M Reader (ParsedRoles * gmap string AttrVal) :=
  '(parsed_roles, kw) ← read_roles_and_target train_data roles kw ;
  parsed_roles ← simple_roles_pass train_data roles parsed_roles ;
  mret (parsed_roles, kw).

Definition fit_read (train_data : DataFrame) (roles : UserRoles)
    (kw : gmap string AttrVal) : M Reader Dataset :=
  '(parsed_roles, kw) ← infer_pass train_data roles kw ;
  rd ← get ;
  t ← lift (from_option Ok (Raise (Propagated PyKeyError)) (kw !! "target")) ;
  let folds := set_sklearn_folds (task_name rd) t (cv rd) (random_state rd)
                 (kw !! "group") in
  let kw :=
    match folds with
    | Some folds => <["folds" := ASeries None (mkSeries np_int64 (CInt <$> folds))]> kw
    | None => kw
    end in
  dataset ← make_dataset train_data kw ;
  if advanced_roles rd then
    apply_advanced_roles dataset parsed_roles ;;
    make_dataset train_data kw
  else mret dataset.

(** ** [DictToPandasSeqReader] *)

(** [ti.create_data(seq_data, plain_data=)] and
    [ti.create_target(seq_data, plain_data=)] of an index builder. *)
Variable create_data : Indexer → DataFrame → option DataFrame → Idx.
Variable create_target : Indexer → DataFrame → option DataFrame → option Idx.
(** [d.to_sequence((slice(None), cols)).data[:, :, 0].astype(float)] *)
Variable to_sequence : SeqDataset → list string → DataFrame.

Definition create_ids (seq_data : DataFrame) (plain_data : option DataFrame)
    (dataset_name : string) : M Reader unit :=
  rd ← get ;
  match seq_params rd !! dataset_name with
  | None => throw (Propagated PyKeyError)
  | Some p =>
      if bool_decide (sp_case p = "next_values") then
        match dict_get dataset_name (meta rd) with
        | None => throw (Propagated PyKeyError)
        | Some m =>
            modify (set_ti (<[dataset_name :=
              TopInd (sp_scheme p) (m_roles m) (sp_params p) seq_data plain_data]>
              (ti rd)))
        end
      else if bool_decide (sp_case p = "ids") then
        modify (set_ti (<[dataset_name :=
          IDSInd (sp_scheme p) (sp_params p) seq_data plain_data]> (ti rd)))
      else mret tt
  end.

(** What the loop of [parse_seq] collects besides the reader's own
    fields: [parsed_roles], [seq_roles], [seq_features], [kwargs] and
    [used_array_attrs]. *)
Record SeqLoop := mkSeqLoop {
  l_parsed_roles : ParsedRoles;
  l_seq_roles : gmap string ColumnRole;
  l_seq_features : list string;
  l_kwargs : gmap string AttrVal;
  l_used_array_attrs : gmap string string
}.

(** The role of a column of an auxiliary table, lines 788 to 828. *)
Definition seq_role (rd : Reader) (roles : UserRoles) (subsample : DataFrame)
    (feat : string) (parsed_roles : ParsedRoles) : result ColumnRole :=
  match loc subsample feat with
  | Raise e => Raise e
  | Ok col =>
      match dict_get feat parsed_roles with
      | Some r =>
          match check_declared_role rd ["Datetime"; "Date"] roles feat col (resolve rd r) with
          | Raise e => Raise e
          | Ok r =>
              if bool_decide (r_name r = "Target")
              then Ok (_get_default_role_from_str rd "numeric")
              else Ok r
          end
      | None => infer_role rd col
      end
  end.

(** [for feat in seq_dataset.columns: ...], lines 783 to 847. *)
Fixpoint parse_seq_columns (roles : UserRoles) (seq_dataset subsample : DataFrame)
    (cols : list (label * Series)) (acc : SeqLoop) : M Reader SeqLoop :=
  match cols with
  | [] => mret acc
  | (LObj _, _) :: _ => throw FeatureNameNotString
  | (LStr feat, col) :: cols' =>
      rd ← get ;
      r ← lift (seq_role rd roles subsample feat (l_parsed_roles acc)) ;
      let parsed_roles := dict_set feat (RoleObj r) (l_parsed_roles acc) in
      let '(r, kw, used) :=
        match attrs_dict !! r_name r with
        | Some attr =>
            if bool_decide (attr = "target")
            then (r, l_kwargs acc, l_used_array_attrs acc)
            else (DropRole, <[attr := ASeries (Some feat) col]> (l_kwargs acc),
                  <[attr := feat]> (l_used_array_attrs acc))
        | None => (r, l_kwargs acc, l_used_array_attrs acc)
        end in
      set_back feat r ;;
      let acc :=
        if bool_decide (r_name r ≠ "Drop")
        then mkSeqLoop parsed_roles (<[feat := r]> (l_seq_roles acc))
               (l_seq_features acc ++ [feat]) kw used
        else mkSeqLoop parsed_roles (l_seq_roles acc) (l_seq_features acc) kw used in
      parse_seq_columns roles seq_dataset subsample cols' acc
  end.

(** Lines 863 to 866. *)
Definition check_seq_idx (seq_idx_data : Idx) (seq_idx_target : option Idx)
    : M Reader unit :=
  match seq_idx_target with
  | Some seq_idx_target =>
      assert (bool_decide (length seq_idx_data = length seq_idx_target)) IdsDontMatch
  | None => mret tt
  end.

(** Lines 775 to 861 of [parse_seq]: the roles of the columns and the
    indices that the builder of the table makes. *)
Definition build_seq_index (seq_dataset : DataFrame) (plain_data : option DataFrame)
    (dataset_name : string) (parsed_roles : ParsedRoles) (roles : UserRoles)
    : M Reader (SeqLoop * Idx * option Idx) :=
  rd ← get ;
  let subsample := take_subsample rd seq_dataset in
  acc ← parse_seq_columns roles seq_dataset subsample (df_columns seq_dataset)
          (mkSeqLoop parsed_roles ∅ [] ∅ ∅) ;
  assert (bool_decide (0 < length (l_seq_features acc))%nat) AllFeaturesExcluded ;;
  modify (fun rd => set_meta (dict_set dataset_name
    (mkSeqMeta (l_seq_roles acc) (l_seq_features acc) (l_used_array_attrs acc) None)
    (meta rd)) rd) ;;
  create_ids seq_dataset plain_data dataset_name ;;
  rd ← get ;
  match ti rd !! dataset_name with
  | None => throw (Propagated PyKeyError)
  | Some builder =>
      let seq_idx_data := create_data builder seq_dataset plain_data in
      let seq_idx_target := create_target builder seq_dataset plain_data in
      modify (fun rd => set_meta (dict_set dataset_name
        (mkSeqMeta (l_seq_roles acc) (l_seq_features acc) (l_used_array_attrs acc)
           (Some (seq_idx_data, seq_idx_target)))
        (meta rd)) rd) ;;
      mret (acc, seq_idx_data, seq_idx_target)
  end.

Definition parse_seq (seq_dataset : DataFrame) (plain_data : option DataFrame)
    (dataset_name : string) (parsed_roles : ParsedRoles) (roles : UserRoles)
    : M Reader (SeqDataset * ParsedRoles) :=
  '(acc, seq_idx_data, seq_idx_target) ←
    build_seq_index seq_dataset plain_data dataset_name parsed_roles roles ;
  check_seq_idx seq_idx_data seq_idx_target ;;
  rd ← get ;
  data ← lift (select seq_dataset (l_seq_features acc)) ;
  scheme ← lift (from_option (fun p => Ok (sp_scheme p))
                   (Raise (Propagated PyKeyError)) (seq_params rd !! dataset_name)) ;
  mret (mkSeqDataset (mkFrame data) (l_seq_features acc) (l_seq_roles acc)
          (default seq_idx_data seq_idx_target) dataset_name scheme (l_kwargs acc),
        l_parsed_roles acc).

(** [for dataset_name, dataset in seq_data.items(): ...], lines 910 to 912. *)
Fixpoint parse_seqs (plain_data : option DataFrame) (roles : UserRoles)
    (seq_data : list (string * DataFrame)) (parsed_roles : ParsedRoles)
    (seq_datasets : list (string * SeqDataset))
    : M Reader (ParsedRoles * list (string * SeqDataset)) :=
  match seq_data with
  | [] => mret (parsed_roles, seq_datasets)
  | (dataset_name, dataset) :: seq_data' =>
      '(seq_dataset, parsed_roles) ←
        parse_seq dataset plain_data dataset_name parsed_roles roles ;
      parse_seqs plain_data roles seq_data' parsed_roles
        (dict_set dataset_name seq_dataset seq_datasets)
  end.

(** [for feat in parsed_roles: ...], lines 916 to 942: as in the plain
    reader, for the columns of the plain table only. *)
Fixpoint extract_plain_attrs (plain_data : option DataFrame) (feats : list string)
    (parsed_roles : ParsedRoles) (kw : gmap string AttrVal)
    : M Reader (ParsedRoles * gmap string AttrVal) :=
  match feats with
  | [] => mret (parsed_roles, kw)
  | feat :: feats' =>
      rd ← get ;
      match dict_get feat parsed_roles, plain_data with
      | None, _ => throw (Propagated PyKeyError)
      | Some r, Some plain =>
          let r := resolve rd r in
          if bool_decide (LStr feat ∈ (df_columns plain).*1) then
            '(r, kw) ← match attrs_dict !! r_name r with
                       | Some attr =>
                           kw ← take_array_attr plain feat attr kw ;
                           mret (DropRole, kw)
                       | None => mret (r, kw)
                       end ;
            extract_plain_attrs plain_data feats'
              (dict_set feat (RoleObj r) parsed_roles) kw
          else extract_plain_attrs plain_data feats' parsed_roles kw
      | Some r, None => extract_plain_attrs plain_data feats' parsed_roles kw
      end
  end.

(** Lines 944 to 949: the target of the first auxiliary table that has
    one. *)
Fixpoint seq_target (roles : UserRoles) (seq_datasets : option (list (string * SeqDataset)))
    (metas : list (string * SeqMeta)) : result (option AttrVal) :=
  match metas with
  | [] => Ok None
  | (seq_name, values) :: metas' =>
      match m_seq_idx values with
      | None => Raise (Propagated PyKeyError)
      | Some (_, None) => seq_target roles seq_datasets metas'
      | Some (_, Some _) =>
          match seq_datasets with
          | None => Raise (Propagated PyTypeError)
          | Some ds =>
              match dict_get seq_name ds, roles_by_name "target" roles with
              | None, _ => Raise (Propagated PyKeyError)
              | Some _, None => Raise (Propagated PyKeyError)
              | Some d, Some cols => Ok (Some (AFrame (to_sequence d cols)))
              end
          end
      end
  end.

(** [sorted(list(set(self.used_features) & set(plain_features)))] and the
    roles of these features, lines 1030 and 1031. *)
Definition set_plain_features (plain_data : option DataFrame) : M Reader unit :=
  modify (fun rd =>
    let plain_features := from_option (fun p => (df_columns p).*1) [] plain_data in
    let used : gset string :=
      list_to_set (filter (fun x => LStr x ∈ plain_features) (_used_features rd)) in
    let plain_used := merge_sort String.le (elements used) in
    set_plain_roles (filter (fun xr => xr.1 ∈ plain_used) (_roles rd))
      (set_plain_used_features plain_used rd)).

(** The plain dataset of the sequential reader, lines 1033 to 1038. *)
Definition make_plain_dataset (plain_data : option DataFrame)
    (kw : gmap string AttrVal) : M Reader Dataset :=
  rd ← get ;
  cols ← match plain_data with
         | Some plain => lift (select plain (plain_used_features rd))
         | None => mret []
         end ;
  mret (mkDataset (mkFrame cols) (plain_roles rd) (task_name rd) kw None).

(** Lines 960 to 1015: the subsample of the plain table and the simple
    guess of its roles. *)
Definition simple_plain_pass (plain_data : option DataFrame) (roles : UserRoles)
    (parsed_roles : ParsedRoles) : M Reader ParsedRoles :=
  match plain_data with
  | None => mret parsed_roles
  | Some plain =>
      rd ← get ;
      let subsample := take_subsample rd plain in
      parsed_roles ← infer_roles roles (df_columns subsample) parsed_roles ;
      rd ← get ;
      assert (existsb (fun x => bool_decide (LStr x ∈ (df_columns subsample).*1))
                (_used_features rd))
        AllFeaturesExcluded ;;
      mret parsed_roles
  end.

(** Lines 903 to 956: the auxiliary tables, the array attributes and the
    target. *)
Definition read_seq_and_target (plain_data : option DataFrame)
    (seq_data : option (list (string * DataFrame))) (roles : UserRoles)
    (kw : gmap string AttrVal)
    : M Reader (ParsedRoles * gmap string AttrVal * option (list (string * SeqDataset))) :=
  let parsed_roles := roles_parser roles in
  '(parsed_roles, seq_datasets) ←
    match seq_data with
    | Some seq_data =>
        '(parsed_roles, ds) ← parse_seqs plain_data roles seq_data parsed_roles [] ;
        mret (parsed_roles, Some ds)
    | None => mret (parsed_roles, None)
    end ;
  '(parsed_roles, kw) ←
    extract_plain_attrs plain_data parsed_roles.*1 parsed_roles kw ;
  rd ← get ;
  from_seq ← lift (seq_target roles seq_datasets (meta rd)) ;
  let kw := from_option (fun t => <["target" := t]> kw) kw from_seq in
  match kw !! "target" with
  | None => throw TargetNotDefined
  | Some t =>
      t ← match t, plain_data with
          | ANames feats, Some plain =>
              cols ← lift (select plain feats) ;
              mret (AFrame (mkFrame cols))
          | ANames _, None => throw (Propagated PyAttributeError)
          | _, _ => mret t
          end ;
      name ← lift (target_name t) ;
      modify (set_target (Some name)) ;;
      t ← _create_target t ;
      mret (parsed_roles, <["target" := t]> kw, seq_datasets)
  end.

(** The number of rows of a target, [len(kwargs["target"])]. *)
Definition target_len (t : AttrVal) : nat :=
  match t with
  | ASeries _ s => length (s_values s)
  | AFrame df => shape0 df
  | ANames feats => length feats
  end.

(** Lines 903 to 1015: the sequential [fit_read] up to the end of the
    simple guess. *)
Definition seq_infer_pass (plain_data : option DataFrame)
    (seq_data : option (list (string * DataFrame))) (roles : UserRoles)
    (kw : gmap string AttrVal)
    : M Reader (ParsedRoles * gmap string AttrVal * option (list (string * SeqDataset))) :=
  '(parsed_roles, kw, seq_datasets) ←
    read_seq_and_target plain_data seq_data roles kw ;
  parsed_roles ← simple_plain_pass plain_data roles parsed_roles ;
  mret (parsed_roles, kw, seq_datasets).

(** [seq_datasets[seq_name].idx = values["seq_idx_data"]], lines 1055 and
    1056, for a reader whose [self.meta] names the parsed sequences only:
    each sequence dataset takes the index that its entry of [self.meta]
    holds. An entry of [self.meta] without a dataset, which the source
    answers with a [KeyError], is left out. *)
Definition set_seq_idx (metas : list (string * SeqMeta))
    (seq_datasets : list (string * SeqDataset)) : list (string * SeqDataset) :=
  (fun nd : string * SeqDataset =>
     match dict_get nd.1 metas with
     | Some (mkSeqMeta _ _ _ (Some (seq_idx_data, _))) =>
         (nd.1, mkSeqDataset (sd_data nd.2) (sd_features nd.2) (sd_roles nd.2)
                  seq_idx_data (sd_name nd.2) (sd_scheme nd.2) (sd_attrs nd.2))
     | _ => nd
     end) <$> seq_datasets.

(** [DictToPandasSeqReader.fit_read]; [train_data] is the pair of
    [train_data.get("plain")] and [train_data.get("seq")]. *)
Definition seq_fit_read (plain_data : option DataFrame)
    (seq_data : option (list (string * DataFrame))) (roles : UserRoles)
    (kw : gmap string AttrVal) : M Reader Dataset :=
  '(parsed_roles, kw, seq_datasets) ←
    seq_infer_pass plain_data seq_data roles kw ;
  rd ← get ;
  t ← lift (from_option Ok (Raise (Propagated PyKeyError)) (kw !! "target")) ;
  let kw :=
    match cv rd with
    | Some _ =>
        let n := from_option shape0 (target_len t) plain_data in
        let folds :=
          match set_sklearn_folds (task_name rd) t (cv rd) (random_state rd)
                  (kw !! "group") with
          | Some folds => mkSeries np_int64 (CInt <$> folds)
          | None => mkSeries np_float64 (replicate n CNaN)
          end in
        <["folds" := ASeries None folds]> kw
    | None => kw
    end in
  set_plain_features plain_data ;;
  dataset ← make_plain_dataset plain_data kw ;
  dataset ← (if advanced_roles rd then
               apply_advanced_roles dataset parsed_roles ;;
               set_plain_features plain_data ;;
               make_plain_dataset plain_data kw
             else mret dataset) ;
  rd ← get ;
  mret (mkDataset (ds_data dataset) (ds_roles dataset) (ds_task dataset)
          (ds_attrs dataset) (option_map (set_seq_idx (meta rd)) seq_datasets)).

(** ** [Reader.cols_by_type] *)

(** [self.roles.items()] comes in the order of the [dict]; the enumeration
    of the map stands for it. *)
Definition cols_by_type (rd : Reader) (col_type : string) : list string :=
  (filter (fun cr => r_name cr.2 = col_type) (map_to_list (_roles rd))).*1.

(** ** The constructors *)

(** [PandasToPandasReader.__init__], with [Reader.__init__] that it calls;
    the caller passes the defaults of the signature for the arguments
    that it leaves out. The attributes that only the sequential reader
    has are empty. *)
Definition PandasToPandasReader_init (task : string) (samples : option N)
    (max_nan_rate max_constant_rate : F) (cv : option Z) (random_state : Z)
    (roles_params : option (gmap string kwargs)) (n_jobs : Z) (advanced_roles : bool)
    (numeric_unique_rate max_to_3rd_rate binning_enc_rate raw_decr_rate
       max_score_rate abs_score_val drop_score_co : F) : Reader :=
  mkReader task ∅ [] ∅ [] samples max_nan_rate max_constant_rate cv random_state
    n_jobs (default ∅ roles_params) None advanced_roles
    (mkAdvParams numeric_unique_rate max_to_3rd_rate binning_enc_rate raw_decr_rate
       max_score_rate abs_score_val drop_score_co)
    CMNone None ∅ ∅ [] [] ∅ [].

(** The [seq_params] of a sequential reader that is given none. *)
Definition default_seq_params : gmap string SeqParams :=
  {[ "seq" := mkSeqParams "next_values"
                (<["n_target" := VInt 7]> (<["history" := VInt 7]>
                   (<["step" := VInt 1]> {[ "from_last" := VBool true ]})))
                None ]}.

(** [DictToPandasSeqReader.__init__] *)
Definition DictToPandasSeqReader_init (task : string) (samples : option N)
    (max_nan_rate max_constant_rate : F) (cv : option Z) (random_state : Z)
    (roles_params : option (gmap string kwargs)) (n_jobs : Z) (advanced_roles : bool)
    (numeric_unique_rate max_to_3rd_rate binning_enc_rate raw_decr_rate
       max_score_rate abs_score_val drop_score_co : F)
    (seq_params : option (gmap string SeqParams)) : Reader :=
  mkReader task ∅ [] ∅ [] samples max_nan_rate max_constant_rate cv random_state
    n_jobs (default ∅ roles_params) None advanced_roles
    (mkAdvParams numeric_unique_rate max_to_3rd_rate binning_enc_rate raw_decr_rate
       max_score_rate abs_score_val drop_score_co)
    CMNone None (default default_seq_params seq_params) ∅ [] [] ∅ [].

(** ** [Reader.from_reader] *)

(** The names in [reader.__dict__] after [PandasToPandasReader.__init__],
    in the order of the assignments. *)
Definition instance_attrs : list string :=
  ["task"; "_roles"; "_dropped_features"; "_used_array_attrs"; "_used_features";
   "samples"; "max_nan_rate"; "max_constant_rate"; "cv"; "random_state"; "n_jobs";
   "roles_params"; "target"; "advanced_roles"; "advanced_roles_params"; "params";
   "class_mapping"; "_n_classes"].

(** [for attr in reader.__dict__: if attr[0] == "_": cls.__dict__[attr] = ...].
    The [__dict__] of a class is a read-only view (a mappingproxy): the
    assignment of an item to it raises a [TypeError]. The empty name has
    no first character. *)
Fixpoint copy_private_attrs (attrs : list string) : result unit :=
  match attrs with
  | [] => Ok tt
  | EmptyString :: _ => Raise (Propagated PyIndexError)
  | String a _ :: attrs' =>
      if bool_decide (String a EmptyString = "_") then Raise (Propagated PyTypeError)
      else copy_private_attrs attrs'
  end.

(** [new_reader] is [cls(reader.task, **kwargs)] and [attrs] the names in
    [reader.__dict__]. *)
Definition from_reader (new_reader : Reader) (attrs : list string) : result Reader :=
  match copy_private_attrs attrs with
  | Ok _ => Ok new_reader
  | Raise e => Raise e
  end.

(** ** [PandasToPandasReader.read] *)


(** [val.map(m).values] for the mapping [m] of a target. *)
Definition map_values (m : class_map) (val : Series) : list cell :=
  map_cell m <$> s_values val.

Definition of_outcome {A} (o : outcome A) : result A :=
  match o with
  | Returns a => Ok a
  | Throws e => Raise (Propagated e)
  end.

(** A label as the key of a [dict]. *)
Definition label_key (col : label) : cell :=
  match col with
  | LStr s => CStr s
  | LObj z => CInt z
  end.

(** [self.class_mapping[col]] *)
Definition column_mapping (cm : ClassMapping) (col : label)
    : result (option (class_map + nat)) :=
  match cm with
  | CMNone => Raise (Propagated PyTypeError)
  | CMDict m =>
      match dict_get (label_key col) m with
      | Some n => Ok (Some (inr n))
      | None => Raise (Propagated PyKeyError)
      end
  | CMPerCol ms =>
      match dict_get col ms with
      | Some (Some m) => Ok (Some (inl m))
      | Some None => Ok None
      | None => Raise (Propagated PyKeyError)
      end
  end.

(** [for col in val.columns: ...], lines 587 to 589. *)
Fixpoint map_target_columns (cm : ClassMapping) (cols : list (label * Series))
    : result (list (label * Series)) :=
  match cols with
  | [] => Ok []
  | (col, s) :: cols' =>
      let mapped :=
        match column_mapping cm col with
        | Raise e => Raise e
        | Ok None => Ok s
        | Ok (Some (inl m)) =>
            Ok (mkSeries (setitem_dtype (s_dtype s) (map_values m s)) (map_values m s))
        | Ok (Some (inr n)) =>
            match map_by_code n s with
            | Returns s' =>
                Ok (mkSeries (setitem_dtype (s_dtype s) (s_values s')) (s_values s'))
            | Throws e => Raise (Propagated e)
            end
        end in
      match mapped with
      | Raise e => Raise e
      | Ok s' =>
          match map_target_columns cm cols' with
          | Raise e => Raise e
          | Ok rest => Ok ((col, s') :: rest)
          end
      end
  end.

(** Lines 579 to 589: the target of [data] through the class mapping of
    the reader. A column has one dimension, a frame two. *)
Definition encode_target (rd : Reader) (col_name : UsedAttr) (val : AttrVal)
    : result AttrVal :=
  match class_mapping rd, val with
  | CMNone, _ => Ok val
  | CMDict m, ASeries name s =>
      Ok (ASeries name (mkSeries (map_dtype (map_values m s)) (map_values m s)))
  | CMPerCol ms, ASeries name s =>
      match map_by_columns ms s with
      | Returns s' => Ok (ASeries name s')
      | Throws e => Raise (Propagated e)
      end
  | cm, AFrame df =>
      match map_target_columns cm (df_columns df) with
      | Ok cols => Ok (AFrame (mkFrame cols))
      | Raise e => Raise e
      end
  | _, ANames _ => Raise (Propagated PyAttributeError)
  end.

(** [data.loc[:, col_name]] for the name, or the names, that
    [used_array_attrs] holds. *)
Definition loc_attr (data : DataFrame) (col_name : UsedAttr) : result AttrVal :=
  match col_name with
  | AttrCol feat =>
      match loc data feat with
      | Ok s => Ok (ASeries (Some feat) s)
      | Raise e => Raise e
      end
  | AttrCols feats =>
      match select data feats with
      | Ok cols => Ok (AFrame (mkFrame cols))
      | Raise e => Raise e
      end
  end.

(** The body of the loop over [self.used_array_attrs], lines 573 to 591:
    the value of the attribute, or nothing when [data] has no such
    column ([except KeyError: continue]). *)
Definition read_array_attr (rd : Reader) (data : DataFrame) (array_attr : string)
    (col_name : UsedAttr) : result (option AttrVal) :=
  match loc_attr data col_name with
  | Raise (Propagated PyKeyError) => Ok None
  | Raise e => Raise e
  | Ok val =>
      if bool_decide (array_attr = "target") then
        match encode_target rd col_name val with
        | Ok val => Ok (Some val)
        | Raise e => Raise e
        end
      else Ok (Some val)
  end.

(** The loop over [self.used_array_attrs]. Only the entry of the target
    can raise, so that the order of the [dict], for which the enumeration
    of the map stands, does not show in the result. *)
Fixpoint read_array_attrs (rd : Reader) (data : DataFrame)
    (attrs : list (string * UsedAttr)) (kw : gmap string AttrVal)
    : result (gmap string AttrVal) :=
  match attrs with
  | [] => Ok kw
  | (array_attr, col_name) :: attrs' =>
      match read_array_attr rd data array_attr col_name with
      | Raise e => Raise e
      | Ok None => read_array_attrs rd data attrs' kw
      | Ok (Some val) => read_array_attrs rd data attrs' (<[array_attr := val]> kw)
      end
  end.

(** [read] assigns nothing to [self]: it is a function of the reader. *)
Definition read (rd : Reader) (data : DataFrame) (add_array_attrs : bool)
    : result Dataset :=
  let kw :=
    if add_array_attrs
    then read_array_attrs rd data (map_to_list (_used_array_attrs rd)) ∅
    else Ok ∅ in
  match kw with
  | Raise e => Raise e
  | Ok kw =>
      match select data (_used_features rd) with
      | Ok cols => Ok (mkDataset (mkFrame cols) (_roles rd) (task_name rd) kw None)
      | Raise e => Raise e
      end
  end.

(** * Properties *)

(** Forgets the collaborators that the goal does not mention, so that no
    automation picks one up. *)
Ltac forget_unused := repeat match goal with x : _ |- _ => clear x end.

(** Unfolds the monad of a reader computation applied to a reader. *)
Ltac run_reader :=
  repeat (unfold mbind, M_bind, mret, M_ret, lift, modify, get, gets, throw, assert;
          simpl).

(** ** The used features *)

(** The enumeration of a set has the elements of the set, each once. *)
Lemma NoDup_list_of_set (used : list string) (add remove : option (list string))
    (s : gset string) :
  NoDup (list_of_set used add remove s).
Proof. rewrite list_of_set_perm. apply NoDup_elements. Qed.

Lemma elem_of_list_of_set (used : list string) (add remove : option (list string))
    (s : gset string) (x : string) :
  x ∈ list_of_set used add remove s ↔ x ∈ s.
Proof. by rewrite list_of_set_perm, elem_of_elements. Qed.

#[local] Instance set_unfold_list_of_set (used : list string)
    (add remove : option (list string)) (s : gset string) (x : string) (P : Prop) :
  SetUnfoldElemOf x s P → SetUnfoldElemOf x (list_of_set used add remove s) P.
Proof. intros [HP]. constructor. by rewrite elem_of_list_of_set. Qed.

(** The set that [upd_used_features] builds. *)
Lemma upd_used_features_run (order : SetOrder) (add remove : option (list string))
    (rd : Reader) :
  upd_used_features (set_order := order) add remove rd
  = (Ok tt,
     set_used_features
       (list_of_set (_used_features rd) add remove
          ((list_to_set (_used_features rd) ∪ list_to_set (default [] add)
            : gset string) ∖ list_to_set (default [] remove))) rd).
Proof.
  unfold upd_used_features. run_reader.
  destruct add, remove; simpl; do 3 f_equal; clear; set_solver.
Qed.

Lemma upd_used_features_used (order : SetOrder) (add remove : option (list string))
    (rd : Reader) :
  _used_features (upd_used_features (set_order := order) add remove rd).2
  = list_of_set (_used_features rd) add remove
      ((list_to_set (_used_features rd) ∪ list_to_set (default [] add) : gset string)
       ∖ list_to_set (default [] remove)).
Proof. by rewrite upd_used_features_run. Qed.

(** C10. [upd_used_features] never raises and leaves, as the used
    features, a list without duplicates whose elements are those of
    (used features ∪ add) \ remove. The list is made from that set, in
    the order of the set and not in the order in which the features were
    inserted: under every order of the sets the elements are these, and
    every order of them is what the update leaves under some order of
    the sets. *)
Theorem upd_used_features_set (rd : Reader) (add remove : option (list string)) :
  let after := upd_used_features add remove rd in
  after.1 = Ok tt
  ∧ NoDup (_used_features after.2)
  ∧ list_to_set (_used_features after.2)
    = (list_to_set (_used_features rd) ∪ list_to_set (default [] add) : gset string)
      ∖ list_to_set (default [] remove)
  ∧ (∀ x, x ∈ _used_features after.2
          ↔ (x ∈ _used_features rd ∨ x ∈ default [] add) ∧ x ∉ default [] remove)
  ∧ (∀ l : list string, l ≡ₚ _used_features after.2 →
       ∃ other : SetOrder,
         _used_features (upd_used_features (set_order := other) add remove rd).2 = l).
Proof.
  cbv zeta. rewrite (upd_used_features_used set_order).
  set (s := (list_to_set (_used_features rd) ∪ list_to_set (default [] add) : gset string)
            ∖ list_to_set (default [] remove)).
  split; [by rewrite upd_used_features_run|].
  split; [apply NoDup_list_of_set|].
  split.
  { apply set_eq. intros x. by rewrite elem_of_list_to_set, elem_of_list_of_set. }
  split.
  { intros x. rewrite elem_of_list_of_set. unfold s.
    rewrite elem_of_difference, elem_of_union, !elem_of_list_to_set. done. }
  intros l Hl. rewrite list_of_set_perm in Hl.
  assert (Hlaw : ∀ (used : list string) (add remove : option (list string))
                    (s' : gset string),
            (if decide (l ≡ₚ elements s') then l else elements s') ≡ₚ elements s')
    by (intros; by case_decide).
  exists (Build_SetOrder (fun _ _ _ s' => if decide (l ≡ₚ elements s') then l else elements s')
            Hlaw).
  rewrite upd_used_features_used. simpl. fold s. by rewrite decide_True.
Qed.

(** ** The role guesser *)

Lemma astype_nil (dtype from : Dtype) :
  astype dtype (mkSeries from []) = astype_dtype from dtype.
Proof. unfold astype. simpl. by destruct (astype_dtype from dtype). Qed.

(** C3, as the code has it. The guesser tries the numeric cast first, and
    a sample without values has no value that the cast could refuse:
    when pandas casts the storage type of the column to the numeric
    type, the role of an empty sample is Numeric, with the configured
    numeric storage type, and not Category. Only when pandas refuses the
    cast for the storage type alone, with a ValueError or a TypeError as
    for datetime64, does the guess go on: the empty sample that parses
    as datetime and passes the time zone probe is Datetime. So an empty
    sample is Category only if both the cast of its storage type and the
    datetime parse or probe fail. *)
Theorem guess_role_empty_sample (rd : Reader) (dtype : Dtype) :
  let num_dtype := r_dtype (_get_default_role_from_str rd "numeric") in
  let date_format := r_format (_get_default_role_from_str rd "datetime") in
  let empty := mkSeries dtype [] in
  let guessed := _guess_role rd empty in
  (astype_dtype dtype num_dtype = None →
     guessed = Ok (NumericRole num_dtype)
     ∧ ∀ r, guessed = Ok r → r_name r = "Numeric" ∧ r_name r ≠ "Category")
  ∧ (astype_dtype dtype num_dtype = Some PyValueError
     ∨ astype_dtype dtype num_dtype = Some PyTypeError →
     ∀ t, to_datetime empty date_format "unix" None = Returns t →
          tz_localize t "UTC" = None ∨ tz_localize t "UTC" = Some PyTypeError →
          guessed = Ok (DatetimeRole np_datetime64 date_format))
  ∧ (∀ r, guessed = Ok r → r_name r = "Category" →
       astype_dtype dtype num_dtype ≠ None
       ∧ match to_datetime empty date_format "unix" None with
         | Returns t => tz_localize t "UTC" ≠ None ∧ tz_localize t "UTC" ≠ Some PyTypeError
         | Throws _ => True
         end).
Proof.
  cbv zeta. unfold _guess_role. rewrite astype_nil.
  split; [|split].
  - intros ->. split; [reflexivity|].
    intros r [= <-]. simpl. split; [reflexivity | discriminate].
  - intros Hcast t -> Htz.
    destruct Hcast as [-> | ->], Htz as [-> | ->]; reflexivity.
  - intros r Hr Hname.
    destruct (astype_dtype dtype _) as [e|] eqn:Hcast.
    + split; [done|].
      destruct (to_datetime _ _ _ _) as [t|e']; [|done].
      destruct (tz_localize t "UTC") as [e'|] eqn:Htz.
      * split; [done|]. intros [= ->].
        destruct e; try done; injection Hr as <-; done.
      * destruct e; try done; injection Hr as <-; done.
    + injection Hr as <-. done.
Qed.

(** C6. For a sample that the numeric cast rejects (it raises ValueError
    or TypeError) and that parses as datetime, the role is Datetime when
    the time zone probe succeeds and, all the same, when it raises
    TypeError; it is Category(object) when the probe raises anything
    else. When the datetime parse itself fails (ValueError,
    AttributeError or TypeError) the role is Category(object). *)
Theorem guess_role_tz_probe (rd : Reader) (feature : Series) :
  let num_dtype := r_dtype (_get_default_role_from_str rd "numeric") in
  let date_format := r_format (_get_default_role_from_str rd "datetime") in
  let parsed := to_datetime feature date_format "unix" None in
  astype num_dtype feature = Some PyValueError
  ∨ astype num_dtype feature = Some PyTypeError →
  (∀ t, parsed = Returns t →
     (tz_localize t "UTC" = None →
        _guess_role rd feature = Ok (DatetimeRole np_datetime64 date_format))
     ∧ (tz_localize t "UTC" = Some PyTypeError →
        _guess_role rd feature = Ok (DatetimeRole np_datetime64 date_format))
     ∧ (∀ e, tz_localize t "UTC" = Some e → e ≠ PyTypeError →
        _guess_role rd feature = Ok (CategoryRole np_object)))
  ∧ (∀ e, parsed = Throws e →
       e = PyValueError ∨ e = PyAttributeError ∨ e = PyTypeError →
       _guess_role rd feature = Ok (CategoryRole np_object)).
Proof.
  intros num_dtype date_format parsed Hcast.
  assert (Hsecond : _guess_role rd feature =
    match parsed with
    | Throws PyValueError | Throws PyAttributeError | Throws PyTypeError =>
        Ok (CategoryRole np_object)
    | Throws e => Raise (Propagated e)
    | Returns t =>
        match tz_localize t "UTC" with
        | None => Ok (DatetimeRole np_datetime64 date_format)
        | Some PyTypeError => Ok (DatetimeRole np_datetime64 date_format)
        | Some _ => Ok (CategoryRole np_object)
        end
    end).
  { unfold _guess_role. fold num_dtype date_format parsed.
    destruct Hcast as [-> | ->]; reflexivity. }
  rewrite Hsecond. split.
  - intros t ->. repeat split.
    + intros ->. reflexivity.
    + intros ->. reflexivity.
    + intros e -> Hne. destruct e; congruence.
  - intros e -> [-> | [-> | ->]]; reflexivity.
Qed.

(** ** Counting values *)

Lemma elem_of_uniques (x : cell) (l : list cell) : x ∈ uniques l ↔ x ∈ l.
Proof.
  induction l as [|y l IH]; simpl; [reflexivity|].
  rewrite !elem_of_cons, list_elem_of_filter, IH.
  destruct (decide (x = y)); naive_solver.
Qed.

Lemma NoDup_uniques (l : list cell) : NoDup (uniques l).
Proof.
  induction l as [|y l IH]; simpl; [constructor|].
  constructor.
  - rewrite list_elem_of_filter. naive_solver.
  - by apply NoDup_filter.
Qed.

Lemma uniques_nil_inv (l : list cell) : uniques l = [] → l = [].
Proof. destruct l; [reflexivity | discriminate]. Qed.

Lemma insert_count_perm (p : cell * nat) (s : list (cell * nat)) :
  insert_count p s ≡ₚ p :: s.
Proof.
  induction s as [|q s IH]; simpl; [reflexivity|].
  case_decide; [|reflexivity].
  rewrite IH. apply Permutation_swap.
Qed.

Lemma sort_counts_perm (l : list (cell * nat)) : sort_counts l ≡ₚ l.
Proof.
  induction l as [|p l IH]; simpl; [reflexivity|].
  rewrite insert_count_perm. by rewrite IH.
Qed.

(** By decreasing count. *)
Definition by_count (a b : cell * nat) : Prop := b.2 ≤ a.2.

#[local] Instance by_count_trans : Transitive by_count.
Proof. unfold by_count. intros a b c ??. lia. Qed.

Lemma insert_count_sorted (p : cell * nat) (s : list (cell * nat)) :
  Sorted by_count s → Sorted by_count (insert_count p s).
Proof.
  induction s as [|q s IH]; simpl; intros Hs.
  - repeat constructor.
  - apply Sorted_inv in Hs as [Hs Hq]. case_decide.
    + constructor; [by apply IH|].
      destruct s as [|q' s]; simpl.
      * constructor. unfold by_count. lia.
      * apply HdRel_inv in Hq. case_decide; constructor; unfold by_count in *; lia.
    + constructor; [by constructor|]. constructor. unfold by_count. lia.
Qed.

Lemma sort_counts_sorted (l : list (cell * nat)) : StronglySorted by_count (sort_counts l).
Proof.
  apply Sorted_StronglySorted; [apply _|].
  induction l as [|p l IH]; simpl; [constructor|].
  by apply insert_count_sorted.
Qed.

Lemma value_counts_all_sorted (l : list cell) :
  StronglySorted by_count (value_counts_all l).
Proof. apply sort_counts_sorted. Qed.

(** The entries of the table are the distinct values with their counts. *)
Lemma elem_of_value_counts_all (l : list cell) (x : cell) (c : nat) :
  (x, c) ∈ value_counts_all l ↔ x ∈ l ∧ c = count x l.
Proof.
  unfold value_counts_all. rewrite sort_counts_perm, list_elem_of_fmap.
  split.
  - intros (y & [= -> ->] & Hy). split; [by apply elem_of_uniques | reflexivity].
  - intros [Hx ->]. exists x. by rewrite elem_of_uniques.
Qed.

Lemma value_counts_all_keys (l : list cell) : (value_counts_all l).*1 ≡ₚ uniques l.
Proof.
  unfold value_counts_all. rewrite sort_counts_perm, <- list_fmap_compose.
  by rewrite list_fmap_id.
Qed.

Lemma NoDup_value_counts_all (l : list cell) : NoDup (value_counts_all l).*1.
Proof. rewrite value_counts_all_keys. apply NoDup_uniques. Qed.

Lemma value_counts_all_nil_inv (l : list cell) : value_counts_all l = [] → l = [].
Proof.
  intros Hnil. apply uniques_nil_inv, Permutation_nil_r.
  by rewrite <- value_counts_all_keys, Hnil.
Qed.

(** The first entry is a most frequent value. *)
Lemma value_counts_all_head (l : list cell) (v : cell) (top : nat) rest :
  value_counts_all l = (v, top) :: rest →
  v ∈ l ∧ top = count v l ∧ ∀ x, x ∈ l → count x l ≤ top.
Proof.
  intros Hvc.
  assert (Hin : (v, top) ∈ value_counts_all l) by (rewrite Hvc; left).
  apply elem_of_value_counts_all in Hin as [Hv Htop].
  repeat split; [done..|].
  intros x Hx.
  assert (Hxin : (x, count x l) ∈ value_counts_all l)
    by by apply elem_of_value_counts_all.
  pose proof (value_counts_all_sorted l) as Hs. rewrite Hvc in Hs, Hxin.
  apply StronglySorted_inv in Hs as [_ Hall].
  apply elem_of_cons in Hxin as [[= -> ->] | Hxin]; [lia|].
  rewrite Forall_forall in Hall. apply (Hall _ Hxin).
Qed.

(** The last entry is a least frequent value. *)
Lemma value_counts_all_last (l : list cell) (v : cell) (smallest : nat) :
  last (value_counts_all l) = Some (v, smallest) →
  v ∈ l ∧ smallest = count v l ∧ ∀ x, x ∈ l → smallest ≤ count x l.
Proof.
  forget_unused.
  intros Hlast.
  apply last_Some in Hlast as [front Hvc].
  assert (Hin : (v, smallest) ∈ value_counts_all l)
    by (rewrite Hvc; set_solver).
  apply elem_of_value_counts_all in Hin as [Hv Hc].
  repeat split; [done..|].
  intros x Hx.
  assert (Hxin : (x, count x l) ∈ value_counts_all l)
    by by apply elem_of_value_counts_all.
  pose proof (value_counts_all_sorted l) as Hs. rewrite Hvc in Hs, Hxin.
  apply elem_of_app in Hxin as [Hxin | Hxin].
  - assert (Hlast : (v, smallest) ∈ [(v, smallest)]) by apply list_elem_of_singleton, eq_refl.
    apply (StronglySorted_app_1_elem_of _ _ _ _ _ Hs Hxin Hlast).
  - apply list_elem_of_singleton in Hxin as [= -> ->]. lia.
Qed.

Lemma count_not_elem (x : cell) (l : list cell) : x ∉ l → count x l = 0.
Proof.
  unfold count. induction l as [|y l IH]; [reflexivity|].
  rewrite not_elem_of_cons, filter_cons. intros [Hne Hout].
  rewrite decide_False by congruence. by apply IH.
Qed.

Lemma count_filter_notnull (x : cell) (l : list cell) :
  isnull x = false → count x (filter (fun c => isnull c = false) l) = count x l.
Proof.
  intros Hx. unfold count. induction l as [|y l IH]; [reflexivity|].
  rewrite filter_cons. case_decide as Hy.
  - rewrite !filter_cons. case_decide; simpl; by rewrite IH.
  - rewrite IH, filter_cons. rewrite decide_False; [done|]. congruence.
Qed.

(** ** The feature filter *)

Lemma value_counts_head (l : list cell) (v : cell) (top : nat) rest :
  value_counts l = (v, top) :: rest →
  v ∈ l ∧ isnull v = false ∧ top = count v l
  ∧ ∀ x, isnull x = false → count x l ≤ top.
Proof.
  unfold value_counts. intros Hvc.
  apply value_counts_all_head in Hvc as (Hv & Htop & Hmax).
  apply list_elem_of_filter in Hv as [Hnull Hv].
  rewrite count_filter_notnull in Htop by done.
  repeat split; [done..|].
  intros x Hx. destruct (decide (x ∈ l)) as [Hin | Hout].
  - rewrite <- (count_filter_notnull x l Hx). apply Hmax.
    by apply list_elem_of_filter.
  - rewrite count_not_elem by done. lia.
Qed.

Lemma value_counts_not_nil (l : list cell) (c : cell) :
  c ∈ l → isnull c = false → value_counts l ≠ [].
Proof.
  intros Hc Hnull Hnil. apply value_counts_all_nil_inv in Hnil.
  assert (Hin : c ∈ filter (fun c => isnull c = false) l)
    by by apply list_elem_of_filter.
  rewrite Hnil in Hin. by apply not_elem_of_nil in Hin.
Qed.

(** C8, as the code has it. On a column with at least one row,
    [_is_ok_feature] returns false when the share of missing values is at
    least [max_nan_rate]. When some value is not missing it returns false
    as well when the most frequent of the values that are not missing
    makes up a share of all the rows of at least [max_constant_rate], and
    true otherwise. A column of missing values only gets false for every
    [max_nan_rate] below one. *)
Theorem is_ok_feature_rates `{!FloatLaws F} (rd : Reader) (feature : Series) :
  let values := s_values feature in
  let n := length values in
  let missing := length (filter (fun c => isnull c = true) values) in
  0 < n →
  (f_geb (f_ratio missing n) (max_nan_rate rd) = true →
     _is_ok_feature rd feature = Ok false)
  ∧ (∀ c, c ∈ values → isnull c = false →
       ∃ v top,
         v ∈ values ∧ isnull v = false ∧ top = count v values
         ∧ (∀ x, isnull x = false → count x values ≤ top)
         ∧ _is_ok_feature rd feature
           = Ok (negb (f_geb (f_ratio missing n) (max_nan_rate rd)
                       || f_geb (f_ratio top n) (max_constant_rate rd))))
  ∧ (missing = n → f_ltb (max_nan_rate rd) f_one = true →
       _is_ok_feature rd feature = Ok false).
Proof.
  intros values n missing Hn.
  assert (Hreached : nan_rate_reached rd values
                     = f_geb (f_ratio missing n) (max_nan_rate rd)).
  { unfold nan_rate_reached. fold n. destruct n; [lia | reflexivity]. }
  assert (Hfirst : f_geb (f_ratio missing n) (max_nan_rate rd) = true →
                   _is_ok_feature rd feature = Ok false).
  { intros Hge. unfold _is_ok_feature. fold values. by rewrite Hreached, Hge. }
  split; [exact Hfirst|]. split.
  - intros c Hc Hnull.
    destruct (value_counts values) as [|[v top] rest] eqn:Hvc.
    { by destruct (value_counts_not_nil values c). }
    destruct (value_counts_head _ _ _ _ Hvc) as (Hv & Hvnull & Htop & Hmax).
    exists v, top. repeat split; [done..|].
    unfold _is_ok_feature. fold values n. rewrite Hreached, Hvc.
    destruct (f_geb (f_ratio missing n) (max_nan_rate rd)); [reflexivity|].
    by destruct (f_geb (f_ratio top n) (max_constant_rate rd)).
  - intros Hall Hlt. apply Hfirst. rewrite Hall. by apply f_whole_ge.
Qed.

(** ** The class target *)

(** [check_class_target] in direct style. *)
Lemma check_class_target_run (target : Series) (rd : Reader) :
  check_class_target target rd =
    let cnts := value_counts_all (s_values target) in
    if existsb isnull cnts.*1 then (Raise NanInTarget, rd)
    else
      match np_sort cnts.*1 with
      | Raise e => (Raise e, rd)
      | Ok srtd =>
          let rd1 := set_n_classes (Some (length cnts.*1)) rd in
          match (if decide (task_name rd = "multiclass")
                 then check_smallest_class cnts rd1 else (Ok tt, rd1)) with
          | (Raise e, rd2) => (Raise e, rd2)
          | (Ok _, rd2) =>
              if is_arange srtd then
                if bool_decide (1 < length srtd) then
                  if decide (task_name rd = "binary" ∨ task_name rd = "multilabel") then
                    if bool_decide (length srtd = 2)
                    then (Ok (target, None), rd2)
                    else (Raise BinaryMoreThan2, rd2)
                  else (Ok (target, None), rd2)
                else (Raise LessThan2Unique, rd2)
              else
                match astype_int32 (map_cell (enumerate_classes cnts.*1)
                                      <$> s_values target) with
                | Ok mapped =>
                    (Ok (mkSeries np_int32 mapped, Some (enumerate_classes cnts.*1)), rd2)
                | Raise e => (Raise e, rd2)
                end
          end
      end.
Proof.
  unfold check_class_target. run_reader.
  destruct (existsb isnull _); simpl; [reflexivity|].
  destruct (np_sort _) as [srtd|e]; simpl; [|reflexivity].
  destruct (decide (task_name rd = "multiclass")); simpl.
  - destruct (check_smallest_class _ _) as [[[]|e'] rd2]; [|reflexivity].
    destruct (is_arange srtd); [|by destruct (astype_int32 _)].
    destruct (bool_decide (1 < length srtd)); simpl; [|reflexivity].
    destruct (decide (_ ∨ _)); simpl; [|reflexivity].
    by destruct (bool_decide (length srtd = 2)).
  - destruct (is_arange srtd); [|by destruct (astype_int32 _)].
    destruct (bool_decide (1 < length srtd)); simpl; [|reflexivity].
    destruct (decide (_ ∨ _)); simpl; [|reflexivity].
    by destruct (bool_decide (length srtd = 2)).
Qed.

(** The check of the smallest class in direct style. *)
Lemma check_smallest_class_run (cnts : list (cell * nat)) (rd : Reader) :
  check_smallest_class cnts rd =
    match last cnts with
    | None => (Raise (Propagated PyIndexError), rd)
    | Some (smallest_class, smallest) =>
        if decide (smallest = 1) then (Raise (OneSampleClass smallest_class), rd)
        else
          match cv rd with
          | None => (Raise (Propagated PyTypeError), rd)
          | Some cv_ =>
              if decide (Z.of_nat smallest < cv_)%Z then
                (Ok tt, set_cv (Some (Z.of_nat smallest))
                          (set_warnings_emitted
                             (CvReduced smallest_class smallest cv_ :: warnings_emitted rd) rd))
              else (Ok tt, rd)
          end
    end.
Proof.
  unfold check_smallest_class, warn. run_reader.
  destruct (last cnts) as [[c n]|]; [|reflexivity].
  destruct (decide (n = 1)); [reflexivity|]. run_reader.
  destruct (cv rd); [|reflexivity].
  by destruct (decide _).
Qed.

Lemma dict_get_imap (g : nat → nat) (U : list cell) (x : cell) (i : nat) :
  NoDup U → U !! i = Some x →
  dict_get x (imap (fun j n => (n, g j)) U) = Some (g i).
Proof.
  revert g i. induction U as [|y U IH]; intros g i Hnd Hi; [done|].
  apply NoDup_cons in Hnd as [Hy Hnd]. simpl.
  destruct i as [|i]; simpl in Hi.
  - injection Hi as ->. by rewrite decide_True.
  - rewrite decide_False.
    + apply (IH (g ∘ S) i Hnd Hi).
    + intros ->. apply Hy. by eapply list_elem_of_lookup_2.
Qed.

Lemma enumerate_classes_lookup (U : list cell) (x : cell) (i : nat) :
  NoDup U → U !! i = Some x → dict_get x (enumerate_classes U) = Some i.
Proof. apply (dict_get_imap id). Qed.

(** The integer that the mapping of the distinct values [U], followed by
    the cast, puts in the place of [x]. *)
Definition code (U : list cell) (x : cell) : cell :=
  CInt (wrap32 (Z.of_nat (default 0 (dict_get x (enumerate_classes U))))).

Lemma astype_int32_codes (U l : list cell) :
  NoDup U → (∀ x, x ∈ l → x ∈ U) →
  astype_int32 (map_cell (enumerate_classes U) <$> l) = Ok (code U <$> l).
Proof.
  intros Hnd. induction l as [|x l IH]; intros Hin; [reflexivity|].
  assert (Hx : x ∈ U) by (apply Hin; left).
  apply list_elem_of_lookup in Hx as [i Hi].
  rewrite !fmap_cons. unfold map_cell at 1, code at 1.
  rewrite (enumerate_classes_lookup U x i Hnd Hi). simpl.
  rewrite IH; [reflexivity|]. intros y Hy. apply Hin. by right.
Qed.

Lemma value_counts_all_no_nan (l : list cell) :
  (∀ c, c ∈ l → isnull c = false) → existsb isnull (value_counts_all l).*1 = false.
Proof.
  intros Hl. apply not_true_is_false. intros Hex.
  apply existsb_exists in Hex as (c & Hc & Hnull).
  apply list_elem_of_In in Hc. rewrite value_counts_all_keys, elem_of_uniques in Hc.
  rewrite (Hl c Hc) in Hnull. discriminate.
Qed.

Lemma value_counts_all_length (l : list cell) :
  length (value_counts_all l).*1 = length (uniques l).
Proof. by rewrite value_counts_all_keys. Qed.

Lemma mapped_values_in_keys (l : list cell) :
  ∀ x, x ∈ l → x ∈ (value_counts_all l).*1.
Proof. intros x Hx. by rewrite value_counts_all_keys, elem_of_uniques. Qed.

Lemma filter_isnull_perm (l : list cell) :
  filter (fun c => isnull c = false) l ++ filter (fun c => isnull c = true) l ≡ₚ l.
Proof.
  induction l as [|c l IH]; [reflexivity|].
  rewrite !filter_cons. destruct (isnull c) eqn:Hc.
  - rewrite decide_False, decide_True by done.
    rewrite <- Permutation_middle. by rewrite IH.
  - rewrite decide_True, decide_False by done. simpl. by rewrite IH.
Qed.

Lemma mapM_cell_int_Some (l : list cell) (zs : list Z) :
  mapM cell_int l = Some zs ↔ l = CInt <$> zs.
Proof.
  rewrite mapM_Some. split.
  - induction 1 as [|c z l zs Hc _ IH]; [reflexivity|].
    destruct c; by simplify_eq/=.
  - intros ->. induction zs; constructor; done.
Qed.

Lemma mapM_cell_str_Some (l : list cell) (ss : list string) :
  mapM cell_str l = Some ss ↔ l = CStr <$> ss.
Proof.
  rewrite mapM_Some. split.
  - induction 1 as [|c z l zs Hc _ IH]; [reflexivity|].
    destruct c; by simplify_eq/=.
  - intros ->. induction ss; constructor; done.
Qed.

(** [np.sort] rearranges. *)
Lemma np_sort_perm (l srtd : list cell) : np_sort l = Ok srtd → srtd ≡ₚ l.
Proof.
  unfold np_sort. intros Hsort. rewrite <- (filter_isnull_perm l).
  destruct (mapM cell_int _) as [zs|] eqn:Hzs.
  - injection Hsort as <-. apply mapM_cell_int_Some in Hzs as ->.
    by rewrite merge_sort_Permutation.
  - destruct (mapM cell_str _) as [ss|] eqn:Hss; [|done].
    destruct (filter (fun c => isnull c = true) l); [|done].
    injection Hsort as <-. apply mapM_cell_str_Some in Hss as ->.
    by rewrite merge_sort_Permutation, app_nil_r.
Qed.

(** C4, as the code has it. For a multiclass target without missing
    values whose distinct values sort (they are all integers or all text),
    let [smallest] be the count of the last class of the value counts,
    which is a least frequent class. If [smallest] is 1 the validation
    fails with the error of a class of a single sample. If [smallest] is
    more than 1 and less than [cv], a warning is emitted and [cv] is set
    to [smallest]; the validation then succeeds when the target has two
    distinct values or more. The target 1, 1, 2, 2, 2 with a [cv] of 5 is
    accepted and leaves a [cv] of 2. *)
Theorem multiclass_smallest_class (rd : Reader) (target : Series)
    (smallest_class : cell) (smallest : nat) :
  let values := s_values target in
  let run := check_class_target target rd in
  task_name rd = "multiclass" →
  (∀ c, c ∈ values → isnull c = false) →
  is_Ok (np_sort (value_counts_all values).*1) = true →
  last (value_counts_all values) = Some (smallest_class, smallest) →
  (smallest_class ∈ values ∧ smallest = count smallest_class values
   ∧ ∀ x, x ∈ values → smallest ≤ count x values)
  ∧ (smallest = 1 →
       run.1 = Raise (OneSampleClass smallest_class)
       ∧ raises run.1 UnsplittableTargetError)
  ∧ (∀ cv_ : Z, cv rd = Some cv_ → (1 < Z.of_nat smallest < cv_)%Z →
       cv run.2 = Some (Z.of_nat smallest)
       ∧ warnings_emitted run.2
         = CvReduced smallest_class smallest cv_ :: warnings_emitted rd
       ∧ (2 ≤ length (uniques values) → is_Ok run.1 = true))
  ∧ (cv rd = Some 5%Z → values = CInt <$> [1; 1; 2; 2; 2]%Z →
       is_Ok run.1 = true ∧ cv run.2 = Some 2%Z).
Proof.
  intros values run Htask Hnan Hsort Hlast.
  assert (Hrun : run = check_class_target target rd) by reflexivity.
  rewrite check_class_target_run in Hrun. cbv zeta in Hrun. fold values in Hrun.
  rewrite value_counts_all_no_nan in Hrun by done.
  destruct (np_sort _) as [srtd|] eqn:Hsrtd; [clear Hsort | discriminate].
  rewrite decide_True, check_smallest_class_run, Hlast in Hrun by done.
  assert (Hlen : length srtd = length (uniques values)).
  { by rewrite (np_sort_perm _ _ Hsrtd), value_counts_all_length. }
  assert (Hgeneral : ∀ cv_ : Z, cv rd = Some cv_ → (1 < Z.of_nat smallest < cv_)%Z →
       cv run.2 = Some (Z.of_nat smallest)
       ∧ warnings_emitted run.2
         = CvReduced smallest_class smallest cv_ :: warnings_emitted rd
       ∧ (2 ≤ length (uniques values) → is_Ok run.1 = true)).
  { intros cv_ Hcv Hbetween. simpl in Hrun.
    rewrite decide_False, Hcv, decide_True in Hrun by lia.
    destruct (is_arange srtd).
    - destruct (bool_decide (1 < length srtd)) eqn:Hone.
      + rewrite decide_False in Hrun by (rewrite Htask; intros [|]; discriminate).
        by rewrite Hrun.
      + rewrite Hrun. repeat split; [done..|].
        apply bool_decide_eq_false in Hone. lia.
    - rewrite astype_int32_codes in Hrun
        by auto using NoDup_value_counts_all, mapped_values_in_keys.
      by rewrite Hrun. }
  split; [by apply value_counts_all_last|].
  split; [|split; [exact Hgeneral|]].
  - intros ->. simpl in Hrun. rewrite Hrun. simpl.
    split; [reflexivity|]. by eexists.
  - intros Hcv Hvalues. rewrite Hvalues in Hlast. vm_compute in Hlast.
    injection Hlast as <- <-.
    destruct (Hgeneral 5%Z Hcv) as (Hcv' & _ & Hok); [lia|].
    split; [|exact Hcv']. apply Hok. rewrite Hvalues. vm_compute. lia.
Qed.

(** *** Value counts of an encoded column *)

Section encoded.

Variable f : cell → cell.

Lemma filter_ne_fmap (x : cell) (u : list cell) :
  (∀ y, y ∈ u → f y = f x → y = x) →
  filter (fun z => z ≠ f x) (f <$> u) = f <$> filter (fun y => y ≠ x) u.
Proof.
  induction u as [|y u IH]; intros Hinj; [reflexivity|].
  rewrite fmap_cons, !filter_cons.
  assert (Hy : f y = f x → y = x) by (apply Hinj; left).
  rewrite IH by (intros z Hz; apply Hinj; by right).
  destruct (decide (y = x)) as [-> | Hne].
  - by rewrite !decide_False by (intros Hc; by apply Hc).
  - by rewrite !decide_True by (try done; intros Hc; by apply Hne, Hy).
Qed.

Lemma count_fmap (x : cell) (l : list cell) :
  (∀ y, y ∈ l → f y = f x → y = x) → count (f x) (f <$> l) = count x l.
Proof.
  unfold count. induction l as [|y l IH]; intros Hinj; [reflexivity|].
  rewrite fmap_cons, !filter_cons.
  assert (Hy : f y = f x → y = x) by (apply Hinj; left).
  specialize (IH (fun z Hz => Hinj z (list_elem_of_further _ _ _ Hz))).
  destruct (decide (y = x)) as [-> | Hne].
  - rewrite !decide_True by done. simpl. by rewrite IH.
  - by rewrite !decide_False by (try done; intros Hc; by apply Hne, Hy).
Qed.

Lemma uniques_fmap (l : list cell) :
  (∀ x y, x ∈ l → y ∈ l → f x = f y → x = y) →
  uniques (f <$> l) = f <$> uniques l.
Proof.
  induction l as [|x l IH]; intros Hinj; [reflexivity|].
  change (uniques (f <$> x :: l))
    with (f x :: filter (fun y => y ≠ f x) (uniques (f <$> l))).
  rewrite IH by (intros y z Hy Hz; apply Hinj; by right).
  rewrite filter_ne_fmap; [reflexivity|].
  intros y Hy. apply Hinj; [right; by apply elem_of_uniques | left].
Qed.

Definition on_key (p : cell * nat) : cell * nat := (f p.1, p.2).

Lemma insert_count_fmap (p : cell * nat) (s : list (cell * nat)) :
  insert_count (on_key p) (on_key <$> s) = on_key <$> insert_count p s.
Proof.
  induction s as [|q s IH]; [reflexivity|].
  rewrite fmap_cons. cbn [insert_count on_key snd].
  destruct (decide (p.2 < q.2)); [|reflexivity].
  rewrite fmap_cons. f_equal. exact IH.
Qed.

Lemma sort_counts_fmap (l : list (cell * nat)) :
  sort_counts (on_key <$> l) = on_key <$> sort_counts l.
Proof.
  unfold sort_counts. induction l as [|p l IH]; [reflexivity|].
  rewrite fmap_cons. cbn [foldr]. rewrite IH. apply insert_count_fmap.
Qed.

Lemma on_key_keys (l : list (cell * nat)) : (on_key <$> l).*1 = f <$> l.*1.
Proof. rewrite <- !list_fmap_compose. by apply list_fmap_ext. Qed.

Lemma on_key_last (l : list (cell * nat)) :
  snd <$> last (on_key <$> l) = snd <$> last l.
Proof. rewrite fmap_last. by destruct (last l). Qed.

(** An encoding that keeps distinct values apart keeps the table of the
    counts, entry by entry. *)
Lemma value_counts_all_fmap (l : list cell) :
  (∀ x y, x ∈ l → y ∈ l → f x = f y → x = y) →
  value_counts_all (f <$> l) = on_key <$> value_counts_all l.
Proof.
  intros Hinj. unfold value_counts_all.
  rewrite uniques_fmap, <- sort_counts_fmap, <- !list_fmap_compose by done.
  f_equal. apply list_fmap_ext. intros i x Hx. unfold on_key. simpl. f_equal.
  apply count_fmap. intros y Hy. apply Hinj; [done|].
  by eapply elem_of_uniques, list_elem_of_lookup_2.
Qed.

End encoded.

(** *** Targets whose values are 0 to k-1 *)

Lemma wrap32_small (z : Z) : (0 ≤ z < 2 ^ 31)%Z → wrap32 z = z.
Proof.
  intros Hz. unfold wrap32.
  change (2 ^ 31)%Z with 2147483648%Z in *. change (2 ^ 32)%Z with 4294967296%Z.
  rewrite Z.mod_small; lia.
Qed.

Lemma code_at (U : list cell) (x : cell) (i : nat) :
  NoDup U → (Z.of_nat (length U) ≤ 2 ^ 31)%Z → U !! i = Some x →
  code U x = CInt (Z.of_nat i).
Proof.
  intros Hnd Hlen Hi. unfold code.
  rewrite (enumerate_classes_lookup U x i Hnd Hi). simpl.
  apply lookup_lt_Some in Hi. rewrite wrap32_small; [reflexivity | lia].
Qed.

Lemma code_inj (U : list cell) (x y : cell) :
  NoDup U → (Z.of_nat (length U) ≤ 2 ^ 31)%Z → x ∈ U → y ∈ U →
  code U x = code U y → x = y.
Proof.
  intros Hnd Hlen [i Hi]%list_elem_of_lookup [j Hj]%list_elem_of_lookup.
  rewrite (code_at U x i), (code_at U y j) by done.
  intros [= Hij%Nat2Z.inj]. subst j. congruence.
Qed.

Lemma arange_lookup (k i : nat) : i < k → arange k !! i = Some (Z.of_nat i).
Proof.
  intros Hi. unfold arange. by rewrite list_lookup_fmap, lookup_seq_lt.
Qed.

Lemma arange_length (k : nat) : length (arange k) = k.
Proof. unfold arange. by rewrite length_fmap, length_seq. Qed.

Lemma code_keys (U : list cell) :
  NoDup U → (Z.of_nat (length U) ≤ 2 ^ 31)%Z →
  code U <$> U = CInt <$> arange (length U).
Proof.
  intros Hnd Hlen. apply list_eq. intros i.
  rewrite !list_lookup_fmap.
  destruct (U !! i) as [x|] eqn:Hi; simpl.
  - rewrite (code_at U x i) by done.
    by rewrite arange_lookup by by eapply lookup_lt_Some.
  - apply lookup_ge_None in Hi.
    by rewrite (proj2 (lookup_ge_None _ _)) by (rewrite arange_length; lia).
Qed.

Lemma arange_sorted (k : nat) : Sorted Z.le (arange k).
Proof.
  unfold arange. generalize 0. induction k as [|k IH]; intros a; [constructor|].
  simpl. constructor; [apply IH|].
  destruct k; simpl; constructor. lia.
Qed.

Lemma is_arange_arange (k : nat) : is_arange (CInt <$> arange k) = true.
Proof.
  unfold is_arange. apply bool_decide_eq_true.
  by rewrite length_fmap, arange_length.
Qed.

Definition int_of (c : cell) : Z :=
  match c with CInt z => z | _ => 0%Z end.

Lemma all_ints (l : list cell) :
  (∀ x, x ∈ l → ∃ z, x = CInt z) → l = CInt <$> (int_of <$> l).
Proof.
  induction l as [|x l IH]; intros Hl; [reflexivity|].
  destruct (Hl x) as [z ->]; [left|].
  rewrite !fmap_cons. simpl. f_equal. apply IH. intros y Hy. apply Hl. by right.
Qed.

Lemma filter_notnull_ints (zs : list Z) :
  filter (fun c => isnull c = false) (CInt <$> zs) = CInt <$> zs.
Proof. induction zs as [|z zs IH]; [reflexivity|]. rewrite fmap_cons, filter_cons. simpl. by rewrite IH. Qed.

Lemma filter_null_ints (zs : list Z) :
  filter (fun c => isnull c = true) (CInt <$> zs) = [].
Proof. induction zs as [|z zs IH]; [reflexivity|]. rewrite fmap_cons, filter_cons. simpl. by rewrite IH. Qed.

(** The distinct values 0 to k-1, in any order, sort to [arange k]. *)
Lemma np_sort_contiguous (l : list cell) (k : nat) :
  l ≡ₚ CInt <$> arange k → np_sort l = Ok (CInt <$> arange k).
Proof.
  intros Hperm.
  assert (Hints : l = CInt <$> (int_of <$> l)).
  { apply all_ints. intros x Hx. rewrite Hperm in Hx.
    apply list_elem_of_fmap in Hx as (z & -> & _). by exists z. }
  assert (Hzs : int_of <$> l ≡ₚ arange k).
  { rewrite Hperm, <- list_fmap_compose. by rewrite list_fmap_id. }
  unfold np_sort. rewrite Hints, filter_notnull_ints, filter_null_ints.
  rewrite (proj2 (mapM_cell_int_Some _ _) eq_refl), app_nil_r.
  do 2 f_equal. apply (Sorted_unique Z.le).
  - apply Sorted_merge_sort. apply _.
  - apply arange_sorted.
  - by rewrite merge_sort_Permutation.
Qed.

#[local] Instance CInt_inj : Inj (=) (=) CInt.
Proof. by intros ?? [= ->]. Qed.

Lemma NoDup_arange_cells (k : nat) : NoDup (CInt <$> arange k).
Proof.
  unfold arange. apply NoDup_fmap_2; [apply _|].
  apply NoDup_fmap_2; [apply _ | apply NoDup_seq].
Qed.

Lemma elem_of_arange_cells (k : nat) (x : cell) :
  x ∈ CInt <$> arange k ↔ ∃ i, i < k ∧ x = CInt (Z.of_nat i).
Proof.
  unfold arange. rewrite <- list_fmap_compose, list_elem_of_fmap.
  split.
  - intros (i & -> & Hi). exists i. split; [|done].
    apply elem_of_seq in Hi. lia.
  - intros (i & Hi & ->). exists i. split; [done|]. apply elem_of_seq. lia.
Qed.

(** The keys of the counts of a target whose values are 0 to k-1. *)
Lemma contiguous_keys (values : list cell) (k : nat) :
  (∀ x, x ∈ values ↔ ∃ i, i < k ∧ x = CInt (Z.of_nat i)) →
  (value_counts_all values).*1 ≡ₚ CInt <$> arange k.
Proof.
  intros Hvalues. apply NoDup_Permutation.
  - apply NoDup_value_counts_all.
  - apply NoDup_arange_cells.
  - intros x. by rewrite value_counts_all_keys, elem_of_uniques, elem_of_arange_cells.
Qed.

Lemma check_smallest_class_frame (cnts : list (cell * nat)) (v : option nat)
    (rd rd2 : Reader) (r : result unit) :
  check_smallest_class cnts (set_n_classes v rd) = (r, rd2) →
  set_n_classes v rd2 = rd2 ∧ task_name rd2 = task_name rd.
Proof.
  rewrite check_smallest_class_run.
  destruct (last cnts) as [[c n]|]; [|by intros [= <- <-]].
  destruct (decide (n = 1)); [by intros [= <- <-]|].
  simpl. destruct (cv rd); [|by intros [= <- <-]].
  destruct (decide _); by intros [= <- <-].
Qed.

(** Once the smallest class has passed, it passes again and changes
    nothing, whatever the classes are called. *)
Lemma check_smallest_class_again (cnts cnts' : list (cell * nat)) (rd1 rd2 : Reader) :
  check_smallest_class cnts rd1 = (Ok tt, rd2) →
  snd <$> last cnts' = snd <$> last cnts →
  check_smallest_class cnts' rd2 = (Ok tt, rd2).
Proof.
  rewrite !check_smallest_class_run.
  destruct (last cnts) as [[c n]|], (last cnts') as [[c' n']|]; try done.
  simpl. intros Hrun [= ->].
  destruct (decide (n = 1)); [done|].
  destruct (cv rd1) as [cv_|] eqn:Hcv; [|done].
  destruct (decide (Z.of_nat n < cv_)%Z).
  - injection Hrun as <-. simpl. by rewrite decide_False by lia.
  - injection Hrun as <-. by rewrite Hcv, decide_False.
Qed.

(** The second run of [check_class_target], on a column whose counts
    have the keys 0 to k-1 and the smallest count of a first run that
    passed. *)
Lemma check_class_target_settled (rd rd2 : Reader) (column : Series)
    (cnts : list (cell * nat)) (k : nat) :
  (value_counts_all (s_values column)).*1 ≡ₚ CInt <$> arange k →
  snd <$> last (value_counts_all (s_values column)) = snd <$> last cnts →
  (if decide (task_name rd = "multiclass")
   then check_smallest_class cnts (set_n_classes (Some k) rd)
   else (Ok tt, set_n_classes (Some k) rd)) = (Ok tt, rd2) →
  2 ≤ k → (task_name rd = "binary" ∨ task_name rd = "multilabel" → k = 2) →
  check_class_target column rd2 = (Ok (column, None), rd2).
Proof.
  intros Hkeys Hlast Hsmallest Hk Htwo.
  assert (Hframe : set_n_classes (Some k) rd2 = rd2 ∧ task_name rd2 = task_name rd).
  { revert Hsmallest. destruct (decide (task_name rd = "multiclass")); intros Hs.
    - by eapply check_smallest_class_frame.
    - by injection Hs as <-. }
  destruct Hframe as [Hn Htask].
  rewrite check_class_target_run. cbv zeta.
  assert (existsb isnull (value_counts_all (s_values column)).*1 = false) as ->.
  { apply not_true_is_false. intros (c & Hc & Hnull)%existsb_exists.
    apply list_elem_of_In in Hc. rewrite Hkeys in Hc.
    apply list_elem_of_fmap in Hc as (z & -> & _). discriminate. }
  rewrite (np_sort_contiguous _ k Hkeys), is_arange_arange.
  assert (length (value_counts_all (s_values column)).*1 = k) as ->
    by by rewrite Hkeys, length_fmap, arange_length.
  rewrite length_fmap, arange_length, Hn, Htask.
  assert ((if decide (task_name rd = "multiclass")
           then check_smallest_class (value_counts_all (s_values column)) rd2
           else (Ok tt, rd2)) = (Ok tt, rd2)) as ->.
  { revert Hsmallest. destruct (decide (task_name rd = "multiclass")); intros Hs;
      [|reflexivity].
    by eapply check_smallest_class_again. }
  rewrite bool_decide_eq_true_2 by lia.
  destruct (decide (task_name rd = "binary" ∨ task_name rd = "multilabel")) as [Hb|];
    [|reflexivity].
  by rewrite bool_decide_eq_true_2 by auto.
Qed.

(** C5, as the code has it. A target whose distinct values are exactly 0
    to k-1, with k at least 2, is returned as it is, with no mapping,
    unless a guard refuses it: the binary and the multilabel task want k
    to be 2, the multiclass task wants no class of a single sample (and a
    [cv] to compare with). And when [check_class_target] accepts a
    target of k distinct values, with k at least 2 (2 for the binary and
    the multilabel task) and at most 2^31, a second run on the encoded
    column returns that column, no mapping, and leaves the reader as it
    is. *)
Theorem check_class_target_contiguous (rd : Reader) (target : Series) :
  let values := s_values target in
  let two_classes := task_name rd = "binary" ∨ task_name rd = "multilabel" in
  (∀ k : nat,
     (∀ x, x ∈ values ↔ ∃ i, i < k ∧ x = CInt (Z.of_nat i)) →
     2 ≤ k →
     (two_classes → k = 2) →
     (task_name rd = "multiclass" →
        is_Some (cv rd) ∧ ∀ x, x ∈ values → count x values ≠ 1) →
     (check_class_target target rd).1 = Ok (target, None))
  ∧ (∀ encoded mapping rd',
       check_class_target target rd = (Ok (encoded, mapping), rd') →
       let k := length (uniques values) in
       2 ≤ k → (two_classes → k = 2) → (Z.of_nat k ≤ 2 ^ 31)%Z →
       check_class_target encoded rd' = (Ok (encoded, None), rd')).
Proof.
  intros values two_classes. split.
  - intros k Hvalues Hk Htwo Hmulti.
    pose proof (contiguous_keys values k Hvalues) as Hkeys.
    rewrite check_class_target_run. cbv zeta. fold values.
    rewrite value_counts_all_no_nan.
    2:{ intros c [i [_ ->]]%Hvalues. reflexivity. }
    rewrite (np_sort_contiguous _ k Hkeys), is_arange_arange.
    assert (Hlen : length (value_counts_all values).*1 = k)
      by by rewrite Hkeys, length_fmap, arange_length.
    rewrite Hlen, length_fmap, arange_length, bool_decide_eq_true_2 by lia.
    assert (∃ rd2, (if decide (task_name rd = "multiclass")
                    then check_smallest_class (value_counts_all values)
                           (set_n_classes (Some k) rd)
                    else (Ok tt, set_n_classes (Some k) rd))
                   = (Ok tt, rd2)) as [rd2 ->].
    { destruct (decide (task_name rd = "multiclass")) as [Hm|]; [|by eexists].
      destruct (Hmulti Hm) as [[cv_ Hcv] Hcount].
      rewrite check_smallest_class_run.
      destruct (last (value_counts_all values)) as [[c n]|] eqn:Hlast.
      - apply value_counts_all_last in Hlast as (Hc & -> & _).
        rewrite decide_False by by apply Hcount.
        simpl. rewrite Hcv. destruct (decide _); by eexists.
      - apply last_None in Hlast. rewrite Hlast in Hlen. simpl in Hlen. lia. }
    destruct (decide (task_name rd = "binary" ∨ task_name rd = "multilabel")) as [Hb|];
      [|reflexivity].
    by rewrite bool_decide_eq_true_2 by auto.
  - intros encoded mapping rd' Hrun k Hk Htwo Hbound.
    rewrite check_class_target_run in Hrun. cbv zeta in Hrun. fold values in Hrun.
    set (cnts := value_counts_all values) in *.
    assert (Hlen : length cnts.*1 = k) by apply value_counts_all_length.
    rewrite Hlen in Hrun.
    destruct (existsb isnull cnts.*1) eqn:Hnan; [done|].
    destruct (np_sort cnts.*1) as [srtd|] eqn:Hsrtd; [|done].
    destruct (if decide (task_name rd = "multiclass")
              then check_smallest_class cnts (set_n_classes (Some k) rd)
              else (Ok tt, set_n_classes (Some k) rd)) as [[[]|] rd2] eqn:Hsmallest;
      [|done].
    destruct (is_arange srtd) eqn:Harange.
    + assert (encoded = target ∧ mapping = None ∧ rd' = rd2) as (-> & -> & ->).
      { repeat case_match; by simplify_eq. }
      apply (check_class_target_settled rd rd2 target cnts k); try done.
      apply bool_decide_eq_true in Harange.
      fold values cnts. rewrite <- (np_sort_perm _ _ Hsrtd), Harange.
      by rewrite (np_sort_perm _ _ Hsrtd), Hlen.
    + pose proof (NoDup_value_counts_all values) as Hnd. fold cnts in Hnd.
      rewrite astype_int32_codes in Hrun
        by (try done; apply mapped_values_in_keys).
      injection Hrun as <- <- <-.
      assert (Hinj : ∀ x y, x ∈ values → y ∈ values →
                code cnts.*1 x = code cnts.*1 y → x = y).
      { intros x y Hx Hy. apply code_inj; try done.
        - by rewrite Hlen.
        - by apply mapped_values_in_keys.
        - by apply mapped_values_in_keys. }
      apply (check_class_target_settled rd rd2 _ cnts k); try done; simpl.
      * rewrite (value_counts_all_fmap _ _ Hinj). fold cnts.
        rewrite on_key_keys, code_keys, Hlen by (try done; by rewrite Hlen).
        reflexivity.
      * rewrite (value_counts_all_fmap _ _ Hinj). apply on_key_last.
Qed.

(** ** The indices of an auxiliary table *)

(** The file raises "Time series ids don`t match" at one place. *)
Definition other_error (e : exn) : Prop := classify e ≠ MisalignedIndexError.

Lemma select_other (df : DataFrame) (feats : list string) (e : exn) :
  select df feats = Raise e → other_error e.
Proof.
  revert e. induction feats as [|feat feats IH]; intros e; [done|].
  simpl. unfold loc. destruct (lookup_col _ _); [|by intros [= <-]].
  destruct (select df feats); [done|]. intros [= <-]. by apply IH.
Qed.

Lemma seq_role_other (rd : Reader) (roles : UserRoles) (subsample : DataFrame)
    (feat : string) (parsed_roles : ParsedRoles) (e : exn) :
  seq_role rd roles subsample feat parsed_roles = Raise e → other_error e.
Proof.
  unfold seq_role, loc, check_declared_role, infer_role, _is_ok_feature, _guess_role.
  intros Hraise. repeat case_match; by simplify_eq.
Qed.

Lemma parse_seq_columns_other (roles : UserRoles) (seq_dataset subsample : DataFrame)
    (cols : list (label * Series)) (acc : SeqLoop) (rd rd' : Reader) (e : exn) :
  parse_seq_columns roles seq_dataset subsample cols acc rd = (Raise e, rd') →
  other_error e.
Proof.
  revert acc rd. induction cols as [|[[feat|] col] cols IH]; intros acc rd; simpl.
  - done.
  - run_reader.
    destruct (seq_role _ _ _ _ _) as [r|e'] eqn:Hrole; simpl.
    + destruct (attrs_dict !! r_name r) as [attr|]; simpl.
      * destruct (bool_decide (attr = "target")); unfold set_back;
          case_bool_decide; simpl; apply IH.
      * unfold set_back; case_bool_decide; simpl; apply IH.
    + intros [= <- <-]. by eapply seq_role_other.
  - by intros [= <- <-].
Qed.

Lemma create_ids_other (seq_data : DataFrame) (plain_data : option DataFrame)
    (dataset_name : string) (rd rd' : Reader) (e : exn) :
  create_ids seq_data plain_data dataset_name rd = (Raise e, rd') → other_error e.
Proof.
  unfold create_ids. run_reader. intros Hraise.
  repeat case_match; by simplify_eq.
Qed.

Lemma build_seq_index_other (seq_dataset : DataFrame) (plain_data : option DataFrame)
    (dataset_name : string) (parsed_roles : ParsedRoles) (roles : UserRoles)
    (rd rd' : Reader) (e : exn) :
  build_seq_index seq_dataset plain_data dataset_name parsed_roles roles rd
  = (Raise e, rd') → other_error e.
Proof.
  unfold build_seq_index. run_reader.
  destruct (parse_seq_columns _ _ _ _ _ _) as [[acc|e1] rd1] eqn:Hcols.
  2:{ intros [= <- <-]. by eapply parse_seq_columns_other. }
  case_bool_decide; simpl; [|by intros [= <- <-]].
  destruct (create_ids _ _ _ _) as [[[]|e2] rd2] eqn:Hids.
  2:{ intros [= <- <-]. by eapply create_ids_other. }
  destruct (ti rd2 !! dataset_name); simpl; [done | by intros [= <- <-]].
Qed.

(** C7. Parsing an auxiliary table fails with the error of misaligned
    indices exactly when the builder of the table has made a windowed
    target whose length differs from the length of the data index; when
    it has made no windowed target, the lengths are not compared and this
    error does not occur. *)
Theorem parse_seq_misaligned (seq_dataset : DataFrame) (plain_data : option DataFrame)
    (dataset_name : string) (parsed_roles : ParsedRoles) (roles : UserRoles)
    (rd : Reader) :
  let built := build_seq_index seq_dataset plain_data dataset_name parsed_roles roles rd in
  let run := parse_seq seq_dataset plain_data dataset_name parsed_roles roles rd in
  (raises run.1 MisalignedIndexError
   ↔ ∃ acc seq_idx_data seq_idx_target,
       built.1 = Ok (acc, seq_idx_data, Some seq_idx_target)
       ∧ length seq_idx_target ≠ length seq_idx_data)
  ∧ (∀ acc seq_idx_data,
       built.1 = Ok (acc, seq_idx_data, None) → ¬ raises run.1 MisalignedIndexError).
Proof.
  intros built run.
  assert (Hiff : raises run.1 MisalignedIndexError
   ↔ ∃ acc seq_idx_data seq_idx_target,
       built.1 = Ok (acc, seq_idx_data, Some seq_idx_target)
       ∧ length seq_idx_target ≠ length seq_idx_data).
  { subst run. unfold parse_seq. run_reader. fold built.
    destruct built as [[[[acc d] t]|e] rd1] eqn:Hbuilt; simpl.
    - destruct t as [t|]; simpl.
      + case_bool_decide as Hlen; simpl.
        * split.
          -- intros (e & Hraise & Hclass). exfalso.
             destruct (select _ _) as [data|e1] eqn:Hsel; simpl in Hraise.
             ++ destruct (seq_params rd1 !! dataset_name); simpl in Hraise;
                  simplify_eq; done.
             ++ injection Hraise as <-. by apply select_other in Hsel.
          -- intros (? & ? & ? & [= <- <- <-] & Hne). by rewrite Hlen in Hne.
        * split.
          -- intros _. exists acc, d, t. split; [done|]. congruence.
          -- intros _. by eexists.
      + split.
        * intros (e & Hraise & Hclass). exfalso.
          destruct (select _ _) as [data|e1] eqn:Hsel; simpl in Hraise.
          -- destruct (seq_params rd1 !! dataset_name); simpl in Hraise;
               simplify_eq; done.
          -- injection Hraise as <-. by apply select_other in Hsel.
        * by intros (? & ? & ? & [=] & _).
    - split.
      + intros (e' & [= <-] & Hclass). by apply build_seq_index_other in Hbuilt.
      + by intros (? & ? & ? & [=] & _). }
  split; [exact Hiff|].
  intros acc d Hnone Hraise. apply Hiff in Hraise as (? & ? & ? & Hsome & _).
  rewrite Hnone in Hsome. discriminate.
Qed.

(** ** The seed of the reader and the simple guess of the roles *)

(** A computation that neither reads nor writes [random_state]: run on a
    reader with another seed, it returns the same and leaves the same
    reader, but for the seed. *)
Definition ignores_random_state {A} (m : M Reader A) : Prop :=
  ∀ (z : Z) (rd : Reader),
    m (set_random_state z rd) = ((m rd).1, set_random_state z (m rd).2).

Lemma irs_ret {A} (a : A) : ignores_random_state (mret a).
Proof. done. Qed.

Lemma irs_throw {A} (e : exn) : ignores_random_state (throw (A:=A) e).
Proof. done. Qed.

Lemma irs_lift {A} (r : result A) : ignores_random_state (lift r).
Proof. done. Qed.

Lemma irs_assert (b : bool) (e : exn) : ignores_random_state (assert b e).
Proof. by destruct b. Qed.

Lemma irs_bind {A B} (m : M Reader A) (k : A → M Reader B) :
  ignores_random_state m → (∀ a, ignores_random_state (k a)) →
  ignores_random_state (m ≫= k).
Proof.
  intros Hm Hk z rd. unfold mbind, M_bind. rewrite Hm.
  destruct (m rd) as [[a|e] rd1]; simpl; [apply Hk | reflexivity].
Qed.

Lemma irs_get {A} (k : Reader → M Reader A) :
  (∀ z rd s, k (set_random_state z rd) s = k rd s) →
  (∀ rd, ignores_random_state (k rd)) →
  ignores_random_state (get ≫= k).
Proof.
  intros Hsame Hk z rd. unfold mbind, M_bind, get. rewrite Hsame. apply Hk.
Qed.

Lemma irs_modify (f : Reader → Reader) :
  (∀ z rd, f (set_random_state z rd) = set_random_state z (f rd)) →
  ignores_random_state (modify f).
Proof. intros Hf z rd. unfold modify. simpl. by rewrite Hf. Qed.

Create HintDb irs discriminated.

Ltac irs_step :=
  lazymatch goal with
  | |- ignores_random_state (mret _) => apply irs_ret
  | |- ignores_random_state (throw _) => apply irs_throw
  | |- ignores_random_state (lift _) => apply irs_lift
  | |- ignores_random_state (assert _ _) => apply irs_assert
  | |- ignores_random_state (modify _) =>
      apply irs_modify; intros; simpl; repeat case_match; reflexivity
  | |- ignores_random_state (mbind _ get) =>
      apply irs_get; [intros; reflexivity | intros ?]
  | |- ignores_random_state (mbind _ _) => apply irs_bind; [|intros ?]
  | |- ignores_random_state (match _ with _ => _ end) => case_match
  | |- ignores_random_state _ => solve [auto with irs]
  end.

Ltac irs_auto := repeat irs_step.

Lemma warn_irs (w : Warning) : ignores_random_state (warn w).
Proof. unfold warn. irs_auto. Qed.
#[local] Hint Resolve warn_irs : irs.


Lemma check_smallest_class_irs (cnts : list (cell * nat)) :
  ignores_random_state (check_smallest_class cnts).
Proof. unfold check_smallest_class. irs_auto. Qed.
#[local] Hint Resolve check_smallest_class_irs : irs.

Lemma check_class_target_irs (target : Series) :
  ignores_random_state (check_class_target target).
Proof. unfold check_class_target. irs_auto. Qed.
#[local] Hint Resolve check_class_target_irs : irs.

Lemma check_columns_irs (cols : list (label * Series)) :
  ignores_random_state (check_columns cols).
Proof.
  induction cols as [|[col s] cols IH]; cbn [check_columns]; irs_auto.
Qed.
#[local] Hint Resolve check_columns_irs : irs.

Lemma assert_no_nan_irs (of_objects : bool) (values : list cell) :
  ignores_random_state (assert_no_nan of_objects values).
Proof. unfold assert_no_nan. irs_auto. Qed.
#[local] Hint Resolve assert_no_nan_irs : irs.

Lemma create_target_irs (target : AttrVal) :
  ignores_random_state (_create_target target).
Proof. unfold _create_target. irs_auto. Qed.
#[local] Hint Resolve create_target_irs : irs.

Lemma set_used_attr_irs (attr : string) (v : UsedAttr) :
  ignores_random_state (set_used_attr attr v).
Proof. unfold set_used_attr. irs_auto. Qed.
#[local] Hint Resolve set_used_attr_irs : irs.

Lemma take_array_attr_irs (plain_data : DataFrame) (feat attr : string)
    (kw : gmap string AttrVal) :
  ignores_random_state (take_array_attr plain_data feat attr kw).
Proof. unfold take_array_attr. irs_auto. Qed.
#[local] Hint Resolve take_array_attr_irs : irs.

Lemma extract_array_attrs_irs (train_data : DataFrame) (feats : list string)
    (parsed_roles : ParsedRoles) (kw : gmap string AttrVal) :
  ignores_random_state (extract_array_attrs train_data feats parsed_roles kw).
Proof.
  revert parsed_roles kw.
  induction feats as [|feat feats IH]; intros parsed_roles kw;
    cbn [extract_array_attrs]; irs_auto.
Qed.
#[local] Hint Resolve extract_array_attrs_irs : irs.

Lemma set_back_irs (feat : string) (r : ColumnRole) :
  ignores_random_state (set_back feat r).
Proof. unfold set_back. irs_auto. Qed.
#[local] Hint Resolve set_back_irs : irs.

Lemma infer_roles_irs (roles : UserRoles) (cols : list (label * Series))
    (parsed_roles : ParsedRoles) :
  ignores_random_state (infer_roles roles cols parsed_roles).
Proof.
  revert parsed_roles.
  induction cols as [|[[feat|] col] cols IH]; intros parsed_roles;
    cbn [infer_roles]; irs_auto.
Qed.
#[local] Hint Resolve infer_roles_irs : irs.

Lemma read_roles_and_target_irs (train_data : DataFrame) (roles : UserRoles)
    (kw : gmap string AttrVal) :
  ignores_random_state (read_roles_and_target train_data roles kw).
Proof. unfold read_roles_and_target. irs_auto. Qed.
#[local] Hint Resolve read_roles_and_target_irs : irs.

Lemma simple_roles_pass_irs (train_data : DataFrame) (roles : UserRoles)
    (parsed_roles : ParsedRoles) :
  ignores_random_state (simple_roles_pass train_data roles parsed_roles).
Proof. unfold simple_roles_pass. irs_auto. Qed.
#[local] Hint Resolve simple_roles_pass_irs : irs.

Lemma infer_pass_irs (train_data : DataFrame) (roles : UserRoles)
    (kw : gmap string AttrVal) :
  ignores_random_state (infer_pass train_data roles kw).
Proof. unfold infer_pass. irs_auto. Qed.

Lemma create_ids_irs (seq_data : DataFrame) (plain_data : option DataFrame)
    (dataset_name : string) :
  ignores_random_state (create_ids seq_data plain_data dataset_name).
Proof. unfold create_ids. irs_auto. Qed.
#[local] Hint Resolve create_ids_irs : irs.

Lemma parse_seq_columns_irs (roles : UserRoles) (seq_dataset subsample : DataFrame)
    (cols : list (label * Series)) (acc : SeqLoop) :
  ignores_random_state (parse_seq_columns roles seq_dataset subsample cols acc).
Proof.
  revert acc.
  induction cols as [|[[feat|] col] cols IH]; intros acc;
    cbn [parse_seq_columns]; irs_auto.
Qed.
#[local] Hint Resolve parse_seq_columns_irs : irs.

Lemma check_seq_idx_irs (seq_idx_data : Idx) (seq_idx_target : option Idx) :
  ignores_random_state (check_seq_idx seq_idx_data seq_idx_target).
Proof. unfold check_seq_idx. irs_auto. Qed.
#[local] Hint Resolve check_seq_idx_irs : irs.

Lemma build_seq_index_irs (seq_dataset : DataFrame) (plain_data : option DataFrame)
    (dataset_name : string) (parsed_roles : ParsedRoles) (roles : UserRoles) :
  ignores_random_state
    (build_seq_index seq_dataset plain_data dataset_name parsed_roles roles).
Proof. unfold build_seq_index. irs_auto. Qed.
#[local] Hint Resolve build_seq_index_irs : irs.

Lemma parse_seq_irs (seq_dataset : DataFrame) (plain_data : option DataFrame)
    (dataset_name : string) (parsed_roles : ParsedRoles) (roles : UserRoles) :
  ignores_random_state
    (parse_seq seq_dataset plain_data dataset_name parsed_roles roles).
Proof. unfold parse_seq. irs_auto. Qed.
#[local] Hint Resolve parse_seq_irs : irs.

Lemma parse_seqs_irs (plain_data : option DataFrame) (roles : UserRoles)
    (seq_data : list (string * DataFrame)) (parsed_roles : ParsedRoles)
    (seq_datasets : list (string * SeqDataset)) :
  ignores_random_state (parse_seqs plain_data roles seq_data parsed_roles seq_datasets).
Proof.
  revert parsed_roles seq_datasets.
  induction seq_data as [|[dataset_name dataset] seq_data IH];
    intros parsed_roles seq_datasets; cbn [parse_seqs]; irs_auto.
Qed.
#[local] Hint Resolve parse_seqs_irs : irs.

Lemma extract_plain_attrs_irs (plain_data : option DataFrame) (feats : list string)
    (parsed_roles : ParsedRoles) (kw : gmap string AttrVal) :
  ignores_random_state (extract_plain_attrs plain_data feats parsed_roles kw).
Proof.
  revert parsed_roles kw.
  induction feats as [|feat feats IH]; intros parsed_roles kw;
    cbn [extract_plain_attrs]; irs_auto.
Qed.
#[local] Hint Resolve extract_plain_attrs_irs : irs.

Lemma read_seq_and_target_irs (plain_data : option DataFrame)
    (seq_data : option (list (string * DataFrame))) (roles : UserRoles)
    (kw : gmap string AttrVal) :
  ignores_random_state (read_seq_and_target plain_data seq_data roles kw).
Proof. unfold read_seq_and_target. irs_auto. Qed.
#[local] Hint Resolve read_seq_and_target_irs : irs.

Lemma simple_plain_pass_irs (plain_data : option DataFrame) (roles : UserRoles)
    (parsed_roles : ParsedRoles) :
  ignores_random_state (simple_plain_pass plain_data roles parsed_roles).
Proof. unfold simple_plain_pass. irs_auto. Qed.
#[local] Hint Resolve simple_plain_pass_irs : irs.

Lemma seq_infer_pass_irs (plain_data : option DataFrame)
    (seq_data : option (list (string * DataFrame))) (roles : UserRoles)
    (kw : gmap string AttrVal) :
  ignores_random_state (seq_infer_pass plain_data seq_data roles kw).
Proof. unfold seq_infer_pass. irs_auto. Qed.

(** Two runs whose results are the same and whose readers differ in the
    seed at most; the roles, the used and the dropped features are then
    the same. *)
Definition same_but_seed {A} (z : Z) (a b : result A * Reader) : Prop :=
  b.1 = a.1 ∧ b.2 = set_random_state z a.2
  ∧ _roles b.2 = _roles a.2
  ∧ _used_features b.2 = _used_features a.2
  ∧ _dropped_features b.2 = _dropped_features a.2.

Lemma ignores_same_but_seed {A} (m : M Reader A) (z : Z) (rd : Reader) :
  ignores_random_state m → same_but_seed z (m rd) (m (set_random_state z rd)).
Proof. intros Hm. unfold same_but_seed. rewrite Hm. simpl. done. Qed.

(** C9. The subsample for the inference of the roles is drawn with the
    seed 42, whatever [random_state] is. So a reader and the reader that
    differs from it in [random_state] alone draw the same subsample from
    a table, and [fit_read] up to the end of the simple guess of the
    roles gives them the same result, the same roles and the same used
    and dropped features; so do [parse_seq] and the sequential
    [fit_read]. *)
Theorem subsample_seed_is_fixed (z : Z) (rd : Reader) (train_data : DataFrame)
    (plain_data : option DataFrame) (seq_data : option (list (string * DataFrame)))
    (dataset_name : string) (parsed_roles : ParsedRoles) (roles : UserRoles)
    (kw : gmap string AttrVal) :
  let other := set_random_state z rd in
  (∀ n, samples rd = Some n → (n < N.of_nat (shape0 train_data))%N →
     take_subsample rd train_data = sample n 42 train_data
     ∧ take_subsample other train_data = sample n 42 train_data)
  ∧ take_subsample other train_data = take_subsample rd train_data
  ∧ same_but_seed z (infer_pass train_data roles kw rd)
                    (infer_pass train_data roles kw other)
  ∧ same_but_seed z (parse_seq train_data plain_data dataset_name parsed_roles roles rd)
                    (parse_seq train_data plain_data dataset_name parsed_roles roles other)
  ∧ same_but_seed z (seq_infer_pass plain_data seq_data roles kw rd)
                    (seq_infer_pass plain_data seq_data roles kw other).
Proof.
  intros other. split; [|split; [reflexivity|]].
  - intros n Hn Hlt. unfold take_subsample. simpl. rewrite Hn.
    by rewrite bool_decide_eq_true_2.
  - split; [|split]; apply ignores_same_but_seed.
    + apply infer_pass_irs.
    + apply parse_seq_irs.
    + apply seq_infer_pass_irs.
Qed.

(** ** The advanced guess and the pinned features *)

Lemma make_droplist_spec (roles : gmap string ColumnRole)
    (new_roles : list (string * ColumnRole)) (droplist : list string) :
  make_droplist roles new_roles = Ok droplist →
  ∀ x, x ∈ droplist ↔
       ∃ r old, (x, r) ∈ new_roles ∧ r_name r = "Drop"
                ∧ roles !! x = Some old ∧ r_force_input old = false.
Proof.
  revert droplist. induction new_roles as [|[y r] new_roles IH]; intros droplist; simpl.
  - intros [= <-] x. split; [by intros ?%not_elem_of_nil|].
    by intros (? & ? & ?%not_elem_of_nil & _).
  - case_bool_decide as Hdrop.
    + destruct (roles !! y) as [old|] eqn:Hold; [|done].
      destruct (make_droplist roles new_roles) as [l|]; [|done].
      intros [= <-] x. specialize (IH l eq_refl x).
      destruct (r_force_input old) eqn:Hforce.
      * rewrite IH. split.
        -- intros (r' & old' & Hin & ?). exists r', old'. split; [by right | done].
        -- intros (r' & old' & [[= -> ->] | Hin]%elem_of_cons & Hname & Hlook & Hf).
           ++ congruence.
           ++ by exists r', old'.
      * rewrite elem_of_cons, IH. split.
        -- intros [-> | (r' & old' & Hin & ?)].
           ++ exists r, old. split; [by left | done].
           ++ exists r', old'. split; [by right | done].
        -- intros (r' & old' & [[= -> ->] | Hin]%elem_of_cons & Hname & Hlook & Hf).
           ++ by left.
           ++ right. by exists r', old'.
    + intros Hl x. rewrite (IH droplist Hl x). split.
      * intros (r' & old' & Hin & ?). exists r', old'. split; [by right | done].
      * intros (r' & old' & [[= -> ->] | Hin]%elem_of_cons & Hname & Hlook & Hf).
        -- done.
        -- by exists r', old'.
Qed.

(** A feature whose final score is below [drop_score_co] gets the role
    Drop from the advanced guess, pinned or not. *)
Lemma advanced_roles_guess_rejected (rd : Reader) (dataset : Dataset)
    (manual_roles : ParsedRoles) (top_scores : list (string * F)) (x : string) :
  let numeric := get_numeric_roles_stat dataset manual_roles
                   (random_state rd) (samples rd) (n_jobs rd) in
  let p := advanced_roles_params rd in
  let category := get_category_roles_stat dataset
                    (random_state rd) (samples rd) (n_jobs rd) in
  top_scores
  = (if bool_decide (0 < length numeric)
     then max_scores (calc_encoding_rules numeric (numeric_unique_rate p)
            (max_to_3rd_rate p) (binning_enc_rate p) (raw_decr_rate p)
            (max_score_rate p) (abs_score_val p))
     else [])
    ++ (if bool_decide (0 < length category)
        then max_scores (calc_category_rules category) else []) →
  x ∈ (rejected_features
         (get_null_scores dataset top_scores.*1 (random_state rd) (samples rd))
         (drop_score_co p) top_scores).*1 →
  advanced_roles_guess rd dataset manual_roles !! x = Some DropRole.
Proof.
  intros numeric p category Htop Hx. unfold advanced_roles_guess.
  fold numeric p category.
  assert (Hdrop : ∀ l (m : gmap string ColumnRole),
            x ∈ l → (drop_roles l ∪ m) !! x = Some DropRole).
  { intros l m Hl. apply lookup_union_Some_l. unfold drop_roles.
    apply elem_of_list_to_map_1'.
    - intros y [? [[= _ <-] _]]%list_elem_of_fmap. reflexivity.
    - apply list_elem_of_fmap. by exists x. }
  destruct (bool_decide (0 < length numeric)), (bool_decide (0 < length category));
    simpl in *; rewrite ?app_nil_r in *; subst top_scores.
  - by apply Hdrop.
  - by apply Hdrop.
  - by apply Hdrop.
  - unfold rejected_features in Hx. simpl in Hx. by apply not_elem_of_nil in Hx.
Qed.

(** What the advanced guess does to a feature that it gives the role
    Drop: a feature that is not pinned leaves the used features and the
    roles; a pinned one stays among the used features, and the roles then
    hold the role Drop for it. *)
Lemma apply_advanced_roles_drop (dataset : Dataset) (parsed_roles : ParsedRoles)
    (rd rd' : Reader) (x : string) (r old : ColumnRole) :
  apply_advanced_roles dataset parsed_roles rd = (Ok tt, rd') →
  advanced_roles_guess rd dataset parsed_roles !! x = Some r →
  r_name r = "Drop" →
  _roles rd !! x = Some old →
  (r_force_input old = false → (x ∉ _used_features rd') ∧ _roles rd' !! x = None)
  ∧ (r_force_input old = true →
       (x ∈ _used_features rd → x ∈ _used_features rd')
       ∧ _roles rd' !! x = Some r).
Proof.
  forget_unused.
  unfold apply_advanced_roles, upd_used_features. run_reader.
  set (new_roles := advanced_roles_guess rd dataset parsed_roles).
  destruct (make_droplist _ _) as [droplist|] eqn:Hlist; [|done].
  simpl. intros [= <-] Hnew Hname Hold. simpl.
  pose proof (make_droplist_spec _ _ _ Hlist x) as Hin.
  split; intros Hforce.
  - assert (Hx : x ∈ droplist).
    { apply Hin. exists r, old. by rewrite elem_of_map_to_list. }
    split.
    + rewrite elem_of_list_of_set. set_solver.
    + apply map_lookup_filter_None. right. intros r' _. simpl. by intros [].
  - assert (Hx : x ∉ droplist).
    { rewrite Hin. intros (r' & old' & _ & _ & Hlook & Hf). congruence. }
    split.
    + intros Hused. rewrite elem_of_list_of_set. set_solver.
    + by apply map_lookup_filter_Some.
Qed.

(** * The rest of the readers *)

(** ** What a method leaves of the reader *)

(** [m] leaves a reader that [R] relates to the one it found, whether it
    returns or raises. *)
Definition moves (R : relation Reader) {A} (m : M Reader A) : Prop :=
  ∀ rd, R rd (m rd).2.

Section moves.

Context (R : relation Reader) {HR : PreOrder R}.

Lemma moves_ret {A} (a : A) : moves R (mret a).
Proof using HR. intros rd. reflexivity. Qed.

Lemma moves_throw {A} (e : exn) : moves R (throw (A:=A) e).
Proof using HR. intros rd. reflexivity. Qed.

Lemma moves_lift {A} (r : result A) : moves R (lift r).
Proof using HR. intros rd. reflexivity. Qed.

Lemma moves_get : moves R get.
Proof using HR. intros rd. reflexivity. Qed.

Lemma moves_assert (b : bool) (e : exn) : moves R (assert b e).
Proof using HR. intros rd. destruct b; reflexivity. Qed.

Lemma moves_bind {A B} (m : M Reader A) (k : A → M Reader B) :
  moves R m → (∀ a, moves R (k a)) → moves R (m ≫= k).
Proof using HR.
  intros Hm Hk rd. unfold mbind, M_bind. specialize (Hm rd).
  destruct (m rd) as [[a|e] rd1]; simpl in *; [|done].
  etrans; [exact Hm | apply Hk].
Qed.

Lemma moves_modify (f : Reader → Reader) : (∀ rd, R rd (f rd)) → moves R (modify f).
Proof using Type. intros Hf rd. apply Hf. Qed.

End moves.

(** The value [f] reads in the reader is the same as before. *)
Definition same {X} (f : Reader → X) : relation Reader := fun a b => f b = f a.

#[local] Instance same_preorder {X} (f : Reader → X) : PreOrder (same f).
Proof. split; [done|]. intros a b c Hab Hbc. unfold same in *. congruence. Qed.

(** [f] does not read the field that [set] assigns. *)
Class Past {X V} (f : Reader → X) (set : V → Reader → Reader) : Prop :=
  past : ∀ v rd, f (set v rd) = f rd.

#[local] Hint Extern 1 (Past _ _) =>
  (unfold Past; intros ? ?; reflexivity) : typeclass_instances.

Create HintDb moves discriminated.

Ltac moves_step :=
  lazymatch goal with
  | |- moves _ (mret _) => apply moves_ret; tc_solve
  | |- moves _ (throw _) => apply moves_throw; tc_solve
  | |- moves _ (lift _) => apply moves_lift; tc_solve
  | |- moves _ get => apply moves_get; tc_solve
  | |- moves _ (assert _ _) => apply moves_assert; tc_solve
  | |- moves (same _) (modify _) =>
      apply moves_modify; intros ?; unfold same; cbv beta;
      repeat case_match; rewrite ?past; reflexivity
  | |- moves _ (mbind _ _) => apply moves_bind; [tc_solve | | intros ?]
  | |- moves _ (match _ with _ => _ end) => case_match
  | |- moves _ _ => solve [eauto with moves typeclass_instances]
  end.

Ltac moves_auto := repeat moves_step.

Section same.

Context {X : Type} (f : Reader → X).

Lemma warn_same `{!Past f set_warnings_emitted} (w : Warning) : moves (same f) (warn w).
Proof. unfold warn. moves_auto. Qed.
Hint Resolve warn_same : moves.

Lemma check_smallest_class_same `{!Past f set_warnings_emitted, !Past f set_cv}
    (cnts : list (cell * nat)) :
  moves (same f) (check_smallest_class cnts).
Proof. unfold check_smallest_class. moves_auto. Qed.
Hint Resolve check_smallest_class_same : moves.

Lemma check_class_target_same
    `{!Past f set_warnings_emitted, !Past f set_cv, !Past f set_n_classes}
    (target : Series) :
  moves (same f) (check_class_target target).
Proof. unfold check_class_target. moves_auto. Qed.
Hint Resolve check_class_target_same : moves.

Lemma check_columns_same
    `{!Past f set_warnings_emitted, !Past f set_cv, !Past f set_n_classes,
      !Past f set_class_mapping}
    (cols : list (label * Series)) :
  moves (same f) (check_columns cols).
Proof. induction cols as [|[col s] cols IH]; cbn [check_columns]; moves_auto. Qed.
Hint Resolve check_columns_same : moves.

Lemma assert_no_nan_same (of_objects : bool) (values : list cell) :
  moves (same f) (assert_no_nan of_objects values).
Proof. unfold assert_no_nan. moves_auto. Qed.
Hint Resolve assert_no_nan_same : moves.

Lemma create_target_same
    `{!Past f set_warnings_emitted, !Past f set_cv, !Past f set_n_classes,
      !Past f set_class_mapping}
    (target : AttrVal) :
  moves (same f) (_create_target target).
Proof. unfold _create_target. moves_auto. Qed.
Hint Resolve create_target_same : moves.

Lemma set_used_attr_same `{!Past f set_used_array_attrs} (attr : string) (v : UsedAttr) :
  moves (same f) (set_used_attr attr v).
Proof. unfold set_used_attr. moves_auto. Qed.
Hint Resolve set_used_attr_same : moves.

Lemma take_array_attr_same `{!Past f set_used_array_attrs} (plain_data : DataFrame)
    (feat attr : string) (kw : gmap string AttrVal) :
  moves (same f) (take_array_attr plain_data feat attr kw).
Proof. unfold take_array_attr. moves_auto. Qed.
Hint Resolve take_array_attr_same : moves.

Lemma extract_array_attrs_same `{!Past f set_used_array_attrs} (train_data : DataFrame)
    (feats : list string) (parsed_roles : ParsedRoles) (kw : gmap string AttrVal) :
  moves (same f) (extract_array_attrs train_data feats parsed_roles kw).
Proof.
  revert parsed_roles kw.
  induction feats as [|feat feats IH]; intros parsed_roles kw;
    cbn [extract_array_attrs]; moves_auto.
Qed.
Hint Resolve extract_array_attrs_same : moves.

Lemma read_roles_and_target_same
    `{!Past f set_warnings_emitted, !Past f set_cv, !Past f set_n_classes,
      !Past f set_class_mapping, !Past f set_used_array_attrs, !Past f set_target}
    (train_data : DataFrame) (roles : UserRoles) (kw : gmap string AttrVal) :
  moves (same f) (read_roles_and_target train_data roles kw).
Proof. unfold read_roles_and_target. moves_auto. Qed.
Hint Resolve read_roles_and_target_same : moves.

Lemma set_back_same
    `{!Past f set_used_features, !Past f set_roles, !Past f set_dropped_features}
    (feat : string) (r : ColumnRole) :
  moves (same f) (set_back feat r).
Proof. unfold set_back. moves_auto. Qed.
Hint Resolve set_back_same : moves.

Lemma infer_roles_same
    `{!Past f set_used_features, !Past f set_roles, !Past f set_dropped_features}
    (roles : UserRoles) (cols : list (label * Series)) (parsed_roles : ParsedRoles) :
  moves (same f) (infer_roles roles cols parsed_roles).
Proof.
  revert parsed_roles.
  induction cols as [|[[feat|] col] cols IH]; intros parsed_roles;
    cbn [infer_roles]; moves_auto.
Qed.
Hint Resolve infer_roles_same : moves.

Lemma simple_roles_pass_same
    `{!Past f set_used_features, !Past f set_roles, !Past f set_dropped_features}
    (train_data : DataFrame) (roles : UserRoles) (parsed_roles : ParsedRoles) :
  moves (same f) (simple_roles_pass train_data roles parsed_roles).
Proof. unfold simple_roles_pass. moves_auto. Qed.
Hint Resolve simple_roles_pass_same : moves.

Lemma infer_pass_same
    `{!Past f set_warnings_emitted, !Past f set_cv, !Past f set_n_classes,
      !Past f set_class_mapping, !Past f set_used_array_attrs, !Past f set_target,
      !Past f set_used_features, !Past f set_roles, !Past f set_dropped_features}
    (train_data : DataFrame) (roles : UserRoles) (kw : gmap string AttrVal) :
  moves (same f) (infer_pass train_data roles kw).
Proof. unfold infer_pass. moves_auto. Qed.

Lemma create_ids_same `{!Past f set_ti} (seq_data : DataFrame)
    (plain_data : option DataFrame) (dataset_name : string) :
  moves (same f) (create_ids seq_data plain_data dataset_name).
Proof. unfold create_ids. moves_auto. Qed.
Hint Resolve create_ids_same : moves.

Lemma parse_seq_columns_same
    `{!Past f set_used_features, !Past f set_roles, !Past f set_dropped_features}
    (roles : UserRoles) (seq_dataset subsample : DataFrame)
    (cols : list (label * Series)) (acc : SeqLoop) :
  moves (same f) (parse_seq_columns roles seq_dataset subsample cols acc).
Proof.
  revert acc.
  induction cols as [|[[feat|] col] cols IH]; intros acc;
    cbn [parse_seq_columns]; moves_auto.
Qed.
Hint Resolve parse_seq_columns_same : moves.

End same.


(** ** Updates of the used features, one after the other *)

(** X1. One call of [upd_used_features] with features to add and
    features to remove leaves the same used features, up to their order,
    as a call that adds followed by a call that removes; and the same
    call made a second time changes nothing but, possibly, the order.
    No other field of the reader is touched. *)
Theorem upd_used_features_compose (rd : Reader) (add remove : list string) :
  let both := (upd_used_features (Some add) (Some remove) rd).2 in
  let added := (upd_used_features (Some add) None rd).2 in
  let in_turn := (upd_used_features None (Some remove) added).2 in
  let again := (upd_used_features (Some add) (Some remove) both).2 in
  _used_features in_turn ≡ₚ _used_features both
  ∧ _used_features again ≡ₚ _used_features both
  ∧ both = set_used_features (_used_features both) rd
  ∧ in_turn = set_used_features (_used_features in_turn) rd.
Proof.
  cbv zeta. rewrite !upd_used_features_run. simpl.
  split; [|split; [|done]].
  - apply NoDup_Permutation; [apply NoDup_list_of_set..|].
    intros x. rewrite !elem_of_list_of_set. clear. set_solver.
  - apply NoDup_Permutation; [apply NoDup_list_of_set..|].
    intros x. rewrite !elem_of_list_of_set. clear. set_solver.
Qed.

(** ** The columns of a role *)

(** X2. [cols_by_type] lists, each once, the columns whose role in
    [self.roles] has the given name; the lists of two different names
    share no column. *)
Theorem cols_by_type_spec (rd : Reader) (col_type : string) :
  NoDup (cols_by_type rd col_type)
  ∧ (∀ col, col ∈ cols_by_type rd col_type
            ↔ ∃ role, _roles rd !! col = Some role ∧ r_name role = col_type)
  ∧ (∀ other col, other ≠ col_type → col ∈ cols_by_type rd col_type →
                  col ∉ cols_by_type rd other).
Proof.
  forget_unused.
  assert (Hin : ∀ t col, col ∈ cols_by_type rd t
                 ↔ ∃ role, _roles rd !! col = Some role ∧ r_name role = t).
  { intros t col. unfold cols_by_type. rewrite list_elem_of_fmap. split.
    - intros ([c role] & -> & [Hname Hrole%elem_of_map_to_list]%list_elem_of_filter).
      by exists role.
    - intros (role & Hrole & Hname). exists (col, role). split; [done|].
      apply list_elem_of_filter. split; [done|]. by apply elem_of_map_to_list. }
  split; [|split; [apply Hin|]].
  - unfold cols_by_type. apply NoDup_fmap_fst.
    + intros col r1 r2 [_ H1%elem_of_map_to_list]%list_elem_of_filter
        [_ H2%elem_of_map_to_list]%list_elem_of_filter. congruence.
    + apply NoDup_filter, NoDup_map_to_list.
  - intros other col Hne (role & Hrole & Hname)%Hin (role' & Hrole' & Hname')%Hin.
    congruence.
Qed.

(** ** A reader from another reader *)

(** X3. [from_reader] does not return: a reader object has the
    attribute [_roles], which [Reader.__init__] assigns, and the copy of
    the first attribute of [reader.__dict__] whose name starts with an
    underscore into the read-only [__dict__] of the class raises a
    [TypeError]. *)
Theorem from_reader_raises (new_reader : Reader) (attrs : list string) :
  "_roles" ∈ attrs →
  (∀ attr, attr ∈ attrs → attr ≠ EmptyString) →
  from_reader new_reader attrs = Raise (Propagated PyTypeError).
Proof.
  forget_unused. intros Hroles Hnames. unfold from_reader.
  assert (Hcopy : copy_private_attrs attrs = Raise (Propagated PyTypeError));
    [|by rewrite Hcopy].
  induction attrs as [|attr attrs IH]; [by apply not_elem_of_nil in Hroles|].
  destruct attr as [|a attr].
  { exfalso. apply (Hnames EmptyString); [left | reflexivity]. }
  simpl. case_bool_decide as Hfirst; [reflexivity|].
  apply IH.
  - apply elem_of_cons in Hroles as [Heq | Hin]; [|done].
    exfalso. apply Hfirst. by injection Heq as <- _.
  - intros attr' Hin. apply Hnames. by right.
Qed.

(** ** The class mapping *)

Lemma dict_get_elem_of {K V} `{EqDecision K} (k : K) (v : V) (d : list (K * V)) :
  dict_get k d = Some v → (k, v) ∈ d.
Proof.
  induction d as [|[k' v'] d IH]; simpl; [done|].
  destruct (decide (k' = k)) as [->|].
  - intros [= ->]. left.
  - intros Hd. right. by apply IH.
Qed.

(** The code of a value in the mapping of the distinct values [U] is the
    place of the value in [U]. *)
Lemma enumerate_classes_code (U : list cell) (x : cell) (i : nat) :
  NoDup U → dict_get x (enumerate_classes U) = Some i ↔ U !! i = Some x.
Proof.
  intros Hnd. split; [|by apply enumerate_classes_lookup].
  intros Hget. apply dict_get_elem_of in Hget. unfold enumerate_classes in Hget.
  apply list_elem_of_lookup in Hget as [j Hj].
  rewrite list_lookup_imap in Hj.
  destruct (U !! j) as [y|] eqn:Hy; simpl in Hj; [|done].
  by injection Hj as <- <-.
Qed.

Lemma enumerate_classes_snd (U : list cell) : (enumerate_classes U).*2 = seq 0 (length U).
Proof.
  unfold enumerate_classes. apply list_eq. intros i.
  rewrite list_lookup_fmap, list_lookup_imap.
  destruct (U !! i) as [x|] eqn:Hi; simpl.
  - by rewrite lookup_seq_lt by by eapply lookup_lt_Some.
  - apply lookup_ge_None in Hi. symmetry. apply lookup_ge_None. by rewrite length_seq.
Qed.

Lemma enumerate_classes_fst (U : list cell) : (enumerate_classes U).*1 = U.
Proof.
  unfold enumerate_classes. apply list_eq. intros i.
  rewrite list_lookup_fmap, list_lookup_imap. by destruct (U !! i).
Qed.

Lemma StronglySorted_lookup {A} (R : relation A) (l : list A) (i j : nat) (a b : A) :
  StronglySorted R l → l !! i = Some a → l !! j = Some b → i < j → R a b.
Proof.
  intros Hs. revert i j. induction Hs as [|c l Hs IH Hall]; intros i j Hi Hj Hij; [done|].
  destruct j as [|j]; [lia|]. simpl in Hj.
  destruct i as [|i]; simpl in Hi.
  - injection Hi as ->. rewrite Forall_forall in Hall.
    apply Hall. by eapply list_elem_of_lookup_2.
  - apply (IH i j); [done..|lia].
Qed.

(** The mapping branch of [check_class_target], when it returns. *)
Lemma check_class_target_mapped (rd rd' : Reader) (target encoded : Series)
    (m : class_map) :
  check_class_target target rd = (Ok (encoded, Some m), rd') →
  let U := (value_counts_all (s_values target)).*1 in
  m = enumerate_classes U
  ∧ encoded = mkSeries np_int32 (code U <$> s_values target)
  ∧ _n_classes rd' = Some (length U).
Proof.
  intros Hrun U. rewrite check_class_target_run in Hrun. cbv zeta in Hrun.
  fold U in Hrun.
  destruct (existsb isnull U); [done|].
  destruct (np_sort U) as [srtd|]; [|done].
  destruct (if decide (task_name rd = "multiclass") then _ else _)
    as [[[]|e] rd2] eqn:Hsmall; [|done].
  assert (Hn : _n_classes rd2 = Some (length U)).
  { clear Hrun. destruct (decide _); [|by injection Hsmall as <-].
    rewrite check_smallest_class_run in Hsmall.
    repeat case_match; by simplify_eq. }
  destruct (is_arange srtd).
  { repeat case_match; done. }
  rewrite astype_int32_codes in Hrun;
    [|apply NoDup_value_counts_all | apply mapped_values_in_keys].
  by injection Hrun as <- <- <-.
Qed.

(** X4. When [check_class_target] builds a class mapping, the codes of
    the mapping are 0, 1, ..., k-1 for the k distinct values of the
    target, each value has one code, and the codes follow the
    frequencies: a value with a smaller code is at least as frequent.
    The reader remembers k as the number of classes, and the encoded
    column has the length of the target and 32-bit integers as storage
    type. With at most 2^31 distinct values, the encoded column is the
    target sent through the mapping, and two rows hold the same code
    exactly when they held the same value. *)
Theorem class_mapping_codes (rd rd' : Reader) (target encoded : Series)
    (m : class_map) :
  check_class_target target rd = (Ok (encoded, Some m), rd') →
  let values := s_values target in
  let k := length (uniques values) in
  m.*2 = seq 0 k
  ∧ m.*1 ≡ₚ uniques values
  ∧ (∀ x y i j, dict_get x m = Some i → dict_get y m = Some j → i < j →
       count y values ≤ count x values)
  ∧ _n_classes rd' = Some k
  ∧ length (s_values encoded) = length values
  ∧ s_dtype encoded = np_int32
  ∧ ((Z.of_nat k ≤ 2 ^ 31)%Z →
       s_values encoded = map_cell m <$> values
       ∧ ∀ i j, s_values encoded !! i = s_values encoded !! j
                ↔ values !! i = values !! j).
Proof.
  intros Hrun values k.
  destruct (check_class_target_mapped _ _ _ _ _ Hrun) as (-> & -> & Hn).
  fold values in Hn |- *.
  set (U := (value_counts_all values).*1) in *.
  assert (Hnd : NoDup U) by apply NoDup_value_counts_all.
  assert (Hlen : length U = k) by apply value_counts_all_length.
  assert (Hin : ∀ x, x ∈ values → x ∈ U) by apply mapped_values_in_keys.
  split; [by rewrite enumerate_classes_snd, Hlen|].
  split; [rewrite enumerate_classes_fst; apply value_counts_all_keys|].
  split; [|split; [by rewrite Hn, Hlen|]].
  - intros x y i j Hx%enumerate_classes_code Hy%enumerate_classes_code Hij; [|done..].
    unfold U in Hx, Hy. rewrite list_lookup_fmap in Hx, Hy.
    destruct (value_counts_all values !! i) as [[x' cx]|] eqn:Hi; [|done].
    destruct (value_counts_all values !! j) as [[y' cy]|] eqn:Hj; [|done].
    simpl in Hx, Hy. injection Hx as ->. injection Hy as ->.
    pose proof (StronglySorted_lookup _ _ _ _ _ _
                  (value_counts_all_sorted values) Hi Hj Hij) as Hle.
    apply list_elem_of_lookup_2, elem_of_value_counts_all in Hi as [_ ->].
    apply list_elem_of_lookup_2, elem_of_value_counts_all in Hj as [_ ->].
    exact Hle.
  - simpl. split; [by rewrite length_fmap|]. split; [reflexivity|].
    intros Hk. rewrite <- Hlen in Hk.
    assert (Hcode : ∀ x, x ∈ values → code U x = map_cell (enumerate_classes U) x).
    { intros x [i Hi]%Hin%list_elem_of_lookup.
      rewrite (code_at U x i) by done. unfold map_cell.
      by rewrite (enumerate_classes_lookup U x i). }
    split.
    + apply list_eq. intros i. rewrite !list_lookup_fmap.
      destruct (values !! i) as [x|] eqn:Hi; simpl; [|done].
      f_equal. apply Hcode. by eapply list_elem_of_lookup_2.
    + intros i j. rewrite !list_lookup_fmap.
      destruct (values !! i) as [x|] eqn:Hi, (values !! j) as [y|] eqn:Hj;
        simpl; [|done..].
      split; [|by intros [= ->]].
      intros Hxy. f_equal. apply (inj Some) in Hxy.
      apply (code_inj U x y Hnd Hk); [| |exact Hxy];
        apply Hin; by eapply list_elem_of_lookup_2.
Qed.

Lemma count_pos (x : cell) (l : list cell) : x ∈ l → 0 < count x l.
Proof.
  intros Hx. unfold count.
  assert (Hin : x ∈ filter (fun y => y = x) l) by by apply list_elem_of_filter.
  destruct (filter _ l); [by apply not_elem_of_nil in Hin | simpl; lia].
Qed.

(** X5. Whether it returns or raises, [check_class_target] assigns
    nothing but the number of classes, [cv] and a warning. It leaves
    [cv] as it was and warns of nothing, or else the task is multiclass
    and [cv] was above the number of samples of a least frequent class:
    then [cv] becomes that number, which is 2 at least, and one warning
    is emitted. *)
Theorem check_class_target_effect (rd : Reader) (target : Series) :
  let values := s_values target in
  let after := (check_class_target target rd).2 in
  after = set_warnings_emitted (warnings_emitted after)
            (set_cv (cv after) (set_n_classes (_n_classes after) rd))
  ∧ ((cv after = cv rd ∧ warnings_emitted after = warnings_emitted rd)
     ∨ ∃ (old : Z) (smallest : nat) (cls : cell),
         task_name rd = "multiclass"
         ∧ cv rd = Some old
         ∧ (2 ≤ Z.of_nat smallest < old)%Z
         ∧ cls ∈ values
         ∧ smallest = count cls values
         ∧ (∀ x, x ∈ values → smallest ≤ count x values)
         ∧ cv after = Some (Z.of_nat smallest)
         ∧ warnings_emitted after = CvReduced cls smallest old :: warnings_emitted rd).
Proof.
  intros values after.
  assert (Heta : ∀ r : Reader,
    r = set_warnings_emitted (warnings_emitted r) (set_cv (cv r)
          (set_n_classes (_n_classes r) r))) by by intros [].
  set (P := fun r : Reader =>
    r = set_warnings_emitted (warnings_emitted r)
          (set_cv (cv r) (set_n_classes (_n_classes r) rd))
    ∧ ((cv r = cv rd ∧ warnings_emitted r = warnings_emitted rd)
       ∨ ∃ (old : Z) (smallest : nat) (cls : cell),
           task_name rd = "multiclass"
           ∧ cv rd = Some old
           ∧ (2 ≤ Z.of_nat smallest < old)%Z
           ∧ cls ∈ values
           ∧ smallest = count cls values
           ∧ (∀ x, x ∈ values → smallest ≤ count x values)
           ∧ cv r = Some (Z.of_nat smallest)
           ∧ warnings_emitted r = CvReduced cls smallest old :: warnings_emitted rd)).
  change (P after).
  assert (Hrd : P rd) by (split; [apply Heta | by left]).
  assert (Hrd1 : ∀ n, P (set_n_classes n rd)) by (intros n; split; [done | by left]).
  unfold after. rewrite check_class_target_run. cbv zeta. fold values.
  destruct (existsb isnull _); [exact Hrd|].
  destruct (np_sort _) as [srtd|]; [|exact Hrd].
  set (rd1 := set_n_classes _ rd).
  assert (Hsmall : P (if decide (task_name rd = "multiclass")
                      then check_smallest_class (value_counts_all values) rd1
                      else (Ok tt, rd1)).2).
  { destruct (decide _) as [Htask|]; [|apply Hrd1].
    rewrite check_smallest_class_run.
    destruct (last _) as [[cls smallest]|] eqn:Hlast; [|apply Hrd1].
    destruct (decide (smallest = 1)); [apply Hrd1|].
    destruct (cv rd1) as [old|] eqn:Hcv; [|apply Hrd1].
    destruct (decide _) as [Hlt|]; [|apply Hrd1].
    split; [by destruct rd|]. right. exists old, smallest, cls.
    destruct (value_counts_all_last _ _ _ Hlast) as (Hin & Hcount & Hleast).
    pose proof (count_pos cls values Hin).
    repeat split; [done|done|lia|lia|done..]. }
  destruct (if decide (task_name rd = "multiclass") then _ else _) as [[[]|e] rd2];
    simpl in Hsmall; [|exact Hsmall].
  repeat case_match; exact Hsmall.
Qed.

(** ** The target *)

Lemma check_class_target_nan (rd : Reader) (target : Series) :
  CNaN ∈ s_values target → check_class_target target rd = (Raise NanInTarget, rd).
Proof.
  intros Hnan. rewrite check_class_target_run. cbv zeta.
  assert (Hex : existsb isnull (value_counts_all (s_values target)).*1 = true);
    [|by rewrite Hex].
  apply existsb_exists. exists CNaN. split; [|reflexivity].
  apply list_elem_of_In. by apply mapped_values_in_keys.
Qed.

Lemma check_columns_nan (rd : Reader) (cols : list (label * Series)) :
  (∃ col, col ∈ cols ∧ CNaN ∈ s_values col.2) →
  is_Ok (check_columns cols rd).1 = false.
Proof.
  revert rd. induction cols as [|[col s] cols IH]; intros rd (c & Hc & Hnan).
  { by apply not_elem_of_nil in Hc. }
  cbn [check_columns]. unfold mbind, M_bind.
  destruct (check_class_target s rd) as [[[target_col mapping]|e] rd1] eqn:Hs; [|done].
  apply elem_of_cons in Hc as [-> | Hc].
  { simpl in Hnan. by rewrite check_class_target_nan in Hs. }
  unfold modify at 1. simpl.
  match goal with |- context [check_columns cols ?r] =>
    specialize (IH r); destruct (check_columns cols r) as [[rest|e] rd2] end.
  - discriminate IH. by exists c.
  - reflexivity.
Qed.

Lemma assert_no_nan_nan (rd : Reader) (of_objects : bool) (values : list cell) :
  CNaN ∈ values →
  (assert_no_nan of_objects values rd).1
  = Raise (if of_objects then Propagated PyTypeError else NanInTarget).
Proof.
  intros Hnan. unfold assert_no_nan. destruct of_objects; [reflexivity|].
  assert (Hex : existsb isnull values = true); [|by rewrite Hex].
  apply existsb_exists. exists CNaN. split; [by apply list_elem_of_In | reflexivity].
Qed.

(** A target that holds NaN in a column of numbers: in the column, or in
    a column of the frame. *)
Definition has_nan (t : AttrVal) : Prop :=
  match t with
  | ASeries _ s => is_number (s_dtype s) = true ∧ CNaN ∈ s_values s
  | AFrame df =>
      ∃ col, col ∈ df_columns df ∧ is_number (s_dtype col.2) = true ∧ CNaN ∈ s_values col.2
  | ANames _ => False
  end.

(** X6. [_create_target] accepts no target that holds NaN in a column of
    numbers, whatever the task. For a target of one column the error is
    the one of the assert "Nan in target detected", unless the task is
    multilabel, which wants a frame. *)
Theorem create_target_rejects_nan (rd : Reader) (t : AttrVal) :
  has_nan t →
  is_Ok (_create_target t rd).1 = false
  ∧ (∀ name s, t = ASeries name s →
       task_name rd ≠ "multilabel" →
       (_create_target t rd).1 = Raise NanInTarget
       ∧ raises (_create_target t rd).1 InvalidTargetError).
Proof.
  intros Hnan.
  assert (Hrun : ∀ name s, t = ASeries name s → task_name rd ≠ "multilabel" →
    (_create_target t rd).1 = Raise NanInTarget).
  { intros name s -> Hml. destruct Hnan as [Hnum Hnan].
    unfold _create_target. run_reader.
    destruct (decide (task_name rd = "binary" ∨ task_name rd = "multiclass"))
      as [Hclass|Hclass].
    - simpl. by rewrite check_class_target_nan.
    - rewrite decide_False by done.
      rewrite (bool_decide_false (s_dtype s = np_object))
        by (intros Hobj; by rewrite Hobj in Hnum).
      pose proof (assert_no_nan_nan (set_class_mapping CMNone rd) false _ Hnan)
        as Hassert.
      destruct (assert_no_nan _ _ _) as [[[]|e] rd1]; simpl in *; congruence. }
  split.
  - unfold _create_target. run_reader.
    destruct (decide (task_name rd = "binary" ∨ task_name rd = "multiclass"))
      as [Hclass|Hclass].
    + destruct t as [name s|df|feats]; simpl in *; [|done..].
      destruct Hnan as [_ Hnan]. by rewrite check_class_target_nan.
    + destruct (decide (task_name rd = "multilabel")) as [Hlabel|Hlabel].
      * destruct t as [name s|df|feats]; simpl in *; [done| |done].
        assert (Hcol : ∃ col, col ∈ df_columns df ∧ CNaN ∈ s_values col.2).
        { destruct Hnan as (col & Hcol & _ & Hc). by exists col. }
        match goal with |- context [check_columns _ ?r] =>
          pose proof (check_columns_nan r _ Hcol) as Hcols;
          destruct (check_columns (df_columns df) r) as [[cols|e] rd1] end; done.
      * destruct t as [name s|df|feats]; simpl in *; [| |done].
        -- destruct Hnan as [_ Hnan].
           pose proof (assert_no_nan_nan (set_class_mapping CMNone rd)
                         (bool_decide (s_dtype s = np_object)) _ Hnan) as Hassert.
           destruct (assert_no_nan _ _ _) as [[[]|e] rd1]; simpl in *; done.
        -- assert (Hconcat : CNaN ∈ concat ((fun c => s_values c.2) <$> df_columns df)).
           { destruct Hnan as (col & Hcol & _ & Hc). apply list_elem_of_In, in_concat.
             exists (s_values col.2). split; [|by apply list_elem_of_In].
             apply list_elem_of_In, list_elem_of_fmap. by exists col. }
           pose proof (assert_no_nan_nan (set_class_mapping CMNone rd)
                         (object_values ((fun c => s_dtype c.2) <$> df_columns df))
                         _ Hconcat) as Hassert.
           destruct (assert_no_nan _ _ _) as [[[]|e] rd1]; simpl in *; done.
  - intros name s Ht Hml. rewrite (Hrun name s Ht Hml).
    split; [reflexivity|]. by eexists.
Qed.

Lemma check_class_target_length (rd rd' : Reader) (target target' : Series)
    (mapping : option class_map) :
  check_class_target target rd = (Ok (target', mapping), rd') →
  length (s_values target') = length (s_values target).
Proof.
  destruct mapping as [m|].
  - intros Hrun. destruct (check_class_target_mapped _ _ _ _ _ Hrun) as (_ & -> & _).
    simpl. by rewrite length_fmap.
  - rewrite check_class_target_run. cbv zeta. intros Hrun.
    repeat case_match; by simplify_eq.
Qed.

Lemma elem_of_dict_set_fst {K V} `{EqDecision K} (k x : K) (v : V) (d : list (K * V)) :
  x ∈ (dict_set k v d).*1 ↔ x = k ∨ x ∈ d.*1.
Proof.
  induction d as [|[k' v'] d IH]; simpl.
  - rewrite list_elem_of_singleton. set_solver.
  - destruct (decide (k' = k)) as [->|]; simpl; rewrite !elem_of_cons; [|rewrite IH];
      naive_solver.
Qed.

(** The loop over the columns of a multilabel target, when it returns. *)
Lemma check_columns_returns (cols cols' : list (label * Series)) (rd rd' : Reader)
    (ms : list (label * option class_map)) :
  check_columns cols rd = (Ok cols', rd') →
  class_mapping rd = CMPerCol ms →
  ∃ ms', class_mapping rd' = CMPerCol ms'
    ∧ cols'.*1 = cols.*1
    ∧ Forall2 (fun old new => length (s_values new.2) = length (s_values old.2)) cols cols'
    ∧ ∀ col, col ∈ ms'.*1 ↔ col ∈ ms.*1 ∨ col ∈ cols.*1.
Proof.
  forget_unused.
  revert cols' rd ms. induction cols as [|[col s] cols IH]; intros cols' rd ms.
  { intros [= <- <-] Hms. exists ms. repeat split; [done|constructor|set_solver..]. }
  cbn [check_columns]. unfold mbind, M_bind.
  destruct (check_class_target s rd) as [[[target_col mapping]|e] rd1] eqn:Hs; [|done].
  intros Hrun Hms.
  assert (Hms1 : class_mapping rd1 = CMPerCol ms).
  { rewrite <- Hms. pose proof (check_class_target_same class_mapping s rd) as Hsame.
    by rewrite Hs in Hsame. }
  unfold modify at 1 in Hrun. simpl in Hrun. rewrite Hms1 in Hrun.
  destruct (check_columns cols _) as [[rest|e] rd2] eqn:Hrest; [|done].
  injection Hrun as <- <-.
  destruct (IH _ _ _ Hrest eq_refl) as (ms' & Hms' & Hfst & Hlen & Hkeys).
  exists ms'. split; [done|]. split; [by rewrite !fmap_cons, Hfst|].
  split.
  - constructor; [|done]. simpl. by eapply check_class_target_length.
  - intros c. rewrite Hkeys, elem_of_dict_set_fst, fmap_cons, elem_of_cons. simpl.
    naive_solver.
Qed.

(** X7. For the multilabel task, [_create_target], when it returns,
    returns a frame with the labels of the target frame and columns of
    the same lengths, leaves a class mapping with one entry for each
    label of the frame, and sets the number of classes to twice the
    number of columns. *)
Theorem create_target_multilabel (rd rd' : Reader) (df : DataFrame) (t : AttrVal) :
  task_name rd = "multilabel" →
  _create_target (AFrame df) rd = (Ok t, rd') →
  ∃ cols ms,
    t = AFrame (mkFrame cols)
    ∧ cols.*1 = (df_columns df).*1
    ∧ Forall2 (fun old new => length (s_values new.2) = length (s_values old.2))
        (df_columns df) cols
    ∧ class_mapping rd' = CMPerCol ms
    ∧ (∀ col, col ∈ ms.*1 ↔ col ∈ (df_columns df).*1)
    ∧ _n_classes rd' = Some (length (df_columns df) * 2).
Proof.
  intros Htask. unfold _create_target. run_reader.
  rewrite decide_False by (rewrite Htask; intros [|]; discriminate).
  rewrite decide_True by done. simpl.
  destruct (check_columns _ _) as [[cols|e] rd1] eqn:Hcols; [|done].
  intros [= <- <-].
  destruct (check_columns_returns _ _ _ _ [] Hcols eq_refl)
    as (ms & Hms & Hfst & Hlen & Hkeys).
  exists cols, ms. do 4 (split; [done|]). split; [|reflexivity].
  intros col. rewrite Hkeys. split; [|by right].
  intros [Hc|Hc]; [by apply not_elem_of_nil in Hc | done].
Qed.

(** ** [fit_read], when it returns *)

Lemma bind_Ok {A B} (m : M Reader A) (k : A → M Reader B) (rd rd' : Reader) (b : B) :
  (m ≫= k) rd = (Ok b, rd') → ∃ a rd1, m rd = (Ok a, rd1) ∧ k a rd1 = (Ok b, rd').
Proof.
  unfold mbind, M_bind. destruct (m rd) as [[a|e] rd1]; [|done].
  intros Hk. by exists a, rd1.
Qed.

(** The role that the loop of the simple guess finds for a column, and
    the declared roles after it. *)
Definition role_of_column (rd : Reader) (roles : UserRoles) (feat : string)
    (col : Series) (parsed_roles : ParsedRoles) : result (ColumnRole * ParsedRoles) :=
  match dict_get feat parsed_roles with
  | Some (RoleObj r) =>
      match check_declared_role rd ["Datetime"] roles feat col r with
      | Ok r => Ok (r, dict_set feat (RoleObj r) parsed_roles)
      | Raise e => Raise e
      end
  | Some (RoleName _) => Raise (Propagated PyAttributeError)
  | None =>
      match infer_role rd col with
      | Ok r => Ok (r, parsed_roles)
      | Raise e => Raise e
      end
  end.

Lemma infer_roles_cons (roles : UserRoles) (feat : string) (col : Series)
    (cols : list (label * Series)) (parsed_roles : ParsedRoles) (rd : Reader) :
  infer_roles roles ((LStr feat, col) :: cols) parsed_roles rd
  = match role_of_column rd roles feat col parsed_roles with
    | Raise e => (Raise e, rd)
    | Ok (r, parsed_roles) => infer_roles roles cols parsed_roles (set_back feat r rd).2
    end.
Proof.
  cbn [infer_roles]. unfold role_of_column. run_reader.
  destruct (dict_get feat parsed_roles) as [[name|r]|]; simpl; [reflexivity| |].
  - destruct (check_declared_role _ _ _ _ _ _) as [r'|e]; simpl; [|reflexivity].
    unfold set_back. by case_bool_decide.
  - destruct (infer_role rd col) as [r'|e]; simpl; [|reflexivity].
    unfold set_back. by case_bool_decide.
Qed.

Lemma set_back_fields (feat : string) (r : ColumnRole) (rd : Reader) :
  let rd1 := (set_back feat r rd).2 in
  if bool_decide (r_name r ≠ "Drop") then
    _used_features rd1 = _used_features rd ++ [feat]
    ∧ _dropped_features rd1 = _dropped_features rd
    ∧ _roles rd1 = <[feat := r]> (_roles rd)
  else
    _used_features rd1 = _used_features rd
    ∧ _dropped_features rd1 = _dropped_features rd ++ [feat]
    ∧ _roles rd1 = _roles rd.
Proof. unfold set_back. by case_bool_decide. Qed.

(** The loop of the simple guess, when it returns: the columns go, in
    their order, to the end of the used or of the dropped features, and
    the used ones get a role that is not Drop. *)
Lemma infer_roles_returns (roles : UserRoles) (cols : list (label * Series))
    (parsed_roles parsed_roles' : ParsedRoles) (rd rd' : Reader) :
  infer_roles roles cols parsed_roles rd = (Ok parsed_roles', rd') →
  ∃ used dropped,
    _used_features rd' = _used_features rd ++ used
    ∧ _dropped_features rd' = _dropped_features rd ++ dropped
    ∧ LStr <$> (used ++ dropped) ≡ₚ cols.*1
    ∧ (LStr <$> used) `sublist_of` cols.*1
    ∧ dom (_roles rd') = dom (_roles rd) ∪ list_to_set used
    ∧ (∀ f r, f ∈ used → _roles rd' !! f = Some r → r_name r ≠ "Drop")
    ∧ (∀ f, f ∉ used → _roles rd' !! f = _roles rd !! f).
Proof.
  forget_unused.
  revert parsed_roles rd.
  induction cols as [|[[feat|z] col] cols IH]; intros parsed_roles rd.
  - intros [= <- <-]. exists [], []. rewrite !app_nil_r.
    repeat split; [done|set_solver|set_solver..].
  - rewrite infer_roles_cons.
    destruct (role_of_column _ _ _ _ _) as [[r parsed1]|e]; [|done].
    intros Hrest.
    destruct (IH _ _ Hrest) as (used & dropped & Hused & Hdropped & Hperm & Hsub
                                & Hdom & Hrole & Hother).
    clear IH Hrest. pose proof (set_back_fields feat r rd) as Hback.
    cbv zeta in Hback. rewrite !fmap_cons. cbn [fst].
    case_bool_decide as Hdrop; destruct Hback as (Hu & Hd & Hr);
      rewrite Hu in Hused; rewrite Hd in Hdropped; rewrite Hr in Hdom, Hother.
    + exists (feat :: used), dropped.
      split; [by rewrite Hused, <- app_assoc|]. split; [done|].
      split; [by rewrite <- app_comm_cons, fmap_cons, Hperm|].
      split; [rewrite fmap_cons; by apply sublist_skip|].
      split; [rewrite Hdom, dom_insert_L; set_solver|].
      split.
      * intros f r' Hf Hr'. destruct (decide (f ∈ used)) as [Hin|Hnin].
        { by apply (Hrole f). }
        apply elem_of_cons in Hf as [-> | Hf]; [|done].
        rewrite (Hother _ Hnin), lookup_insert_eq in Hr'. by injection Hr' as <-.
      * intros f Hf. apply not_elem_of_cons in Hf as [Hne Hf].
        by rewrite (Hother _ Hf), lookup_insert_ne.
    + exists used, (feat :: dropped).
      split; [done|]. split; [by rewrite Hdropped, <- app_assoc|].
      split; [by rewrite <- Hperm, !fmap_app, fmap_cons, Permutation_middle|].
      split; [by apply sublist_cons|].
      done.
  - done.
Qed.

Lemma select_fst (df : DataFrame) (feats : list string) (cols : list (label * Series)) :
  select df feats = Ok cols → cols.*1 = LStr <$> feats.
Proof.
  revert cols. induction feats as [|feat feats IH]; intros cols; simpl.
  - by intros [= <-].
  - destruct (loc df feat) as [c|e]; [|done].
    destruct (select df feats) as [rest|e]; [|done].
    intros [= <-]. by rewrite fmap_cons, (IH rest).
Qed.

Lemma lookup_col_Some (cols : list (label * Series)) (feat : string) (c : Series) :
  lookup_col cols feat = Some c → (LStr feat, c) ∈ cols.
Proof.
  induction cols as [|[[s|z] c'] cols IH]; simpl; [done| |].
  - destruct (decide (s = feat)) as [->|]; [intros [= ->]; left|].
    intros Hc. right. by apply IH.
  - intros Hc. right. by apply IH.
Qed.

Lemma select_columns (df : DataFrame) (feats : list string) (cols : list (label * Series)) :
  select df feats = Ok cols → ∀ f, f ∈ feats → LStr f ∈ (df_columns df).*1.
Proof.
  revert cols. induction feats as [|feat feats IH]; intros cols; simpl.
  - intros _ f Hf. by apply not_elem_of_nil in Hf.
  - unfold loc. destruct (lookup_col (df_columns df) feat) as [c|] eqn:Hc; [|done].
    destruct (select df feats) as [rest|e]; [|done].
    intros _ f [-> | Hf]%elem_of_cons.
    + apply list_elem_of_fmap. exists (LStr feat, c). split; [done|].
      by apply lookup_col_Some.
    + by apply (IH rest).
Qed.

(** [fit_read], step by step, when it returns. *)
Lemma fit_read_returns (train_data : DataFrame) (roles : UserRoles)
    (kw : gmap string AttrVal) (rd rd' : Reader) (dataset : Dataset) :
  fit_read train_data roles kw rd = (Ok dataset, rd') →
  ∃ parsed_roles kw1 rd1 parsed_roles2 rd2 kw2 cols2,
    read_roles_and_target train_data roles kw rd = (Ok (parsed_roles, kw1), rd1)
    ∧ infer_roles roles (df_columns (take_subsample rd1 train_data)) parsed_roles rd1
      = (Ok parsed_roles2, rd2)
    ∧ _used_features rd2 ≠ []
    ∧ select train_data (_used_features rd2) = Ok cols2
    ∧ (∀ attr, attr ≠ "folds" → kw2 !! attr = kw1 !! attr)
    ∧ if advanced_roles rd2 then
        ∃ rd3 cols3,
          apply_advanced_roles
            (mkDataset (mkFrame cols2) (_roles rd2) (task_name rd2) kw2 None)
            parsed_roles2 rd2 = (Ok tt, rd3)
          ∧ select train_data (_used_features rd3) = Ok cols3
          ∧ rd' = rd3
          ∧ dataset = mkDataset (mkFrame cols3) (_roles rd3) (task_name rd3) kw2 None
      else
        rd' = rd2
        ∧ dataset = mkDataset (mkFrame cols2) (_roles rd2) (task_name rd2) kw2 None.
Proof.
  unfold fit_read, infer_pass, simple_roles_pass.
  intros ([parsed_roles2 kw1] & rd2 & Hpass & Hrest)%bind_Ok.
  apply bind_Ok in Hpass as ([parsed_roles kw0] & rd1 & Hread & Hpass).
  apply bind_Ok in Hpass as (parsed_roles2b & rd2b & Hsimple & Hret).
  injection Hret as -> -> ->.
  apply bind_Ok in Hsimple as (rd1b & rd1c & Hget & Hsimple).
  injection Hget as <- <-.
  apply bind_Ok in Hsimple as (parsed_roles2c & rd2c & Hinfer & Hsimple).
  apply bind_Ok in Hsimple as (rd2d & rd2e & Hget & Hsimple).
  injection Hget as <- <-.
  apply bind_Ok in Hsimple as ([] & rd2f & Hassert & Hret).
  injection Hret as -> <-.
  unfold assert in Hassert. case_bool_decide as Hused; [|done].
  injection Hassert as <-.
  apply bind_Ok in Hrest as (rd2g & rd2h & Hget & Hrest).
  injection Hget as <- <-.
  apply bind_Ok in Hrest as (t & rd2i & Ht & Hrest).
  unfold lift in Ht. injection Ht as Ht <-.
  apply bind_Ok in Hrest as (ds2 & rd2j & Hds & Hrest).
  unfold make_dataset in Hds.
  apply bind_Ok in Hds as (rd2k & rd2l & Hget & Hds).
  injection Hget as <- <-.
  apply bind_Ok in Hds as (cols2 & rd2m & Hcols & Hret).
  injection Hret as <- <-.
  unfold lift in Hcols. injection Hcols as Hcols <-.
  eexists _, _, _, _, _, _, cols2.
  split; [exact Hread|]. split; [exact Hinfer|].
  split; [intros Hnil; rewrite Hnil in Hused; simpl in Hused; lia|].
  split; [exact Hcols|].
  split; cycle 1.
  { destruct (advanced_roles _).
    - apply bind_Ok in Hrest as ([] & rd3 & Hadv & Hds).
      unfold make_dataset in Hds.
      apply bind_Ok in Hds as (rd3b & rd3c & Hget & Hds).
      injection Hget as <- <-.
      apply bind_Ok in Hds as (cols3 & rd3d & Hcols3 & Hret).
      injection Hret as <- <-.
      unfold lift in Hcols3. injection Hcols3 as Hcols3 <-.
      exists rd3, cols3. by repeat split.
    - injection Hrest as <- <-. by split. }
  intros attr Hattr. destruct (set_sklearn_folds _ _ _ _ _); [|reflexivity].
  by rewrite lookup_insert_ne.
Qed.

Lemma take_subsample_columns (rd : Reader) (data : DataFrame) :
  (∀ n seed df, (df_columns (sample n seed df)).*1 = (df_columns df).*1) →
  (df_columns (take_subsample rd data)).*1 = (df_columns data).*1.
Proof.
  intros Hsample. unfold take_subsample.
  destruct (samples rd); [|done]. by case_bool_decide.
Qed.

(** X8. Without the advanced guess, a [fit_read] that returns has put
    every column of the table, once, at the end of the used features or
    at the end of the dropped features of the reader, in the order of the
    table: nothing that was there before is reset, so a reader that is
    fitted again holds its features twice. At least one feature is used;
    each new used feature has a role, which is not Drop, and no other
    role changes; the dataset holds the used features, in their order,
    with the roles of the reader. The sampling of pandas is taken to keep
    the columns of the table. *)
Theorem fit_read_features (train_data : DataFrame) (roles : UserRoles)
    (kw : gmap string AttrVal) (rd rd' : Reader) (dataset : Dataset) :
  fit_read train_data roles kw rd = (Ok dataset, rd') →
  advanced_roles rd = false →
  (∀ n seed df, (df_columns (sample n seed df)).*1 = (df_columns df).*1) →
  ∃ used dropped,
    _used_features rd' = _used_features rd ++ used
    ∧ _dropped_features rd' = _dropped_features rd ++ dropped
    ∧ LStr <$> (used ++ dropped) ≡ₚ (df_columns train_data).*1
    ∧ (LStr <$> used) `sublist_of` (df_columns train_data).*1
    ∧ _used_features rd' ≠ []
    ∧ dom (_roles rd') = dom (_roles rd) ∪ list_to_set used
    ∧ (∀ f r, f ∈ used → _roles rd' !! f = Some r → r_name r ≠ "Drop")
    ∧ (∀ f, f ∉ used → _roles rd' !! f = _roles rd !! f)
    ∧ ((∀ f r, _roles rd !! f = Some r → r_name r ≠ "Drop") →
       cols_by_type rd' "Drop" = [])
    ∧ (df_columns (ds_data dataset)).*1 = LStr <$> _used_features rd'
    ∧ ds_roles dataset = _roles rd'.
Proof.
  intros Hfit Hadv Hsample.
  destruct (fit_read_returns _ _ _ _ _ _ Hfit)
    as (parsed_roles & kw1 & rd1 & parsed_roles2 & rd2 & kw2 & cols2
        & Hread & Hinfer & Hnil & Hcols & Hkw2 & Hrest).
  pose proof (read_roles_and_target_same
    (fun r => (_used_features r, _dropped_features r, _roles r, advanced_roles r))
    train_data roles kw rd) as Hsame.
  rewrite Hread in Hsame. injection Hsame as Hu Hd Hr Ha.
  pose proof (infer_roles_same advanced_roles roles
    (df_columns (take_subsample rd1 train_data)) parsed_roles rd1) as Hsame.
  rewrite Hinfer in Hsame. unfold same in Hsame. simpl in Hsame.
  rewrite Hsame, Ha, Hadv in Hrest. destruct Hrest as [<- ->].
  destruct (infer_roles_returns _ _ _ _ _ _ Hinfer)
    as (used & dropped & Hused & Hdropped & Hperm & Hsub & Hdom & Hrole & Hother).
  rewrite take_subsample_columns in Hperm, Hsub by done.
  rewrite Hu in Hused. rewrite Hd in Hdropped. rewrite Hr in Hdom, Hother.
  exists used, dropped. do 8 (split; [done|]).
  split; [|split; [by apply (select_fst train_data) | reflexivity]].
  intros Hbefore. unfold cols_by_type.
  destruct (filter _ _) as [|[f r] rest] eqn:Hfilter; [reflexivity|].
  assert (Hin : (f, r) ∈ filter (fun cr : string * ColumnRole => r_name cr.2 = "Drop")
                          (map_to_list (_roles rd')))
    by (rewrite Hfilter; left).
  apply list_elem_of_filter in Hin as [Hname Hin%elem_of_map_to_list].
  exfalso. destruct (decide (f ∈ used)) as [Hf|Hf].
  - by apply (Hrole f r).
  - rewrite (Hother f Hf) in Hin. by apply (Hbefore f r).
Qed.

(** ** The advanced guess inside [fit_read] *)

(** The advanced guess keeps a role for every feature of the dataset. *)
Lemma advanced_roles_guess_dom (rd : Reader) (dataset : Dataset)
    (manual_roles : ParsedRoles) (x : string) :
  is_Some (ds_roles dataset !! x) →
  is_Some (advanced_roles_guess rd dataset manual_roles !! x).
Proof.
  forget_unused.
  intros Hx. unfold advanced_roles_guess.
  assert (Hunion : ∀ a b : gmap string ColumnRole, is_Some (b !! x) → is_Some ((a ∪ b) !! x)).
  { intros a b Hb. apply lookup_union_is_Some. by right. }
  repeat case_match; simplify_eq; auto.
Qed.

Lemma apply_advanced_roles_returns (dataset : Dataset) (parsed_roles : ParsedRoles)
    (rd rd' : Reader) :
  apply_advanced_roles dataset parsed_roles rd = (Ok tt, rd') →
  ∃ droplist,
    make_droplist (_roles rd)
      (map_to_list (advanced_roles_guess rd dataset parsed_roles)) = Ok droplist
    ∧ rd' = set_roles
              (filter (fun xr : string * ColumnRole => xr.1 ∉ droplist)
                 (advanced_roles_guess rd dataset parsed_roles))
              (set_used_features
                 (list_of_set (_used_features rd) None (Some droplist)
                    ((list_to_set (_used_features rd) : gset string)
                     ∖ list_to_set droplist)) rd).
Proof.
  forget_unused.
  unfold apply_advanced_roles. intros Hrun.
  apply bind_Ok in Hrun as (rd0 & rd0' & Hget & Hrun). injection Hget as <- <-.
  apply bind_Ok in Hrun as (droplist & rd0 & Hlist & Hrun).
  unfold lift in Hlist. injection Hlist as Hlist <-.
  apply bind_Ok in Hrun as ([] & rd1 & Hupd & Hrun).
  rewrite upd_used_features_run in Hupd. injection Hupd as <-.
  unfold modify in Hrun. injection Hrun as <-.
  exists droplist. split; [done|]. simpl. do 3 f_equal. set_solver.
Qed.

(** X9. A [fit_read] that returns, with or without the advanced guess,
    returns a dataset that holds the used features of the reader, in
    their order and each a column of the table, with the roles and the
    task of the reader, and no sequential data. If every used feature
    had a role before, every used feature has one after; the advanced
    guess leaves no feature twice among the used ones, and it adds
    nothing to the dropped features: what it drops is in neither list. *)
Theorem fit_read_dataset (train_data : DataFrame) (roles : UserRoles)
    (kw : gmap string AttrVal) (rd rd' : Reader) (dataset : Dataset) :
  fit_read train_data roles kw rd = (Ok dataset, rd') →
  (∀ f, f ∈ _used_features rd → is_Some (_roles rd !! f)) →
  (df_columns (ds_data dataset)).*1 = LStr <$> _used_features rd'
  ∧ ds_roles dataset = _roles rd'
  ∧ ds_task dataset = task_name rd
  ∧ ds_seq_data dataset = None
  ∧ (∀ f, f ∈ _used_features rd' → LStr f ∈ (df_columns train_data).*1)
  ∧ (∀ f, f ∈ _used_features rd' → is_Some (_roles rd' !! f))
  ∧ (advanced_roles rd = true →
       let simple := (infer_pass train_data roles kw rd).2 in
       NoDup (_used_features rd')
       ∧ _used_features rd' ⊆ _used_features simple
       ∧ _dropped_features rd' = _dropped_features simple).
Proof.
  intros Hfit Hbefore.
  destruct (fit_read_returns _ _ _ _ _ _ Hfit)
    as (parsed_roles & kw1 & rd1 & parsed_roles2 & rd2 & kw2 & cols2
        & Hread & Hinfer & Hnil & Hcols & Hkw2 & Hrest).
  pose proof (read_roles_and_target_same
    (fun r => (_used_features r, _roles r, advanced_roles r, task_name r))
    train_data roles kw rd) as Hsame.
  rewrite Hread in Hsame. injection Hsame as Hu Hr Ha Ht.
  pose proof (infer_roles_same (fun r => (advanced_roles r, task_name r)) roles
    (df_columns (take_subsample rd1 train_data)) parsed_roles rd1) as Hsame.
  rewrite Hinfer in Hsame. injection Hsame as Ha2 Ht2.
  destruct (infer_roles_returns _ _ _ _ _ _ Hinfer)
    as (used & dropped & Hused & Hdropped & Hperm & Hsub & Hdom & Hrole & Hother).
  assert (Hpass : (infer_pass train_data roles kw rd).2 = rd2).
  { unfold infer_pass, simple_roles_pass. unfold mbind at 1 2, M_bind.
    rewrite Hread. unfold mbind at 1 3, M_bind. simpl.
    unfold mbind at 1, M_bind. rewrite Hinfer. simpl.
    unfold assert. rewrite bool_decide_true; [reflexivity|].
    destruct (_used_features rd2); [done | simpl; lia]. }
  assert (Hroles2 : ∀ f, f ∈ _used_features rd2 → is_Some (_roles rd2 !! f)).
  { intros f Hf. rewrite Hused, Hu in Hf. apply elem_of_dom. rewrite Hdom, Hr.
    apply elem_of_app in Hf as [Hf|Hf]; [|set_solver].
    apply elem_of_union_l, elem_of_dom. by apply Hbefore. }
  rewrite Ha2, Ha in Hrest. destruct (advanced_roles rd).
  - destruct Hrest as (rd3 & cols3 & Hadv & Hcols3 & -> & ->).
    destruct (apply_advanced_roles_returns _ _ _ _ Hadv) as (droplist & Hlist & ->).
    simpl in *.
    split; [by apply (select_fst train_data)|]. split; [reflexivity|].
    split; [congruence|]. split; [reflexivity|].
    split; [by eapply select_columns|].
    split.
    + intros f [Hf Hdrop]%elem_of_list_of_set%elem_of_difference.
      apply elem_of_list_to_set in Hf. rewrite elem_of_list_to_set in Hdrop.
      destruct (advanced_roles_guess_dom rd2
                  (mkDataset (mkFrame cols2) (_roles rd2) (task_name rd2) kw2 None)
                  parsed_roles2 f (Hroles2 f Hf)) as [r Hnew].
      exists r. by apply map_lookup_filter_Some.
    + intros _. cbv zeta. rewrite Hpass. split; [apply NoDup_list_of_set|].
      split; [|reflexivity].
      intros f [Hf _]%elem_of_list_of_set%elem_of_difference.
      by apply elem_of_list_to_set in Hf.
  - destruct Hrest as [-> ->]. simpl.
    split; [by apply (select_fst train_data)|]. split; [reflexivity|].
    split; [congruence|]. split; [reflexivity|].
    split; [by eapply select_columns|]. split; [done|]. done.
Qed.

(** ** [fit_read], when it does not return *)

Lemma dict_get_is_Some {K V} `{EqDecision K} (k : K) (d : list (K * V)) :
  is_Some (dict_get k d) ↔ k ∈ d.*1.
Proof.
  induction d as [|[k' v'] d IH]; simpl.
  - split; [by intros [] | by intros ?%not_elem_of_nil].
  - destruct (decide (k' = k)) as [->|Hne].
    + split; [intros _; left | by eexists].
    + rewrite IH, elem_of_cons. naive_solver.
Qed.

Lemma dict_get_set_ne {K V} `{EqDecision K} (k k' : K) (v : V) (d : list (K * V)) :
  k ≠ k' → dict_get k (dict_set k' v d) = dict_get k d.
Proof.
  intros Hne. induction d as [|[k0 v0] d IH]; simpl.
  - by rewrite decide_False.
  - destruct (decide (k0 = k')) as [->|]; simpl.
    + by rewrite !decide_False.
    + destruct (decide (k0 = k)); [reflexivity | exact IH].
Qed.

Lemma dict_set_fst {K V} `{EqDecision K} (k : K) (v : V) (d : list (K * V)) :
  k ∈ d.*1 → (dict_set k v d).*1 = d.*1.
Proof.
  induction d as [|[k0 v0] d IH]; [by intros ?%not_elem_of_nil|].
  cbn [dict_set]. rewrite fmap_cons. cbn [fst].
  destruct (decide (k0 = k)) as [->|Hne]; [by rewrite fmap_cons|].
  intros [?|Hin]%elem_of_cons; [congruence|]. rewrite fmap_cons. cbn [fst].
  by rewrite IH.
Qed.

Lemma elem_of_dict_set {K V} `{EqDecision K} (k x : K) (v y : V) (d : list (K * V)) :
  (x, y) ∈ dict_set k v d → (x, y) = (k, v) ∨ (x, y) ∈ d.
Proof.
  induction d as [|[k0 v0] d IH]; simpl.
  - intros ?%list_elem_of_singleton. by left.
  - destruct (decide (k0 = k)) as [->|Hne]; rewrite !elem_of_cons; naive_solver.
Qed.

(** The role behind a role name depends on [roles_params] alone. *)
Lemma resolve_same (a b : Reader) (r : UserRole) :
  roles_params a = roles_params b → resolve a r = resolve b r.
Proof.
  intros Hp. destruct r; [|reflexivity].
  unfold resolve, _get_default_role_from_str. by rewrite Hp.
Qed.

(** The first loop of [fit_read] over declared roles none of which is
    the role of an array attribute: it assigns nothing. *)
Lemma extract_array_attrs_plain (train_data : DataFrame) (feats : list string)
    (parsed_roles : ParsedRoles) (kw : gmap string AttrVal) (rd : Reader) :
  (∀ feat r, (feat, r) ∈ parsed_roles → attrs_dict !! r_name (resolve rd r) = None) →
  (∀ feat, feat ∈ feats → feat ∈ parsed_roles.*1) →
  ∃ parsed_roles',
    extract_array_attrs train_data feats parsed_roles kw rd = (Ok (parsed_roles', kw), rd).
Proof.
  revert parsed_roles.
  induction feats as [|feat feats IH]; intros parsed_roles Hplain Hkeys.
  { by eexists. }
  cbn [extract_array_attrs]. run_reader.
  destruct (dict_get feat parsed_roles) as [r|] eqn:Hr.
  - rewrite (Hplain feat r) by by apply dict_get_elem_of. simpl.
    apply IH.
    + intros feat' r' [[= -> ->] | Hin]%elem_of_dict_set.
      * simpl. apply (Hplain feat r). by apply dict_get_elem_of.
      * by apply (Hplain feat').
    + intros feat' Hfeat'. rewrite dict_set_fst.
      * apply Hkeys. by right.
      * apply Hkeys. left.
  - exfalso. assert (Hin : feat ∈ parsed_roles.*1) by (apply Hkeys; left).
    apply dict_get_is_Some in Hin as [r' Hr']. congruence.
Qed.

(** The same loop over declared roles none of which is the role of the
    target: it leaves [kwargs] without a target. *)
Lemma extract_array_attrs_no_target (train_data : DataFrame) (feats : list string)
    (parsed_roles parsed_roles' : ParsedRoles) (kw kw' : gmap string AttrVal)
    (rd0 rd rd' : Reader) :
  NoDup feats →
  roles_params rd = roles_params rd0 →
  (∀ feat r, feat ∈ feats → dict_get feat parsed_roles = Some r →
             attrs_dict !! r_name (resolve rd0 r) ≠ Some "target") →
  kw !! "target" = None →
  extract_array_attrs train_data feats parsed_roles kw rd = (Ok (parsed_roles', kw'), rd') →
  kw' !! "target" = None.
Proof.
  revert parsed_roles kw rd.
  induction feats as [|feat feats IH]; intros parsed_roles kw rd Hnd Hparams Hroles Hkw.
  { by intros [= _ <- _]. }
  apply NoDup_cons in Hnd as [Hfeat Hnd].
  cbn [extract_array_attrs]. unfold mbind at 1, M_bind. unfold get at 1.
  destruct (dict_get feat parsed_roles) as [r|] eqn:Hr; [|done].
  assert (Hnot : attrs_dict !! r_name (resolve rd r) ≠ Some "target").
  { rewrite (resolve_same rd rd0) by done. apply (Hroles feat); [left | done]. }
  assert (Hnext : ∀ v feat' r', feat' ∈ feats →
            dict_get feat' (dict_set feat v parsed_roles) = Some r' →
            attrs_dict !! r_name (resolve rd0 r') ≠ Some "target").
  { intros v feat' r' Hin. rewrite dict_get_set_ne by (intros ->; done).
    apply Hroles. by right. }
  destruct (attrs_dict !! r_name (resolve rd r)) as [attr|] eqn:Hattr.
  - intros ([r1 kw1] & rd1 & Htake & Hrest)%bind_Ok.
    apply bind_Ok in Htake as (kw1' & rd1' & Htake & Hret).
    injection Hret as <- <- <-.
    pose proof (take_array_attr_same roles_params train_data feat attr kw rd) as Hsame.
    rewrite Htake in Hsame. unfold same in Hsame. simpl in Hsame.
    apply (IH _ _ _ Hnd (eq_trans Hsame Hparams) (Hnext _) ) in Hrest; [done|].
    clear Hrest IH. unfold take_array_attr in Htake.
    assert (Hne : attr ≠ "target") by congruence.
    unfold mbind at 1, M_bind in Htake. unfold get at 1 in Htake.
    rewrite (bool_decide_false (attr = "target")), andb_false_r in Htake by done.
    apply bind_Ok in Htake as ([] & rd2 & _ & Htake).
    apply bind_Ok in Htake as (col & rd3 & _ & Hret).
    injection Hret as <- _. by rewrite lookup_insert_ne.
  - intros Hrest. simpl in Hrest.
    by apply (IH _ _ _ Hnd Hparams (Hnext _) Hkw) in Hrest.
Qed.

(** X10. Without a target, [fit_read] does not return: when [kwargs]
    has no target and no declared role is the role of the target, it
    raises. When no declared role is the role of any array attribute,
    the error is the one of the assert "Target should be defined" and
    the reader is as it was. The declared roles are a [dict]: no column
    is declared twice. *)
Theorem fit_read_no_target (train_data : DataFrame) (roles : UserRoles)
    (kw : gmap string AttrVal) (rd : Reader) :
  kw !! "target" = None →
  NoDup (roles_parser roles).*1 →
  (∀ feat r, (feat, r) ∈ roles_parser roles →
             attrs_dict !! r_name (resolve rd r) ≠ Some "target") →
  is_Ok (fit_read train_data roles kw rd).1 = false
  ∧ ((∀ feat r, (feat, r) ∈ roles_parser roles →
                attrs_dict !! r_name (resolve rd r) = None) →
     fit_read train_data roles kw rd = (Raise TargetNotDefined, rd)
     ∧ raises (fit_read train_data roles kw rd).1 MissingTargetError).
Proof.
  intros Hkw Hnd Hroles. split.
  - destruct (fit_read train_data roles kw rd) as [[dataset|e] rd'] eqn:Hfit; [|done].
    exfalso.
    destruct (fit_read_returns _ _ _ _ _ _ Hfit)
      as (parsed_roles & kw1 & rd1 & _ & _ & _ & _ & Hread & _).
    unfold read_roles_and_target in Hread.
    apply bind_Ok in Hread as ([parsed_roles1 kw2] & rd2 & Hextract & Hread).
    apply extract_array_attrs_no_target with (rd0 := rd) in Hextract; [|done..| |done].
    + by rewrite Hextract in Hread.
    + intros feat r _ Hr. apply (Hroles feat). by apply dict_get_elem_of.
  - intros Hplain.
    assert (Hfit : fit_read train_data roles kw rd = (Raise TargetNotDefined, rd)).
    { unfold fit_read, infer_pass, read_roles_and_target.
      destruct (extract_array_attrs_plain train_data (roles_parser roles).*1
                  (roles_parser roles) kw rd Hplain (fun _ H => H))
        as (parsed_roles' & Hextract).
      unfold mbind, M_bind. rewrite Hextract. by rewrite Hkw. }
    rewrite Hfit. split; [reflexivity|]. by eexists.
Qed.

Lemma infer_roles_label (roles : UserRoles) (cols : list (label * Series))
    (parsed_roles : ParsedRoles) (rd : Reader) (z : Z) :
  LObj z ∈ cols.*1 → is_Ok (infer_roles roles cols parsed_roles rd).1 = false.
Proof.
  revert parsed_roles rd.
  induction cols as [|[[feat|z'] col] cols IH]; intros parsed_roles rd Hz.
  - by apply not_elem_of_nil in Hz.
  - rewrite infer_roles_cons.
    destruct (role_of_column _ _ _ _ _) as [[r parsed1]|e]; [|done].
    apply IH. rewrite fmap_cons in Hz. by apply elem_of_cons in Hz as [|].
  - reflexivity.
Qed.

(** X11. [fit_read] does not return for a table one of whose column
    labels is not a [str]. The sampling of pandas is taken to keep the
    columns of the table. *)
Theorem fit_read_label_not_string (train_data : DataFrame) (roles : UserRoles)
    (kw : gmap string AttrVal) (rd : Reader) (z : Z) :
  LObj z ∈ (df_columns train_data).*1 →
  (∀ n seed df, (df_columns (sample n seed df)).*1 = (df_columns df).*1) →
  is_Ok (fit_read train_data roles kw rd).1 = false.
Proof.
  intros Hz Hsample.
  destruct (fit_read train_data roles kw rd) as [[dataset|e] rd'] eqn:Hfit; [|done].
  exfalso.
  destruct (fit_read_returns _ _ _ _ _ _ Hfit)
    as (parsed_roles & kw1 & rd1 & parsed_roles2 & rd2 & _ & _ & _ & Hinfer & _).
  pose proof (infer_roles_label roles (df_columns (take_subsample rd1 train_data))
                parsed_roles rd1 z) as Hlabel.
  rewrite take_subsample_columns, Hinfer in Hlabel by done.
  by specialize (Hlabel Hz).
Qed.

Lemma is_ok_feature_empty (rd : Reader) (col : Series) :
  s_values col = [] → _is_ok_feature rd col = Raise (Propagated PyIndexError).
Proof. intros Hcol. unfold _is_ok_feature. by rewrite Hcol. Qed.

Lemma role_of_column_keys (rd : Reader) (roles : UserRoles) (feat : string)
    (col : Series) (parsed_roles parsed_roles' : ParsedRoles) (r : ColumnRole) :
  role_of_column rd roles feat col parsed_roles = Ok (r, parsed_roles') →
  ∀ feat', dict_get feat' parsed_roles = None → dict_get feat' parsed_roles' = None.
Proof.
  unfold role_of_column. intros Hrole feat' Hnone.
  destruct (dict_get feat parsed_roles) as [[name|r0]|] eqn:Hget; [done| |].
  - destruct (check_declared_role _ _ _ _ _ _); [|done].
    injection Hrole as _ <-. rewrite dict_get_set_ne; [done|]. congruence.
  - destruct (infer_role rd col); [|done]. by injection Hrole as _ <-.
Qed.

Lemma infer_roles_empty_column (roles : UserRoles) (cols : list (label * Series))
    (parsed_roles : ParsedRoles) (rd : Reader) (feat : string) (col : Series) :
  (LStr feat, col) ∈ cols → s_values col = [] → dict_get feat parsed_roles = None →
  is_Ok (infer_roles roles cols parsed_roles rd).1 = false.
Proof.
  intros Hin Hcol. revert parsed_roles rd.
  induction cols as [|[[feat'|z'] col'] cols IH]; intros parsed_roles rd Hnone.
  - by apply not_elem_of_nil in Hin.
  - rewrite infer_roles_cons.
    destruct (role_of_column _ _ _ _ _) as [[r parsed1]|e] eqn:Hrole; [|done].
    apply elem_of_cons in Hin as [[= <- <-] | Hin].
    + unfold role_of_column, infer_role in Hrole.
      by rewrite Hnone, is_ok_feature_empty in Hrole.
    + apply IH; [done|]. by eapply role_of_column_keys.
  - reflexivity.
Qed.

Lemma extract_array_attrs_keys (train_data : DataFrame) (feats : list string)
    (parsed_roles parsed_roles' : ParsedRoles) (kw kw' : gmap string AttrVal)
    (rd rd' : Reader) (feat : string) :
  extract_array_attrs train_data feats parsed_roles kw rd = (Ok (parsed_roles', kw'), rd') →
  dict_get feat parsed_roles = None → dict_get feat parsed_roles' = None.
Proof.
  revert parsed_roles kw rd.
  induction feats as [|feat0 feats IH]; intros parsed_roles kw rd.
  { by intros [= <- _ _]. }
  cbn [extract_array_attrs]. unfold mbind at 1, M_bind. unfold get at 1.
  destruct (dict_get feat0 parsed_roles) as [r|] eqn:Hr; [|done].
  intros ([r1 kw1] & rd1 & _ & Hrest)%bind_Ok Hnone.
  apply IH in Hrest; [done|]. rewrite dict_get_set_ne; [done|]. congruence.
Qed.

(** X12. [fit_read] does not return for a table without rows in which
    some column has no declared role: the check of that column reads the
    most frequent value of a column that has none, which raises an
    [IndexError] unless something else has raised before. *)
Theorem fit_read_no_rows (train_data : DataFrame) (roles : UserRoles)
    (kw : gmap string AttrVal) (rd : Reader) (feat : string) (col : Series) :
  shape0 train_data = 0 →
  (LStr feat, col) ∈ df_columns train_data →
  s_values col = [] →
  feat ∉ (roles_parser roles).*1 →
  is_Ok (fit_read train_data roles kw rd).1 = false.
Proof.
  intros Hshape Hin Hcol Hfeat.
  destruct (fit_read train_data roles kw rd) as [[dataset|e] rd'] eqn:Hfit; [|done].
  exfalso.
  destruct (fit_read_returns _ _ _ _ _ _ Hfit)
    as (parsed_roles & kw1 & rd1 & parsed_roles2 & rd2 & _ & _ & Hread & Hinfer & _).
  assert (Hsub : take_subsample rd1 train_data = train_data).
  { unfold take_subsample. rewrite Hshape. destruct (samples rd1) as [n|]; [|done].
    rewrite bool_decide_false; [done | lia]. }
  rewrite Hsub in Hinfer.
  assert (Hnone : dict_get feat parsed_roles = None).
  { unfold read_roles_and_target in Hread.
    apply bind_Ok in Hread as ([parsed_roles1 kw2] & rd3 & Hextract & Hread).
    destruct (kw2 !! "target"); [|done].
    apply bind_Ok in Hread as (rd4 & rd5 & _ & Hread).
    apply bind_Ok in Hread as (t1 & rd6 & _ & Hread).
    apply bind_Ok in Hread as (name & rd7 & _ & Hread).
    apply bind_Ok in Hread as ([] & rd8 & _ & Hread).
    apply bind_Ok in Hread as (t2 & rd9 & _ & Hret).
    injection Hret as <- _ _.
    eapply extract_array_attrs_keys; [exact Hextract|].
    apply eq_None_not_Some. by rewrite dict_get_is_Some. }
  pose proof (infer_roles_empty_column roles _ parsed_roles rd1 feat col Hin Hcol Hnone)
    as Hempty.
  by rewrite Hinfer in Hempty.
Qed.

(** ** [read] *)

Lemma lookup_col_is_Some (cols : list (label * Series)) (feat : string) :
  is_Some (lookup_col cols feat) ↔ LStr feat ∈ cols.*1.
Proof.
  induction cols as [|[[s|z] c] cols IH]; simpl.
  - split; [by intros [] | by intros ?%not_elem_of_nil].
  - rewrite elem_of_cons. simpl.
    destruct (decide (s = feat)) as [->|Hne]; [split; [by left | by eexists]|].
    rewrite IH. split; [by right|]. intros [[= ?]|?]; [congruence | done].
  - rewrite elem_of_cons, IH. simpl. split; [by right|]. by intros [|].
Qed.

Lemma select_is_Ok (df : DataFrame) (feats : list string) :
  is_Ok (select df feats) = true ↔ ∀ f, f ∈ feats → LStr f ∈ (df_columns df).*1.
Proof.
  induction feats as [|feat feats IH]; simpl.
  - split; [intros _ f Hf; by apply not_elem_of_nil in Hf | done].
  - unfold loc. destruct (lookup_col (df_columns df) feat) as [c|] eqn:Hc.
    + assert (Hfeat : LStr feat ∈ (df_columns df).*1)
        by (apply lookup_col_is_Some; by eexists).
      destruct (select df feats) as [rest|e]; simpl in *.
      * split; [|done]. intros _ f [->|Hf]%elem_of_cons; [done|]. by apply IH.
      * split; [done|]. intros Hall. apply IH. intros f Hf. apply Hall. by right.
    + split; [done|]. intros Hall.
      assert (Hfeat : is_Some (lookup_col (df_columns df) feat))
        by (apply lookup_col_is_Some, Hall; left).
      rewrite Hc in Hfeat. by destruct Hfeat.
Qed.

(** What the loop over the array attributes leaves in [kwargs]. *)
Lemma read_array_attrs_lookup (rd : Reader) (data : DataFrame)
    (attrs : list (string * UsedAttr)) (kw0 kw : gmap string AttrVal) :
  NoDup attrs.*1 →
  read_array_attrs rd data attrs kw0 = Ok kw →
  ∀ a, (a ∉ attrs.*1 → kw !! a = kw0 !! a)
       ∧ ∀ c, (a, c) ∈ attrs →
              ∃ v, read_array_attr rd data a c = Ok v
                   ∧ kw !! a = from_option Some (kw0 !! a) v.
Proof.
  revert kw0. induction attrs as [|[a0 c0] attrs IH]; intros kw0 Hnd.
  { intros [= <-] a. split; [done|]. by intros c ?%not_elem_of_nil. }
  rewrite fmap_cons in Hnd. apply NoDup_cons in Hnd as [Ha0 Hnd].
  cbn [read_array_attrs].
  destruct (read_array_attr rd data a0 c0) as [v0|e] eqn:Hv0; [|done].
  set (kw1 := match v0 with Some val => <[a0 := val]> kw0 | None => kw0 end).
  intros Hrest.
  assert (Hrest' : read_array_attrs rd data attrs kw1 = Ok kw) by by destruct v0.
  clear Hrest. intros a.
  destruct (IH kw1 Hnd Hrest' a) as [Hout Hin].
  assert (Hkw1 : a ≠ a0 → kw1 !! a = kw0 !! a).
  { intros Hne. unfold kw1. destruct v0; [by rewrite lookup_insert_ne | done]. }
  split.
  - rewrite fmap_cons, not_elem_of_cons. intros [Hne Ha]. by rewrite Hout, Hkw1.
  - intros c [[= -> ->] | Hc]%elem_of_cons.
    + exists v0. split; [done|]. destruct (IH kw1 Hnd Hrest' a0) as [Hout0 _].
      rewrite Hout0 by done. unfold kw1.
      destruct v0; [by rewrite lookup_insert_eq | done].
    + destruct (Hin c Hc) as (v & Hv & Hlook). exists v. split; [done|].
      rewrite Hlook, Hkw1; [done|]. intros ->. apply Ha0.
      apply list_elem_of_fmap. by exists (a0, c).
Qed.

Lemma read_array_attrs_is_Ok (rd : Reader) (data : DataFrame)
    (attrs : list (string * UsedAttr)) (kw0 : gmap string AttrVal) :
  (∀ a c, (a, c) ∈ attrs → is_Ok (read_array_attr rd data a c) = true) →
  is_Ok (read_array_attrs rd data attrs kw0) = true.
Proof.
  revert kw0. induction attrs as [|[a0 c0] attrs IH]; intros kw0 Hall; [done|].
  cbn [read_array_attrs].
  pose proof (Hall a0 c0 (list_elem_of_here _ _)) as H0.
  destruct (read_array_attr rd data a0 c0) as [[v|]|e]; [| |done];
    apply IH; intros a c Hin; apply Hall; by right.
Qed.

(** [data.loc[:, col_name]] raises nothing but a [KeyError], which the
    loop over the array attributes catches: an attribute that is not the
    target never makes [read] raise. *)
Lemma read_array_attr_other (rd : Reader) (data : DataFrame) (array_attr : string)
    (col_name : UsedAttr) :
  array_attr ≠ "target" → is_Ok (read_array_attr rd data array_attr col_name) = true.
Proof.
  intros Hne. unfold read_array_attr.
  rewrite (bool_decide_false (array_attr = "target")) by done.
  assert (Hloc : ∀ e, loc_attr data col_name = Raise e → e = Propagated PyKeyError).
  { intros e. unfold loc_attr, loc. destruct col_name as [feat|feats].
    - destruct (lookup_col _ _); [done | by intros [= <-]].
    - induction feats as [|feat feats IH] in e |- *; simpl; [done|].
      unfold loc. destruct (lookup_col _ feat); [|by intros [= <-]].
      destruct (select data feats); [done|]. intros [= <-]. by apply IH. }
  destruct (loc_attr data col_name) as [val|e]; [done|].
  by rewrite (Hloc e eq_refl).
Qed.

(** X14. With the class mapping of a one-column target, [read] with the
    array attributes sends the target column of the table through the
    mapping and raises nothing for a value that the mapping does not
    know: the rows of such values, and no others, hold a missing value
    in the target of the dataset. *)
Theorem read_target_mapping (rd : Reader) (data : DataFrame) (dataset : Dataset)
    (m : class_map) (y : string) (column : Series) :
  class_mapping rd = CMDict m →
  _used_array_attrs rd !! "target" = Some (AttrCol y) →
  loc data y = Ok column →
  read rd data true = Ok dataset →
  ∃ encoded,
    ds_attrs dataset !! "target" = Some (ASeries (Some y) encoded)
    ∧ s_values encoded = map_cell m <$> s_values column
    ∧ ∀ i, s_values encoded !! i = Some CNaN
           ↔ ∃ x, s_values column !! i = Some x ∧ dict_get x m = None.
Proof.
  intros Hcm Hattr Hloc. unfold read.
  destruct (read_array_attrs _ _ _ _) as [kw|e] eqn:Hkw; [|done].
  destruct (select _ _) as [cols|e]; [|done]. intros [= <-]. simpl.
  apply read_array_attrs_lookup with (a := "target") in Hkw as [_ Hin];
    [|apply NoDup_fst_map_to_list].
  destruct (Hin (AttrCol y)) as (v & Hv & Hlook); [by apply elem_of_map_to_list|].
  unfold read_array_attr, loc_attr, encode_target in Hv.
  rewrite Hloc, Hcm in Hv. simpl in Hv. injection Hv as <-. simpl in Hlook.
  eexists. split; [exact Hlook|]. split; [reflexivity|].
  intros i. simpl. unfold map_values. rewrite list_lookup_fmap.
  destruct (s_values column !! i) as [x|]; simpl.
  - unfold map_cell. destruct (dict_get x m) as [c|] eqn:Hx.
    + split; [done|]. intros (x' & [= <-] & Hnone). congruence.
    + split; [|done]. intros _. by exists x.
  - split; [done|]. by intros (x & ? & _).
Qed.

(** The class mapping has the shape of the target that [used_array_attrs]
    names: none, the mapping of a one-column target, or mappings for the
    columns of a target of several columns. *)
Definition target_fits (rd : Reader) : Prop :=
  match _used_array_attrs rd !! "target", class_mapping rd with
  | None, _ => True
  | Some _, CMNone => True
  | Some (AttrCol _), CMDict _ => True
  | Some (AttrCols feats), CMPerCol ms => ∀ f, f ∈ feats → is_Some (dict_get (LStr f) ms)
  | _, _ => False
  end.

Lemma map_target_columns_is_Ok (ms : list (label * option class_map))
    (cols : list (label * Series)) :
  (∀ col, col ∈ cols.*1 → is_Some (dict_get col ms)) →
  is_Ok (map_target_columns (CMPerCol ms) cols) = true.
Proof.
  induction cols as [|[col s] cols IH]; intros Hkeys; [done|].
  cbn [map_target_columns column_mapping].
  destruct (Hkeys col) as [m Hm]; [rewrite fmap_cons; left|]. rewrite Hm.
  assert (Hrest : is_Ok (map_target_columns (CMPerCol ms) cols) = true).
  { apply IH. intros c Hc. apply Hkeys. rewrite fmap_cons. by right. }
  destruct (map_target_columns (CMPerCol ms) cols); [|done]. by destruct m.
Qed.

(** A reader whose class mapping has the shape of its target reads all
    its array attributes from every table. *)
Lemma read_array_attrs_fits (rd : Reader) (data : DataFrame) (add_array_attrs : bool) :
  target_fits rd →
  is_Ok (if add_array_attrs
         then read_array_attrs rd data (map_to_list (_used_array_attrs rd)) ∅
         else Ok ∅) = true.
Proof.
  intros Hfits.
  destruct add_array_attrs; [|done]. apply read_array_attrs_is_Ok.
  intros a c Hin%elem_of_map_to_list.
  destruct (decide (a = "target")) as [->|Hne]; [|by apply read_array_attr_other].
  unfold target_fits in Hfits. rewrite Hin in Hfits.
  unfold read_array_attr. simpl.
  destruct (loc_attr data c) as [val|e] eqn:Hloc.
  - unfold encode_target. destruct c as [feat|feats].
    + unfold loc_attr in Hloc. destruct (loc data feat); [|done].
      injection Hloc as <-. by destruct (class_mapping rd).
    + unfold loc_attr in Hloc. destruct (select data feats) as [cols|] eqn:Hcols; [|done].
      injection Hloc as <-. destruct (class_mapping rd) as [|m|ms]; [done..|].
      simpl.
      pose proof (map_target_columns_is_Ok ms cols) as Hmap.
      destruct (map_target_columns (CMPerCol ms) cols); [done|].
      discriminate Hmap. intros col Hcol.
      rewrite (select_fst _ _ _ Hcols) in Hcol.
      apply list_elem_of_fmap in Hcol as (f & -> & Hf). by apply Hfits.
  - assert (He : e = Propagated PyKeyError); [|by rewrite He].
    pose proof (read_array_attr_other rd data "group" c) as Hother.
    unfold read_array_attr in Hother. rewrite Hloc in Hother.
    destruct e as [| | | | | | | | |[]]; try done; by discriminate Hother.
Qed.

(** X15. For a reader whose class mapping has the shape of its target,
    [read] raises for one reason only: a used feature that is no column
    of the table. A table without the target, or without another array
    attribute, is read without it. *)
Theorem read_succeeds (rd : Reader) (data : DataFrame) (add_array_attrs : bool) :
  target_fits rd →
  is_Ok (read rd data add_array_attrs) = true
  ↔ ∀ f, f ∈ _used_features rd → LStr f ∈ (df_columns data).*1.
Proof.
  intros Hfits. rewrite <- select_is_Ok. unfold read.
  pose proof (read_array_attrs_fits rd data add_array_attrs Hfits) as Hkw.
  destruct (if add_array_attrs then _ else _) as [kw|e]; [|done].
  by destruct (select data (_used_features rd)).
Qed.

(** *** Reading the training table back *)

(** The target in [kwargs] is absent, or it is the column of the table
    that [used_array_attrs] names. *)
Definition target_from_table (train_data : DataFrame) (kw : gmap string AttrVal)
    (rd : Reader) : Prop :=
  kw !! "target" = None
  ∨ ∃ y s, _used_array_attrs rd !! "target" = Some (AttrCol y)
           ∧ loc train_data y = Ok s
           ∧ kw !! "target" = Some (ASeries (Some y) s).

Lemma take_array_attr_column (plain_data : DataFrame) (feat attr : string)
    (kw kw' : gmap string AttrVal) (rd rd' : Reader) :
  is_multi_target rd = false →
  take_array_attr plain_data feat attr kw rd = (Ok kw', rd') →
  ∃ col, loc plain_data feat = Ok col
         ∧ kw' = <[attr := ASeries (Some feat) col]> kw
         ∧ rd' = set_used_array_attrs (<[attr := AttrCol feat]> (_used_array_attrs rd)) rd.
Proof.
  intros Hmulti. unfold take_array_attr.
  unfold mbind at 1, M_bind. unfold get at 1. rewrite Hmulti. simpl.
  intros ([] & rd1 & Hset & Hrest)%bind_Ok.
  unfold set_used_attr, modify in Hset. injection Hset as <-.
  apply bind_Ok in Hrest as (col & rd2 & Hloc & Hret).
  unfold lift in Hloc. injection Hloc as Hloc <-. injection Hret as <- <-.
  by exists col.
Qed.

Lemma extract_array_attrs_target (train_data : DataFrame) (feats : list string)
    (parsed_roles parsed_roles' : ParsedRoles) (kw kw' : gmap string AttrVal)
    (rd rd' : Reader) :
  is_multi_target rd = false →
  target_from_table train_data kw rd →
  extract_array_attrs train_data feats parsed_roles kw rd = (Ok (parsed_roles', kw'), rd') →
  target_from_table train_data kw' rd'.
Proof.
  revert parsed_roles kw rd.
  induction feats as [|feat feats IH]; intros parsed_roles kw rd Hmulti Hfrom.
  { by intros [= _ <- <-]. }
  cbn [extract_array_attrs]. unfold mbind at 1, M_bind. unfold get at 1.
  destruct (dict_get feat parsed_roles) as [r|]; [|done].
  destruct (attrs_dict !! r_name (resolve rd r)) as [attr|].
  - intros ([r1 kw1] & rd1 & Htake & Hrest)%bind_Ok.
    apply bind_Ok in Htake as (kw1' & rd1' & Htake & Hret).
    injection Hret as <- <- <-.
    apply take_array_attr_column in Htake as (col & Hloc & -> & ->); [|done].
    apply IH in Hrest; [done|done|].
    destruct (decide (attr = "target")) as [->|Hne].
    + right. exists feat, col. simpl. by rewrite !lookup_insert_eq.
    + destruct Hfrom as [Hnone | (y & s & Hy & Hs & Hkw)].
      * left. by rewrite lookup_insert_ne.
      * right. exists y, s. simpl. by rewrite !lookup_insert_ne.
  - intros Hrest. simpl in Hrest. by apply IH in Hrest.
Qed.

Lemma check_class_target_unmapped (rd rd' : Reader) (target target' : Series) :
  check_class_target target rd = (Ok (target', None), rd') → target' = target.
Proof.
  rewrite check_class_target_run. cbv zeta. intros Hrun.
  repeat case_match; by simplify_eq.
Qed.

Lemma code_map_cell (U : list cell) (x : cell) :
  NoDup U → (Z.of_nat (length U) ≤ 2 ^ 31)%Z → x ∈ U →
  code U x = map_cell (enumerate_classes U) x.
Proof.
  intros Hnd Hlen [i Hi]%list_elem_of_lookup.
  rewrite (code_at U x i) by done. unfold map_cell.
  by rewrite (enumerate_classes_lookup U x i).
Qed.

(** The values of the column that [check_class_target] returns are the
    values of the target sent through the mapping that it returns. *)
Lemma check_class_target_values (rd rd' : Reader) (target target' : Series)
    (mapping : option class_map) :
  check_class_target target rd = (Ok (target', mapping), rd') →
  (∀ k, _n_classes rd' = Some k → (Z.of_nat k ≤ 2 ^ 31)%Z) →
  s_values target'
  = from_option (fun m => map_cell m <$> s_values target) (s_values target) mapping.
Proof.
  intros Hrun Hk. destruct mapping as [m|]; simpl.
  - destruct (check_class_target_mapped _ _ _ _ _ Hrun) as (-> & -> & Hn).
    simpl. apply list_fmap_ext. intros i x Hx.
    apply code_map_cell; [apply NoDup_value_counts_all | by apply Hk |].
    apply mapped_values_in_keys. by eapply list_elem_of_lookup_2.
  - by rewrite (check_class_target_unmapped _ _ _ _ Hrun).
Qed.

(** What [fit_read] has of the target, for a class task, once the
    declared roles are read: the target is a column of the table. *)
Lemma read_roles_and_target_class (train_data : DataFrame) (roles : UserRoles)
    (kw kw1 : gmap string AttrVal) (parsed_roles : ParsedRoles) (rd rd1 : Reader) :
  task_name rd = "binary" ∨ task_name rd = "multiclass" →
  kw !! "target" = None →
  read_roles_and_target train_data roles kw rd = (Ok (parsed_roles, kw1), rd1) →
  ∃ y s fitted mapping rd0 checked,
    loc train_data y = Ok s
    ∧ _used_array_attrs rd1 !! "target" = Some (AttrCol y)
    ∧ kw1 !! "target" = Some (ASeries (Some y) fitted)
    ∧ check_class_target s rd0 = (Ok (fitted, mapping), checked)
    ∧ class_mapping rd1 = from_option CMDict CMNone mapping
    ∧ _n_classes rd1 = _n_classes checked.
Proof.
  intros Htask Hkw. unfold read_roles_and_target.
  assert (Hmulti : is_multi_target rd = false).
  { unfold is_multi_target. apply bool_decide_eq_false.
    destruct Htask as [-> | ->]; intros [|]; discriminate. }
  intros ([parsed_roles1 kw2] & rd2 & Hextract & Hrest)%bind_Ok.
  pose proof (extract_array_attrs_same task_name train_data (roles_parser roles).*1
                (roles_parser roles) kw rd) as Hsame.
  rewrite Hextract in Hsame. unfold same in Hsame. simpl in Hsame.
  apply extract_array_attrs_target in Hextract; [|done | by left].
  destruct (kw2 !! "target") as [t|] eqn:Ht; [|done].
  destruct Hextract as [? | (y & s & Hy & Hs & Hkw2)]; [congruence|].
  rewrite Ht in Hkw2. injection Hkw2 as ->.
  apply bind_Ok in Hrest as (rd2b & rd2c & Hget & Hrest). injection Hget as <- <-.
  assert (Hmulti2 : is_multi_target rd2 = false).
  { unfold is_multi_target in *. by rewrite Hsame. }
  rewrite Hmulti2 in Hrest.
  apply bind_Ok in Hrest as (t & rd2d & Hret & Hrest). injection Hret as <- <-.
  apply bind_Ok in Hrest as (name & rd2e & Hname & Hrest).
  unfold lift in Hname. injection Hname as _ <-.
  apply bind_Ok in Hrest as ([] & rd3 & Hset & Hrest).
  unfold modify in Hset. injection Hset as <-.
  apply bind_Ok in Hrest as (t' & rd4 & Hcreate & Hret). injection Hret as <- <- <-.
  unfold _create_target in Hcreate.
  apply bind_Ok in Hcreate as ([] & rd5 & Hset & Hcreate).
  unfold modify in Hset. injection Hset as <-.
  apply bind_Ok in Hcreate as (rd5b & rd5c & Hget & Hcreate). injection Hget as <- <-.
  rewrite decide_True in Hcreate by (simpl; by rewrite Hsame).
  apply bind_Ok in Hcreate as ([name' s0] & rd6 & Hseries & Hcreate).
  unfold lift in Hseries. injection Hseries as <- <- <-.
  apply bind_Ok in Hcreate as ([fitted mapping] & rd7 & Hcheck & Hcreate).
  apply bind_Ok in Hcreate as ([] & rd8 & Hset & Hret).
  unfold modify in Hset. injection Hset as <-. injection Hret as <- <-.
  exists y, s, fitted, mapping. eexists _, rd7.
  split; [done|]. split.
  { simpl.
    pose proof (check_class_target_same _used_array_attrs s
      (set_class_mapping CMNone (set_target (Some name) rd2))) as Hattrs.
    rewrite Hcheck in Hattrs. unfold same in Hattrs. simpl in Hattrs. by rewrite Hattrs. }
  split; [by rewrite lookup_insert_eq|].
  split; [exact Hcheck|]. by destruct mapping.
Qed.

(** X13. After a [fit_read] for a class task (binary or multiclass)
    whose target is a declared column of the table, [read] with the array
    attributes, run by the fitted reader on the training table, returns:
    its dataset has the table, the roles and the task of the dataset of
    [fit_read], and its target holds, row by row, the values of the
    target that [fit_read] encoded. The number of classes is taken to be
    at most 2^31, beyond which the 32-bit codes of [fit_read] wrap. *)
Theorem read_after_fit (train_data : DataFrame) (roles : UserRoles)
    (kw : gmap string AttrVal) (rd rd' : Reader) (dataset : Dataset) :
  fit_read train_data roles kw rd = (Ok dataset, rd') →
  task_name rd = "binary" ∨ task_name rd = "multiclass" →
  kw !! "target" = None →
  (∀ k, _n_classes rd' = Some k → (Z.of_nat k ≤ 2 ^ 31)%Z) →
  ∃ read_back y fitted encoded,
    read rd' train_data true = Ok read_back
    ∧ ds_data read_back = ds_data dataset
    ∧ ds_roles read_back = ds_roles dataset
    ∧ ds_task read_back = ds_task dataset
    ∧ _used_array_attrs rd' !! "target" = Some (AttrCol y)
    ∧ ds_attrs dataset !! "target" = Some (ASeries (Some y) fitted)
    ∧ ds_attrs read_back !! "target" = Some (ASeries (Some y) encoded)
    ∧ s_values encoded = s_values fitted.
Proof.
  intros Hfit Htask Hkw Hk.
  destruct (fit_read_returns _ _ _ _ _ _ Hfit)
    as (parsed_roles & kw1 & rd1 & parsed_roles2 & rd2 & kw2 & cols2
        & Hread & Hinfer & Hnil & Hcols & Hkw2 & Hrest).
  destruct (read_roles_and_target_class _ _ _ _ _ _ _ Htask Hkw Hread)
    as (y & s & fitted & mapping & rd0 & checked & Hloc & Hattr & Htarget & Hcheck
        & Hcm & Hn).
  pose proof (infer_roles_same
    (fun r => (_used_array_attrs r, class_mapping r, _n_classes r)) roles
    (df_columns (take_subsample rd1 train_data)) parsed_roles rd1) as Hsame.
  rewrite Hinfer in Hsame. injection Hsame as Hattr2 Hcm2 Hn2.
  assert (Hfinal : _used_array_attrs rd' = _used_array_attrs rd1
                   ∧ class_mapping rd' = class_mapping rd1
                   ∧ _n_classes rd' = _n_classes rd1
                   ∧ ∃ cols, select train_data (_used_features rd') = Ok cols
                             ∧ dataset = mkDataset (mkFrame cols) (_roles rd')
                                           (task_name rd') kw2 None).
  { destruct (advanced_roles rd2).
    - destruct Hrest as (rd3 & cols3 & Hadv & Hcols3 & -> & ->).
      destruct (apply_advanced_roles_returns _ _ _ _ Hadv) as (droplist & _ & Hrd3).
      rewrite Hrd3 in *. simpl. do 3 (split; [done|]). by exists cols3.
    - destruct Hrest as [-> ->]. do 3 (split; [done|]). by exists cols2. }
  clear Hrest. destruct Hfinal as (Hattr' & Hcm' & Hn' & cols & Hcols' & ->).
  rewrite Hn', Hn in Hk. rewrite <- Hattr' in Hattr. rewrite Hcm in Hcm'.
  set (column := from_option
         (fun m => mkSeries (map_dtype (map_values m s)) (map_values m s)) s mapping).
  assert (Hone : read_array_attr rd' train_data "target" (AttrCol y)
                 = Ok (Some (ASeries (Some y) column))).
  { unfold read_array_attr, loc_attr, encode_target. rewrite Hloc. simpl.
    rewrite Hcm'. by destruct mapping. }
  assert (Hall : is_Ok (read_array_attrs rd' train_data
                          (map_to_list (_used_array_attrs rd')) ∅) = true).
  { apply read_array_attrs_is_Ok. intros a c Hin%elem_of_map_to_list.
    destruct (decide (a = "target")) as [->|Hne]; [|by apply read_array_attr_other].
    rewrite Hattr in Hin. injection Hin as <-. by rewrite Hone. }
  destruct (read_array_attrs rd' train_data (map_to_list (_used_array_attrs rd')) ∅)
    as [kwr|e] eqn:Hkwr; [clear Hall | done].
  destruct (read_array_attrs_lookup _ _ _ _ _ (NoDup_fst_map_to_list _) Hkwr "target")
    as [_ Hin].
  destruct (Hin (AttrCol y)) as (v & Hv & Hlook); [by apply elem_of_map_to_list|].
  rewrite Hone in Hv. injection Hv as <-. simpl in Hlook.
  exists (mkDataset (mkFrame cols) (_roles rd') (task_name rd') kwr None), y, fitted, column.
  split; [unfold read; by rewrite Hkwr, Hcols'|].
  do 3 (split; [reflexivity|]). split; [done|].
  split; [simpl; by rewrite Hkw2|]. split; [done|].
  rewrite (check_class_target_values _ _ _ _ _ Hcheck Hk).
  unfold column. by destruct mapping.
Qed.

(** ** The sequential reader *)

(** What the loop of [parse_seq] does with a column: the role that goes
    to [set_back], and what it has collected after the column. *)
Definition seq_column_step (rd : Reader) (roles : UserRoles) (subsample : DataFrame)
    (feat : string) (col : Series) (acc : SeqLoop) : result (ColumnRole * SeqLoop) :=
  match seq_role rd roles subsample feat (l_parsed_roles acc) with
  | Raise e => Raise e
  | Ok r =>
      let parsed_roles := dict_set feat (RoleObj r) (l_parsed_roles acc) in
      let '(r, kw, used) :=
        match attrs_dict !! r_name r with
        | Some attr =>
            if bool_decide (attr = "target")
            then (r, l_kwargs acc, l_used_array_attrs acc)
            else (DropRole, <[attr := ASeries (Some feat) col]> (l_kwargs acc),
                  <[attr := feat]> (l_used_array_attrs acc))
        | None => (r, l_kwargs acc, l_used_array_attrs acc)
        end in
      Ok (r,
          if bool_decide (r_name r ≠ "Drop")
          then mkSeqLoop parsed_roles (<[feat := r]> (l_seq_roles acc))
                 (l_seq_features acc ++ [feat]) kw used
          else mkSeqLoop parsed_roles (l_seq_roles acc) (l_seq_features acc) kw used)
  end.

Lemma parse_seq_columns_cons (roles : UserRoles) (seq_dataset subsample : DataFrame)
    (feat : string) (col : Series) (cols : list (label * Series)) (acc : SeqLoop)
    (rd : Reader) :
  parse_seq_columns roles seq_dataset subsample ((LStr feat, col) :: cols) acc rd
  = match seq_column_step rd roles subsample feat col acc with
    | Raise e => (Raise e, rd)
    | Ok (r, acc') =>
        parse_seq_columns roles seq_dataset subsample cols acc' (set_back feat r rd).2
    end.
Proof.
  cbn [parse_seq_columns]. unfold seq_column_step. run_reader.
  destruct (seq_role _ _ _ _ _) as [r|e]; simpl; [|reflexivity].
  destruct (attrs_dict !! r_name r) as [attr|];
    [destruct (bool_decide (attr = "target"))|];
    unfold set_back; simpl; try reflexivity;
    by destruct (bool_decide (r_name r ≠ "Drop")).
Qed.

(** The loop of [parse_seq], when it returns: the columns whose role is
    not Drop go, in their order, to the end of the features of the table
    and of the used features of the reader, with their roles. *)
Lemma parse_seq_columns_returns (roles : UserRoles) (seq_dataset subsample : DataFrame)
    (cols : list (label * Series)) (acc acc' : SeqLoop) (rd rd' : Reader) :
  parse_seq_columns roles seq_dataset subsample cols acc rd = (Ok acc', rd') →
  ∃ feats,
    l_seq_features acc' = l_seq_features acc ++ feats
    ∧ _used_features rd' = _used_features rd ++ feats
    ∧ (LStr <$> feats) `sublist_of` cols.*1
    ∧ dom (l_seq_roles acc') = dom (l_seq_roles acc) ∪ list_to_set feats
    ∧ (∀ f r, f ∈ feats → l_seq_roles acc' !! f = Some r → r_name r ≠ "Drop")
    ∧ (∀ f, f ∉ feats → l_seq_roles acc' !! f = l_seq_roles acc !! f).
Proof.
  forget_unused.
  revert acc rd.
  induction cols as [|[[feat|z] col] cols IH]; intros acc rd.
  - intros [= <- <-]. exists []. rewrite !app_nil_r.
    repeat split; [done|set_solver|set_solver..].
  - rewrite parse_seq_columns_cons.
    destruct (seq_column_step _ _ _ _ _ _) as [[r acc1]|e] eqn:Hstep; [|done].
    intros Hrest.
    destruct (IH _ _ Hrest) as (feats & Hfeats & Hused & Hsub & Hdom & Hrole & Hother).
    clear IH Hrest. pose proof (set_back_fields feat r rd) as Hback.
    cbv zeta in Hback. rewrite !fmap_cons. cbn [fst].
    assert (Hacc1 : if bool_decide (r_name r ≠ "Drop")
                    then l_seq_features acc1 = l_seq_features acc ++ [feat]
                         ∧ l_seq_roles acc1 = <[feat := r]> (l_seq_roles acc)
                    else l_seq_features acc1 = l_seq_features acc
                         ∧ l_seq_roles acc1 = l_seq_roles acc).
    { unfold seq_column_step in Hstep.
      destruct (seq_role _ _ _ _ _) as [r0|]; [|done].
      destruct (attrs_dict !! r_name r0) as [attr|];
        [destruct (bool_decide (attr = "target"))|];
        revert Hstep; intros [= <- <-]; simpl; try done;
        by destruct (bool_decide (r_name r0 ≠ "Drop")). }
    case_bool_decide as Hdrop; destruct Hback as (Hu & _ & _);
      destruct Hacc1 as [Hf Hr]; rewrite Hu in Hused; rewrite Hf in Hfeats;
      rewrite Hr in Hdom, Hother.
    + exists (feat :: feats).
      split; [by rewrite Hfeats, <- app_assoc|].
      split; [by rewrite Hused, <- app_assoc|].
      split; [rewrite fmap_cons; by apply sublist_skip|].
      split; [rewrite Hdom, dom_insert_L; set_solver|].
      split.
      * intros f r' Hf' Hr'. destruct (decide (f ∈ feats)) as [Hin|Hnin].
        { by apply (Hrole f). }
        apply elem_of_cons in Hf' as [-> | Hf']; [|done].
        rewrite (Hother _ Hnin), lookup_insert_eq in Hr'. by injection Hr' as <-.
      * intros f Hf'. apply not_elem_of_cons in Hf' as [Hne Hf'].
        by rewrite (Hother _ Hf'), lookup_insert_ne.
    + exists feats. do 2 (split; [done|]).
      split; [by apply sublist_cons|]. done.
  - done.
Qed.

(** [parse_seq], step by step, when it returns. *)
Lemma parse_seq_returns (seq_dataset : DataFrame) (plain_data : option DataFrame)
    (dataset_name : string) (parsed_roles parsed_roles' : ParsedRoles)
    (roles : UserRoles) (rd rd' : Reader) (d : SeqDataset) :
  parse_seq seq_dataset plain_data dataset_name parsed_roles roles rd
  = (Ok (d, parsed_roles'), rd') →
  ∃ acc rd1 rd2 builder p data,
    parse_seq_columns roles seq_dataset (take_subsample rd seq_dataset)
      (df_columns seq_dataset) (mkSeqLoop parsed_roles ∅ [] ∅ ∅) rd = (Ok acc, rd1)
    ∧ l_seq_features acc ≠ []
    ∧ create_ids seq_dataset plain_data dataset_name
        (set_meta (dict_set dataset_name
           (mkSeqMeta (l_seq_roles acc) (l_seq_features acc) (l_used_array_attrs acc) None)
           (meta rd1)) rd1) = (Ok tt, rd2)
    ∧ ti rd2 !! dataset_name = Some builder
    ∧ seq_params rd2 !! dataset_name = Some p
    ∧ select seq_dataset (l_seq_features acc) = Ok data
    ∧ (∀ idx, create_target builder seq_dataset plain_data = Some idx →
              length (create_data builder seq_dataset plain_data) = length idx)
    ∧ rd' = set_meta (dict_set dataset_name
              (mkSeqMeta (l_seq_roles acc) (l_seq_features acc) (l_used_array_attrs acc)
                 (Some (create_data builder seq_dataset plain_data,
                        create_target builder seq_dataset plain_data)))
              (meta rd2)) rd2
    ∧ d = mkSeqDataset (mkFrame data) (l_seq_features acc) (l_seq_roles acc)
            (default (create_data builder seq_dataset plain_data)
               (create_target builder seq_dataset plain_data))
            dataset_name (sp_scheme p) (l_kwargs acc)
    ∧ parsed_roles' = l_parsed_roles acc.
Proof.
  unfold parse_seq, build_seq_index.
  intros ([[acc idx_data] idx_target] & rd3 & Hbuild & Hrest)%bind_Ok.
  apply bind_Ok in Hbuild as (rd0 & rd0' & Hget & Hbuild). injection Hget as <- <-.
  apply bind_Ok in Hbuild as (acc' & rd1 & Hcols & Hbuild).
  apply bind_Ok in Hbuild as ([] & rd1' & Hassert & Hbuild).
  unfold assert in Hassert. case_bool_decide as Hfeats; [|done].
  injection Hassert as <-.
  apply bind_Ok in Hbuild as ([] & rd1' & Hmeta & Hbuild).
  unfold modify in Hmeta. injection Hmeta as <-.
  apply bind_Ok in Hbuild as ([] & rd2 & Hids & Hbuild).
  apply bind_Ok in Hbuild as (rd2' & rd2'' & Hget & Hbuild). injection Hget as <- <-.
  destruct (ti rd2 !! dataset_name) as [builder|] eqn:Hti; [|done].
  apply bind_Ok in Hbuild as ([] & rd3' & Hmeta & Hret).
  unfold modify in Hmeta. injection Hmeta as <-. injection Hret as <- <- <- <-.
  apply bind_Ok in Hrest as ([] & rd4 & Hcheck & Hrest).
  assert (Hlen : rd4 = set_meta (dict_set dataset_name
              (mkSeqMeta (l_seq_roles acc') (l_seq_features acc') (l_used_array_attrs acc')
                 (Some (create_data builder seq_dataset plain_data,
                        create_target builder seq_dataset plain_data)))
              (meta rd2)) rd2
            ∧ ∀ idx, create_target builder seq_dataset plain_data = Some idx →
                     length (create_data builder seq_dataset plain_data) = length idx).
  { unfold check_seq_idx in Hcheck.
    destruct (create_target builder seq_dataset plain_data) as [idx|].
    - unfold assert in Hcheck. case_bool_decide as Hlen; [|done].
      injection Hcheck as <-. split; [done|]. by intros ? [= <-].
    - injection Hcheck as <-. by split. }
  destruct Hlen as [-> Hlen].
  apply bind_Ok in Hrest as (rd5 & rd5' & Hget & Hrest). injection Hget as <- <-.
  apply bind_Ok in Hrest as (data & rd6 & Hdata & Hrest).
  unfold lift in Hdata. injection Hdata as Hdata <-.
  apply bind_Ok in Hrest as (scheme & rd7 & Hscheme & Hret).
  unfold lift in Hscheme. injection Hscheme as Hscheme <-.
  simpl in Hscheme.
  destruct (seq_params rd2 !! dataset_name) as [p|] eqn:Hp; [|done].
  injection Hscheme as <-. injection Hret as <- <- <-.
  exists acc', rd1, rd2, builder, p, data.
  split; [done|]. split; [intros Hnil; rewrite Hnil in Hfeats; simpl in Hfeats; lia|].
  by repeat split.
Qed.

Lemma dict_get_set_eq {K V} `{EqDecision K} (k : K) (v : V) (d : list (K * V)) :
  dict_get k (dict_set k v d) = Some v.
Proof.
  induction d as [|[k0 v0] d IH]; simpl.
  - by rewrite decide_True.
  - destruct (decide (k0 = k)) as [->|Hne]; simpl.
    + by rewrite decide_True.
    + by rewrite decide_False.
Qed.

(** X16. [parse_seq] returns for a table only if [seq_params] has an
    entry for the name of the table, and only if the case of that entry
    is "next_values" or "ids", unless the reader held an index builder
    of that name before: for another case [create_ids] makes no builder,
    and the lookup of the builder raises. A reader that was given no
    [seq_params], and has the ones of [__init__], parses the table "seq"
    and no other. *)
Theorem parse_seq_needs_builder (seq_dataset : DataFrame)
    (plain_data : option DataFrame) (dataset_name : string)
    (parsed_roles : ParsedRoles) (roles : UserRoles) (rd rd' : Reader)
    (returned : SeqDataset * ParsedRoles) :
  parse_seq seq_dataset plain_data dataset_name parsed_roles roles rd
  = (Ok returned, rd') →
  (∃ p, seq_params rd !! dataset_name = Some p
        ∧ (sp_case p = "next_values" ∨ sp_case p = "ids"
           ∨ is_Some (ti rd !! dataset_name)))
  ∧ (seq_params rd = default_seq_params → dataset_name = "seq").
Proof.
  destruct returned as [d parsed_roles']. intros Hparse.
  destruct (parse_seq_returns _ _ _ _ _ _ _ _ _ Hparse)
    as (acc & rd1 & rd2 & builder & p & data & Hcols & _ & Hids & Hti & Hp & _).
  pose proof (parse_seq_columns_same (fun r => (seq_params r, ti r)) roles seq_dataset
                (take_subsample rd seq_dataset) (df_columns seq_dataset)
                (mkSeqLoop parsed_roles ∅ [] ∅ ∅) rd) as Hsame.
  rewrite Hcols in Hsame. injection Hsame as Hparams1 Hti1.
  pose proof (create_ids_same seq_params seq_dataset plain_data dataset_name
                (set_meta (dict_set dataset_name
                   (mkSeqMeta (l_seq_roles acc) (l_seq_features acc)
                      (l_used_array_attrs acc) None) (meta rd1)) rd1)) as Hparams2.
  rewrite Hids in Hparams2. unfold same in Hparams2. simpl in Hparams2.
  rewrite Hparams2, Hparams1 in Hp.
  assert (Hfirst : ∃ p, seq_params rd !! dataset_name = Some p
        ∧ (sp_case p = "next_values" ∨ sp_case p = "ids"
           ∨ is_Some (ti rd !! dataset_name))).
  { exists p. split; [done|].
    unfold create_ids in Hids. unfold mbind at 1, M_bind in Hids. unfold get at 1 in Hids.
    simpl in Hids. rewrite Hparams1, Hp in Hids.
    destruct (bool_decide (sp_case p = "next_values")) eqn:Hnext;
      [left; by apply bool_decide_eq_true in Hnext|].
    destruct (bool_decide (sp_case p = "ids")) eqn:Hcase;
      [right; left; by apply bool_decide_eq_true in Hcase|].
    injection Hids as <-. simpl in Hti. rewrite Hti1 in Hti. right. right. by eexists. }
  split; [exact Hfirst|].
  intros Hdefault. destruct Hfirst as (p' & Hp' & _). rewrite Hdefault in Hp'.
  unfold default_seq_params in Hp'. by apply lookup_singleton_Some in Hp' as [<- _].
Qed.

(** X17. The sequence dataset that [parse_seq] returns has a feature
    at least; its features are columns of the table, in the order of the
    table, and its own table holds them in that order; the features are
    the columns that have a role in it, none of which is Drop. They are
    added at the end of the used features of the reader, and
    [self.meta] holds, under the name of the table, these features and
    roles and the two indices of the builder: the dataset has the index
    of the target when there is one, which then has the length of the
    index of the data, and the index of the data otherwise. *)
Theorem parse_seq_dataset (seq_dataset : DataFrame) (plain_data : option DataFrame)
    (dataset_name : string) (parsed_roles parsed_roles' : ParsedRoles)
    (roles : UserRoles) (rd rd' : Reader) (d : SeqDataset) :
  parse_seq seq_dataset plain_data dataset_name parsed_roles roles rd
  = (Ok (d, parsed_roles'), rd') →
  sd_features d ≠ []
  ∧ sd_name d = dataset_name
  ∧ (df_columns (sd_data d)).*1 = LStr <$> sd_features d
  ∧ (LStr <$> sd_features d) `sublist_of` (df_columns seq_dataset).*1
  ∧ dom (sd_roles d) = list_to_set (sd_features d)
  ∧ (∀ f r, sd_roles d !! f = Some r → r_name r ≠ "Drop")
  ∧ _used_features rd' = _used_features rd ++ sd_features d
  ∧ ∃ m idx_data idx_target,
      dict_get dataset_name (meta rd') = Some m
      ∧ m_features m = sd_features d
      ∧ m_roles m = sd_roles d
      ∧ m_seq_idx m = Some (idx_data, idx_target)
      ∧ sd_idx d = default idx_data idx_target
      ∧ ∀ idx, idx_target = Some idx → length idx_data = length idx.
Proof.
  intros Hparse.
  destruct (parse_seq_returns _ _ _ _ _ _ _ _ _ Hparse)
    as (acc & rd1 & rd2 & builder & p & data & Hcols & Hnil & Hids & Hti & Hp & Hdata
        & Hlen & -> & -> & _).
  destruct (parse_seq_columns_returns _ _ _ _ _ _ _ _ Hcols)
    as (feats & Hfeats & Hused & Hsub & Hdom & Hrole & Hother).
  simpl in Hfeats, Hdom, Hother. subst feats.
  pose proof (create_ids_same _used_features seq_dataset plain_data dataset_name
                (set_meta (dict_set dataset_name
                   (mkSeqMeta (l_seq_roles acc) (l_seq_features acc)
                      (l_used_array_attrs acc) None) (meta rd1)) rd1)) as Hused2.
  rewrite Hids in Hused2. unfold same in Hused2. simpl in Hused2 |- *.
  split; [done|]. split; [reflexivity|].
  split; [by apply (select_fst seq_dataset)|]. split; [done|].
  rewrite dom_empty_L, (left_id_L ∅ (∪)) in Hdom.
  split; [exact Hdom|].
  split.
  { intros f r Hr. apply (Hrole f r); [|done].
    apply (elem_of_list_to_set (C := gset string)). rewrite <- Hdom.
    apply elem_of_dom. by eexists. }
  split; [by rewrite Hused2|].
  eexists _, _, _. split; [apply dict_get_set_eq|]. by repeat split.
Qed.

(** ** What the advanced guess drops *)

Lemma make_droplist_is_Ok (roles : gmap string ColumnRole)
    (new_roles : list (string * ColumnRole)) :
  is_Ok (make_droplist roles new_roles) = true
  ↔ ∀ x r, (x, r) ∈ new_roles → r_name r = "Drop" → is_Some (roles !! x).
Proof.
  induction new_roles as [|[y r] new_roles IH]; simpl.
  - split; [|done]. by intros _ x r' ?%not_elem_of_nil.
  - case_bool_decide as Hdrop.
    + destruct (roles !! y) as [old|] eqn:Hold.
      * destruct (make_droplist roles new_roles) as [l|]; simpl in *.
        -- split; [|done]. intros _ x r' [[= -> ->]|Hin]%elem_of_cons Hname.
           ++ by eexists.
           ++ by apply (proj1 IH eq_refl x r').
        -- split; [done|]. intros Hall. apply IH. intros x r' Hin. apply Hall. by right.
      * split; [done|]. intros Hall.
        destruct (Hall y r) as [old Hy]; [left | done | congruence].
    + rewrite IH. split.
      * intros Hall x r' [[= -> ->]|Hin]%elem_of_cons Hname; [done|]. by apply (Hall x r').
      * intros Hall x r' Hin. apply Hall. by right.
Qed.

(** X18. The lines of [fit_read] after the advanced guess. A feature is
    dropped when the guess gives it the role Drop and its role in the
    reader is not pinned ([force_input]). The lines raise exactly when
    the guess gives the role Drop to a feature that has no role in the
    reader. Otherwise the used features are, each once, the used
    features that are not dropped; a dropped feature has no role left
    and every other feature has the role of the guess, so that a pinned
    feature the guess rejects stays used with the role Drop. The dropped
    features of the reader are not extended. *)
Theorem advanced_roles_drop (dataset : Dataset) (parsed_roles : ParsedRoles)
    (rd : Reader) :
  let new_roles := advanced_roles_guess rd dataset parsed_roles in
  let dropped := fun x =>
    ∃ r old, new_roles !! x = Some r ∧ r_name r = "Drop"
             ∧ _roles rd !! x = Some old ∧ r_force_input old = false in
  (is_Ok (apply_advanced_roles dataset parsed_roles rd).1 = true
   ↔ ∀ x r, new_roles !! x = Some r → r_name r = "Drop" → is_Some (_roles rd !! x))
  ∧ ∀ rd', apply_advanced_roles dataset parsed_roles rd = (Ok tt, rd') →
      NoDup (_used_features rd')
      ∧ (∀ x, x ∈ _used_features rd' ↔ x ∈ _used_features rd ∧ ¬ dropped x)
      ∧ (∀ x, dropped x → _roles rd' !! x = None)
      ∧ (∀ x, ¬ dropped x → _roles rd' !! x = new_roles !! x)
      ∧ _dropped_features rd' = _dropped_features rd.
Proof.
  forget_unused.
  intros new_roles dropped. split.
  - unfold apply_advanced_roles. unfold mbind, M_bind, get, lift. fold new_roles.
    assert (Hiff : (∀ x r, (x, r) ∈ map_to_list new_roles → r_name r = "Drop" →
                           is_Some (_roles rd !! x))
                   ↔ ∀ x r, new_roles !! x = Some r → r_name r = "Drop" →
                            is_Some (_roles rd !! x)).
    { split; intros Hall x r Hx; apply Hall; by apply elem_of_map_to_list. }
    rewrite <- Hiff, <- make_droplist_is_Ok.
    by destruct (make_droplist _ _) as [droplist|].
  - intros rd' Hrun.
    destruct (apply_advanced_roles_returns _ _ _ _ Hrun) as (droplist & Hlist & ->).
    fold new_roles in Hlist |- *. simpl.
    assert (Hdrop : ∀ x, x ∈ droplist ↔ dropped x).
    { intros x. rewrite (make_droplist_spec _ _ _ Hlist x). unfold dropped.
      split; intros (r & old & Hnew & Hrest); exists r, old;
        (split; [by apply elem_of_map_to_list | done]). }
    split; [apply NoDup_list_of_set|].
    split.
    { intros x. rewrite elem_of_list_of_set, elem_of_difference, !elem_of_list_to_set.
      by rewrite Hdrop. }
    split.
    { intros x Hx%Hdrop. apply map_lookup_filter_None. right. intros r _. simpl.
      by intros []. }
    split; [|reflexivity].
    intros x Hx. rewrite <- Hdrop in Hx.
    destruct (new_roles !! x) as [r|] eqn:Hnew.
    + by apply map_lookup_filter_Some.
    + apply map_lookup_filter_None. by left.
Qed.

(** ** The simple guess *)

(** X19. The role that the simple guess gives to a column without a
    declared role is Drop exactly when the check of the filling of the
    column fails. A column that passes the check gets the numeric role
    of the reader when it casts to the numeric storage type, and only
    then; otherwise it gets the datetime role of the reader or
    the category role over objects. *)
Theorem infer_role_cases (rd : Reader) (col : Series) (r : ColumnRole) :
  infer_role rd col = Ok r →
  let num_dtype := r_dtype (_get_default_role_from_str rd "numeric") in
  let date_format := r_format (_get_default_role_from_str rd "datetime") in
  (_is_ok_feature rd col = Ok false ∧ r = DropRole)
  ∨ (_is_ok_feature rd col = Ok true
     ∧ ((astype num_dtype col = None ∧ r = NumericRole num_dtype)
        ∨ (astype num_dtype col ≠ None
           ∧ (r = DatetimeRole np_datetime64 date_format
              ∨ r = CategoryRole np_object)))).
Proof.
  intros Hrole num_dtype date_format. unfold infer_role in Hrole.
  destruct (_is_ok_feature rd col) as [[]|e]; [|left; by injection Hrole as <-|done].
  right. split; [reflexivity|].
  unfold _guess_role in Hrole. fold num_dtype date_format in Hrole.
  destruct (astype num_dtype col) as [e|].
  - right. split; [done|].
    destruct e; try done;
      destruct (to_datetime col date_format "unix" None) as [t|[]]; try done;
      try (right; by injection Hrole as <-);
      destruct (tz_localize t "UTC") as [[]|]; injection Hrole as <-; auto.
  - left. split; [reflexivity|]. by injection Hrole as <-.
Qed.

(** ** Role names *)

Lemma lower_ascii_idemp (a : Ascii.ascii) : lower_ascii (lower_ascii a) = lower_ascii a.
Proof.
  unfold lower_ascii.
  destruct (bool_decide (65 ≤ Ascii.nat_of_ascii a ≤ 90)) eqn:Hupper;
    [|by rewrite Hupper].
  apply bool_decide_eq_true in Hupper.
  rewrite Ascii.nat_ascii_embedding by lia. rewrite bool_decide_false; [done | lia].
Qed.

Lemma lower_idemp (s : string) : lower (lower s) = lower s.
Proof. induction s as [|a s IH]; simpl; [done|]. by rewrite lower_ascii_idemp, IH. Qed.

(** X20. The default role of a name does not depend on the case of the
    letters A to Z of the name, and of [roles_params] it reads the
    entries under lower-case keys only: two names that differ in case
    only, in two readers whose [roles_params] agree on the lower-case
    keys, have the same default role. *)
Theorem default_role_case (rd rd2 : Reader) (name name2 : string) :
  lower name = lower name2 →
  (∀ key, lower key = key → roles_params rd !! key = roles_params rd2 !! key) →
  _get_default_role_from_str rd name = _get_default_role_from_str rd2 name2.
Proof.
  intros Hname Hparams. unfold _get_default_role_from_str.
  rewrite Hname. by rewrite (Hparams (lower name2) (lower_idemp name2)).
Qed.

(** ** Declared roles in [fit_read] *)

Lemma dict_get_NoDup {K V} `{EqDecision K} (k : K) (v : V) (d : list (K * V)) :
  NoDup d.*1 → (k, v) ∈ d → dict_get k d = Some v.
Proof.
  induction d as [|[k0 v0] d IH]; [by intros _ ?%not_elem_of_nil|].
  rewrite fmap_cons. cbn [fst]. intros [Hk0 Hnd]%NoDup_cons Hin. simpl.
  apply elem_of_cons in Hin as [[= -> ->] | Hin]; [by rewrite decide_True|].
  rewrite decide_False; [by apply IH|].
  intros ->. apply Hk0. apply list_elem_of_fmap. by exists (k, v).
Qed.

(** What the first loop of [fit_read] leaves in the declared roles: the
    role Drop for a column whose role is the role of an array attribute,
    the role object for another column, and untouched entries for the
    columns it does not visit. *)
Lemma extract_array_attrs_roles (train_data : DataFrame) (feats : list string)
    (parsed_roles parsed_roles' : ParsedRoles) (kw kw' : gmap string AttrVal)
    (rd0 rd rd' : Reader) :
  NoDup feats →
  roles_params rd = roles_params rd0 →
  extract_array_attrs train_data feats parsed_roles kw rd = (Ok (parsed_roles', kw'), rd') →
  (∀ feat, feat ∉ feats → dict_get feat parsed_roles' = dict_get feat parsed_roles)
  ∧ ∀ feat r, feat ∈ feats → dict_get feat parsed_roles = Some r →
      dict_get feat parsed_roles'
      = Some (RoleObj (if attrs_dict !! r_name (resolve rd0 r) is Some _
                       then DropRole else resolve rd0 r)).
Proof.
  revert parsed_roles kw rd.
  induction feats as [|feat0 feats IH]; intros parsed_roles kw rd Hnd Hparams.
  { intros [= <- _ _]. split; [done|]. by intros feat r ?%not_elem_of_nil. }
  apply NoDup_cons in Hnd as [Hfeat0 Hnd].
  cbn [extract_array_attrs]. unfold mbind at 1, M_bind. unfold get at 1.
  destruct (dict_get feat0 parsed_roles) as [r0|] eqn:Hr0; [|done].
  rewrite (resolve_same rd rd0) by done.
  intros ([r1 kw1] & rd1 & Hstep & Hrest)%bind_Ok.
  assert (Hr1 : r1 = (if attrs_dict !! r_name (resolve rd0 r0) is Some _
                      then DropRole else resolve rd0 r0)
                ∧ roles_params rd1 = roles_params rd0).
  { destruct (attrs_dict !! r_name (resolve rd0 r0)) as [attr|].
    - apply bind_Ok in Hstep as (kw1' & rd1' & Htake & Hret).
      injection Hret as <- <- <-. split; [done|].
      pose proof (take_array_attr_same roles_params train_data feat0 attr kw rd) as Hsame.
      rewrite Htake in Hsame. unfold same in Hsame. simpl in Hsame. congruence.
    - by injection Hstep as <- <- <-. }
  destruct Hr1 as [-> Hparams1].
  destruct (IH _ _ _ Hnd Hparams1 Hrest) as [Hout Hin]. split.
  - intros feat [Hne Hfeat]%not_elem_of_cons.
    by rewrite (Hout feat Hfeat), dict_get_set_ne.
  - intros feat r [-> | Hfeat]%elem_of_cons Hr.
    + rewrite (Hout feat0 Hfeat0), dict_get_set_eq.
      rewrite Hr0 in Hr. by injection Hr as ->.
    + apply Hin; [done|]. rewrite dict_get_set_ne; [done|]. by intros ->.
Qed.

(** The loop of the simple guess never uses a column whose declared role
    is Drop. *)
Lemma infer_roles_declared_drop (roles : UserRoles) (cols : list (label * Series))
    (parsed_roles parsed_roles' : ParsedRoles) (rd rd' : Reader) (feat : string) :
  dict_get feat parsed_roles = Some (RoleObj DropRole) →
  infer_roles roles cols parsed_roles rd = (Ok parsed_roles', rd') →
  feat ∈ _used_features rd' → feat ∈ _used_features rd.
Proof.
  revert parsed_roles rd.
  induction cols as [|[[feat0|z] col] cols IH]; intros parsed_roles rd Hdrop.
  - by intros [= _ <-].
  - rewrite infer_roles_cons.
    destruct (role_of_column _ _ _ _ _) as [[r parsed1]|e] eqn:Hrole; [|done].
    intros Hrest Hused.
    pose proof (set_back_fields feat0 r rd) as Hback. cbv zeta in Hback.
    destruct (decide (feat0 = feat)) as [->|Hne].
    + unfold role_of_column in Hrole. rewrite Hdrop in Hrole.
      assert (Hcheck : check_declared_role rd ["Datetime"] roles feat col DropRole
                       = Ok DropRole).
      { unfold check_declared_role.
        rewrite bool_decide_false by (intros [[=]|[]%not_elem_of_nil]%elem_of_cons).
        by rewrite bool_decide_false. }
      rewrite Hcheck in Hrole. injection Hrole as <- <-.
      rewrite bool_decide_false in Hback by (intros Hn; by apply Hn).
      destruct Hback as (Hu & _ & _). rewrite <- Hu.
      eapply IH; [|exact Hrest|exact Hused]. apply dict_get_set_eq.
    + assert (Hdrop1 : dict_get feat parsed1 = Some (RoleObj DropRole)).
      { unfold role_of_column in Hrole.
        destruct (dict_get feat0 parsed_roles) as [[name|r0]|]; [done| |].
        - destruct (check_declared_role _ _ _ _ _ _); [|done].
          injection Hrole as _ <-. by rewrite dict_get_set_ne.
        - destruct (infer_role rd col); [|done]. by injection Hrole as _ <-. }
      apply (IH _ _ Hdrop1 Hrest) in Hused.
      case_bool_decide; destruct Hback as (Hu & _ & _); rewrite Hu in Hused; [|done].
      apply elem_of_app in Hused as [Hused | Hused%list_elem_of_singleton]; [done|].
      congruence.
  - done.
Qed.

(** X21. A column that the user declares with the role of an array
    attribute (the target, the group, the weights, ...) is never made a
    feature by [fit_read]: when [fit_read] returns, the column is not
    among the used features, unless it was there before, and the dataset
    has no such column. The declared roles are a [dict]: no column is
    declared twice. *)
Theorem fit_read_attr_not_feature (train_data : DataFrame) (roles : UserRoles)
    (kw : gmap string AttrVal) (rd rd' : Reader) (dataset : Dataset)
    (feat : string) (r : UserRole) :
  fit_read train_data roles kw rd = (Ok dataset, rd') →
  NoDup (roles_parser roles).*1 →
  (feat, r) ∈ roles_parser roles →
  is_Some (attrs_dict !! r_name (resolve rd r)) →
  feat ∉ _used_features rd →
  (feat ∉ _used_features rd')
  ∧ (LStr feat ∉ (df_columns (ds_data dataset)).*1).
Proof.
  intros Hfit Hnd Hin [attr Hattr] Hbefore.
  destruct (fit_read_returns _ _ _ _ _ _ Hfit)
    as (parsed_roles & kw1 & rd1 & parsed_roles2 & rd2 & kw2 & cols2
        & Hread & Hinfer & Hnil & Hcols & Hkw2 & Hrest).
  assert (Hdrop : dict_get feat parsed_roles = Some (RoleObj DropRole)).
  { unfold read_roles_and_target in Hread.
    apply bind_Ok in Hread as ([parsed_roles1 kw3] & rd3 & Hextract & Hread).
    destruct (extract_array_attrs_roles _ _ _ _ _ _ rd _ _ Hnd eq_refl Hextract)
      as [_ Hroles].
    specialize (Hroles feat r).
    rewrite Hattr in Hroles.
    destruct (kw3 !! "target"); [|done].
    apply bind_Ok in Hread as (rd4 & rd5 & _ & Hread).
    apply bind_Ok in Hread as (t1 & rd6 & _ & Hread).
    apply bind_Ok in Hread as (name & rd7 & _ & Hread).
    apply bind_Ok in Hread as ([] & rd8 & _ & Hread).
    apply bind_Ok in Hread as (t2 & rd9 & _ & Hret).
    injection Hret as <- _ _. apply Hroles.
    - apply list_elem_of_fmap. by exists (feat, r).
    - by apply dict_get_NoDup. }
  pose proof (read_roles_and_target_same _used_features train_data roles kw rd) as Hsame.
  rewrite Hread in Hsame. unfold same in Hsame. simpl in Hsame.
  assert (Hsimple : feat ∉ _used_features rd2).
  { intros Hused. apply Hbefore. rewrite <- Hsame.
    by eapply infer_roles_declared_drop. }
  assert (Hfinal : (feat ∉ _used_features rd')
                   ∧ (df_columns (ds_data dataset)).*1 = LStr <$> _used_features rd').
  { destruct (advanced_roles rd2).
    - destruct Hrest as (rd3 & cols3 & Hadv & Hcols3 & -> & ->).
      split; [|by apply (select_fst train_data)].
      destruct (apply_advanced_roles_returns _ _ _ _ Hadv) as (droplist & _ & ->).
      simpl. rewrite elem_of_list_of_set, elem_of_difference, elem_of_list_to_set.
      by intros [? _].
    - destruct Hrest as [-> ->]. split; [done|]. by apply (select_fst train_data). }
  destruct Hfinal as [Hnot Hds]. split; [done|].
  rewrite Hds. intros (f & [= <-] & Hf)%list_elem_of_fmap. done.
Qed.

Lemma check_declared_role_returns (rd : Reader) (date_names : list string)
    (roles : UserRoles) (feat : string) (col : Series) (r r' : ColumnRole) :
  check_declared_role rd date_names roles feat col r = Ok r' →
  r' = r
  ∨ (r_name r = "Category"
     ∧ r' = with_dtype (r_dtype (_get_default_role_from_str rd "numeric")) r).
Proof.
  unfold check_declared_role.
  destruct (if bool_decide (r_name r ∈ date_names) then _ else _); [done|].
  case_bool_decide as Hcat; [|intros [= <-]; by left].
  destruct (_ && _); intros [= <-]; [by right | by left].
Qed.

(** The declared role [r0], or, for a category role, [r0] with the
    numeric storage type of the reader. *)
Definition as_declared (rd : Reader) (r0 r : ColumnRole) : Prop :=
  r = r0
  ∨ (r_name r0 = "Category"
     ∧ r = with_dtype (r_dtype (_get_default_role_from_str rd "numeric")) r0).

Lemma as_declared_same (a b : Reader) (r0 r : ColumnRole) :
  roles_params a = roles_params b → as_declared a r0 r → as_declared b r0 r.
Proof.
  intros Hp. unfold as_declared, _get_default_role_from_str. by rewrite Hp.
Qed.

Lemma as_declared_name (rd : Reader) (r0 r : ColumnRole) :
  as_declared rd r0 r → r_name r = r_name r0.
Proof. by intros [-> | [_ ->]]. Qed.

(** The loop of the simple guess gives a column with a declared role
    that role. *)
Lemma infer_roles_declared (roles : UserRoles) (cols : list (label * Series))
    (parsed_roles parsed_roles' : ParsedRoles) (rd0 rd rd' : Reader) (feat : string)
    (r0 r1 : ColumnRole) :
  r_name r0 ≠ "Drop" →
  roles_params rd = roles_params rd0 →
  dict_get feat parsed_roles = Some (RoleObj r1) →
  as_declared rd0 r0 r1 →
  infer_roles roles cols parsed_roles rd = (Ok parsed_roles', rd') →
  (LStr feat ∈ cols.*1 ∨ ∃ r, _roles rd !! feat = Some r ∧ as_declared rd0 r0 r) →
  ∃ r', _roles rd' !! feat = Some r' ∧ as_declared rd0 r0 r'.
Proof.
  intros Hname. revert parsed_roles rd r1.
  induction cols as [|[[feat0|z] col] cols IH];
    intros parsed_roles rd r1 Hparams Hparsed Hr1.
  - intros [= _ <-] [Hin | Hrole]; [by apply not_elem_of_nil in Hin | done].
  - rewrite infer_roles_cons.
    destruct (role_of_column _ _ _ _ _) as [[r parsed1]|e] eqn:Hrole; [|done].
    intros Hrest Hbefore.
    pose proof (set_back_fields feat0 r rd) as Hback. cbv zeta in Hback.
    assert (Hparams1 : roles_params (set_back feat0 r rd).2 = roles_params rd0).
    { rewrite <- Hparams. unfold set_back. by case_bool_decide. }
    destruct (decide (feat0 = feat)) as [->|Hne].
    + unfold role_of_column in Hrole. rewrite Hparsed in Hrole.
      destruct (check_declared_role _ _ _ _ _ _) as [r2|] eqn:Hcheck; [|done].
      injection Hrole as <- <-.
      assert (Hr2 : as_declared rd0 r0 r2).
      { apply check_declared_role_returns in Hcheck as [-> | [Hcat ->]]; [done|].
        right. rewrite (as_declared_name _ _ _ Hr1) in Hcat. split; [done|].
        replace (_get_default_role_from_str rd "numeric")
          with (_get_default_role_from_str rd0 "numeric")
          by (unfold _get_default_role_from_str; by rewrite Hparams).
        by destruct Hr1 as [-> | [_ ->]]. }
      rewrite bool_decide_true in Hback
        by by rewrite (as_declared_name _ _ _ Hr2).
      destruct Hback as (_ & _ & Hroles).
      eapply (IH _ _ r2 Hparams1); [apply dict_get_set_eq | done | exact Hrest |].
      right. exists r2. by rewrite Hroles, lookup_insert_eq.
    + assert (Hparsed1 : dict_get feat parsed1 = Some (RoleObj r1)).
      { unfold role_of_column in Hrole.
        destruct (dict_get feat0 parsed_roles) as [[name|r3]|]; [done| |].
        - destruct (check_declared_role _ _ _ _ _ _); [|done].
          injection Hrole as _ <-. by rewrite dict_get_set_ne.
        - destruct (infer_role rd col); [|done]. by injection Hrole as _ <-. }
      eapply (IH _ _ r1 Hparams1 Hparsed1 Hr1 Hrest).
      destruct Hbefore as [Hin | (r3 & Hr3 & Hdecl)].
      * left. rewrite fmap_cons in Hin. apply elem_of_cons in Hin as [[= ?]|Hin]; done.
      * right. exists r3. split; [|done].
        case_bool_decide; destruct Hback as (_ & _ & Hroles); rewrite Hroles; [|done].
        by rewrite lookup_insert_ne.
  - done.
Qed.

(** X22. Without the advanced guess, [fit_read] keeps the roles that
    the user declares: when it returns, a column of the table whose
    declared role is neither Drop nor the role of an array attribute has
    that very role in the roles of the reader, except that a category
    role may have got the numeric storage type of the reader. The
    declared roles are a [dict]: no column is declared twice; the
    sampling of pandas is taken to keep the columns of the table. *)
Theorem fit_read_declared_role (train_data : DataFrame) (roles : UserRoles)
    (kw : gmap string AttrVal) (rd rd' : Reader) (dataset : Dataset)
    (feat : string) (declared : UserRole) :
  fit_read train_data roles kw rd = (Ok dataset, rd') →
  advanced_roles rd = false →
  (∀ n seed df, (df_columns (sample n seed df)).*1 = (df_columns df).*1) →
  NoDup (roles_parser roles).*1 →
  (feat, declared) ∈ roles_parser roles →
  attrs_dict !! r_name (resolve rd declared) = None →
  r_name (resolve rd declared) ≠ "Drop" →
  LStr feat ∈ (df_columns train_data).*1 →
  ∃ r, _roles rd' !! feat = Some r
       ∧ ds_roles dataset !! feat = Some r
       ∧ as_declared rd (resolve rd declared) r.
Proof.
  intros Hfit Hadv Hsample Hnd Hin Hattr Hname Hcol.
  destruct (fit_read_returns _ _ _ _ _ _ Hfit)
    as (parsed_roles & kw1 & rd1 & parsed_roles2 & rd2 & kw2 & cols2
        & Hread & Hinfer & Hnil & Hcols & Hkw2 & Hrest).
  assert (Hparsed : dict_get feat parsed_roles = Some (RoleObj (resolve rd declared))).
  { unfold read_roles_and_target in Hread.
    apply bind_Ok in Hread as ([parsed_roles1 kw3] & rd3 & Hextract & Hread).
    destruct (extract_array_attrs_roles _ _ _ _ _ _ rd _ _ Hnd eq_refl Hextract)
      as [_ Hroles].
    specialize (Hroles feat declared).
    rewrite Hattr in Hroles.
    destruct (kw3 !! "target"); [|done].
    apply bind_Ok in Hread as (rd4 & rd5 & _ & Hread).
    apply bind_Ok in Hread as (t1 & rd6 & _ & Hread).
    apply bind_Ok in Hread as (name & rd7 & _ & Hread).
    apply bind_Ok in Hread as ([] & rd8 & _ & Hread).
    apply bind_Ok in Hread as (t2 & rd9 & _ & Hret).
    injection Hret as <- _ _. apply Hroles.
    - apply list_elem_of_fmap. by exists (feat, declared).
    - by apply dict_get_NoDup. }
  pose proof (read_roles_and_target_same
    (fun r => (roles_params r, advanced_roles r)) train_data roles kw rd) as Hsame.
  rewrite Hread in Hsame. injection Hsame as Hparams Hadv1.
  pose proof (infer_roles_same advanced_roles roles
    (df_columns (take_subsample rd1 train_data)) parsed_roles rd1) as Hadv2.
  rewrite Hinfer in Hadv2. unfold same in Hadv2. simpl in Hadv2.
  rewrite Hadv2, Hadv1, Hadv in Hrest. destruct Hrest as [<- ->]. simpl.
  destruct (infer_roles_declared roles _ _ _ rd rd1 rd' feat (resolve rd declared)
              (resolve rd declared) Hname Hparams Hparsed (or_introl eq_refl) Hinfer)
    as (r & Hr & Hdecl).
  { left. by rewrite take_subsample_columns. }
  by exists r.
Qed.

(** ** [read] after [fit_read] *)

(** The target that [used_array_attrs] names goes with the task: one
    column for a task of one target; for a task of several targets, the
    names that [kwargs] collects. *)
Definition target_in_step (kw : gmap string AttrVal) (rd : Reader) : Prop :=
  match _used_array_attrs rd !! "target" with
  | None => True
  | Some (AttrCol _) => is_multi_target rd = false
  | Some (AttrCols feats) =>
      is_multi_target rd = true ∧ kw !! "target" = Some (ANames feats)
  end.

Lemma take_array_attr_in_step (plain_data : DataFrame) (feat attr : string)
    (kw kw' : gmap string AttrVal) (rd rd' : Reader) :
  take_array_attr plain_data feat attr kw rd = (Ok kw', rd') →
  target_in_step kw rd → target_in_step kw' rd'.
Proof.
  unfold take_array_attr, target_in_step.
  unfold mbind at 1, M_bind. unfold get at 1.
  destruct (is_multi_target rd && bool_decide (attr = "target")) eqn:Hcase.
  - apply andb_true_iff in Hcase as [Hmulti ->%bool_decide_eq_true].
    destruct (kw !! "target") as [[| |feats]|] eqn:Hkw; try done.
    + destruct (_used_array_attrs rd !! "target") as [[|used]|] eqn:Hused; try done.
      run_reader. intros [= <- <-] [_ [= ->]]. simpl. by rewrite !lookup_insert_eq.
    + run_reader. intros [= <- <-] _. simpl. by rewrite !lookup_insert_eq.
  - run_reader. destruct (loc plain_data feat); [|done]. intros [= <- <-]. simpl.
    destruct (decide (attr = "target")) as [->|Hne].
    + rewrite lookup_insert_eq. intros _.
      apply andb_false_iff in Hcase as [Hmulti | Hattr]; [done|].
      by apply bool_decide_eq_false in Hattr.
    + by rewrite !lookup_insert_ne.
Qed.

Lemma extract_array_attrs_in_step (train_data : DataFrame) (feats : list string)
    (parsed_roles parsed_roles' : ParsedRoles) (kw kw' : gmap string AttrVal)
    (rd rd' : Reader) :
  extract_array_attrs train_data feats parsed_roles kw rd = (Ok (parsed_roles', kw'), rd') →
  target_in_step kw rd → target_in_step kw' rd'.
Proof.
  revert parsed_roles kw rd.
  induction feats as [|feat feats IH]; intros parsed_roles kw rd.
  { by intros [= _ <- <-]. }
  cbn [extract_array_attrs]. unfold mbind at 1, M_bind. unfold get at 1.
  destruct (dict_get feat parsed_roles) as [r|]; [|done].
  destruct (attrs_dict !! r_name (resolve rd r)) as [attr|].
  - intros ([r1 kw1] & rd1 & Htake & Hrest)%bind_Ok Hstep.
    apply bind_Ok in Htake as (kw1' & rd1' & Htake & Hret).
    injection Hret as <- <- <-.
    eapply IH; [exact Hrest|]. by eapply take_array_attr_in_step.
  - intros Hrest Hstep. eapply IH; [exact Hrest | exact Hstep].
Qed.

(** The class mapping that [_create_target] leaves goes with the task. *)
Lemma create_target_mapping (t t' : AttrVal) (rd rd' : Reader) :
  _create_target t rd = (Ok t', rd') →
  match class_mapping rd' with
  | CMNone => True
  | CMDict _ => is_multi_target rd = false
  | CMPerCol ms =>
      is_multi_target rd = true
      ∧ ∃ df, t = AFrame df ∧ ∀ col, col ∈ (df_columns df).*1 → col ∈ ms.*1
  end.
Proof.
  unfold _create_target.
  intros ([] & rd1 & Hset & Hrest)%bind_Ok.
  unfold modify in Hset. injection Hset as <-.
  apply bind_Ok in Hrest as (rd2 & rd3 & Hget & Hrest). injection Hget as <- <-.
  change (task_name (set_class_mapping CMNone rd)) with (task_name rd) in Hrest.
  destruct (decide (task_name rd = "binary" ∨ task_name rd = "multiclass")) as [Htask|_].
  - apply bind_Ok in Hrest as ([name s] & rd4 & _ & Hrest).
    apply bind_Ok in Hrest as ([s' mapping] & rd5 & _ & Hrest).
    apply bind_Ok in Hrest as ([] & rd6 & Hset & Hret).
    unfold modify in Hset. injection Hset as <-. injection Hret as _ <-. simpl.
    destruct mapping; simpl; [|done].
    unfold is_multi_target. apply bool_decide_eq_false.
    destruct Htask as [-> | ->]; intros [|]; discriminate.
  - destruct (decide (task_name rd = "multilabel")) as [Htask|_].
    + apply bind_Ok in Hrest as ([] & rd4 & Hset & Hrest).
      unfold modify in Hset. injection Hset as <-.
      destruct t as [| df |]; [done| |done].
      apply bind_Ok in Hrest as (cols & rd5 & Hcols & Hrest).
      apply bind_Ok in Hrest as ([] & rd6 & Hset & Hret).
      unfold modify in Hset. injection Hset as <-. injection Hret as _ <-.
      destruct (check_columns_returns _ _ _ _ [] Hcols eq_refl)
        as (ms & Hms & _ & _ & Hkeys).
      simpl. rewrite Hms. split.
      * unfold is_multi_target. apply bool_decide_eq_true. by right.
      * exists df. split; [done|]. intros col Hcol. apply Hkeys. by right.
    + assert (Hnone : ∀ of_objects values (k : M Reader AttrVal) rd4,
                (assert_no_nan of_objects values ;; k) (set_class_mapping CMNone rd)
                = (Ok t', rd4) →
                k (set_class_mapping CMNone rd) = (Ok t', rd4)).
      { intros of_objects values k rd4 ([] & rd5 & Hassert & Hk)%bind_Ok.
        unfold assert_no_nan in Hassert.
        destruct of_objects; [done|].
        unfold assert in Hassert. destruct (negb _); [|done].
        by injection Hassert as <-. }
      destruct t as [name s | df |]; [| |done];
        apply Hnone in Hrest; by injection Hrest as _ <-.
Qed.

Lemma read_roles_and_target_fits (train_data : DataFrame) (roles : UserRoles)
    (kw kw1 : gmap string AttrVal) (parsed_roles : ParsedRoles) (rd rd1 : Reader) :
  read_roles_and_target train_data roles kw rd = (Ok (parsed_roles, kw1), rd1) →
  _used_array_attrs rd !! "target" = None →
  target_fits rd1.
Proof.
  intros Hread Hnone. unfold read_roles_and_target in Hread.
  apply bind_Ok in Hread as ([parsed_roles1 kw2] & rd2 & Hextract & Hrest).
  apply extract_array_attrs_in_step in Hextract as Hstep;
    [|unfold target_in_step; by rewrite Hnone].
  destruct (kw2 !! "target") as [t|] eqn:Ht; [|done].
  apply bind_Ok in Hrest as (rd2b & rd2c & Hget & Hrest). injection Hget as <- <-.
  apply bind_Ok in Hrest as (t1 & rd3 & Ht1 & Hrest).
  apply bind_Ok in Hrest as (name & rd4 & Hname & Hrest).
  unfold lift in Hname. injection Hname as _ <-.
  apply bind_Ok in Hrest as ([] & rd5 & Hset & Hrest).
  unfold modify in Hset. injection Hset as <-.
  apply bind_Ok in Hrest as (t2 & rd6 & Hcreate & Hret). injection Hret as _ _ <-.
  pose proof (create_target_same _used_array_attrs t1 (set_target (Some name) rd3))
    as Hattrs.
  rewrite Hcreate in Hattrs. unfold same in Hattrs. simpl in Hattrs.
  apply create_target_mapping in Hcreate.
  change (is_multi_target (set_target (Some name) rd3))
    with (is_multi_target rd3) in Hcreate.
  unfold target_fits. rewrite Hattrs.
  unfold target_in_step in Hstep.
  destruct (is_multi_target rd2) eqn:Hmulti.
  - destruct t as [| |feats]; [done..|].
    apply bind_Ok in Ht1 as (cols & rd3b & Hcols & Hret).
    unfold lift in Hcols. injection Hret as <- <-.
    destruct (select train_data feats) as [cols'|] eqn:Hsel; [|done].
    injection Hcols as <- <-. rewrite Hmulti in Hcreate.
    destruct (_used_array_attrs rd2 !! "target") as [[y|used]|]; [done| |done].
    destruct Hstep as [_ Hused]. rewrite Ht in Hused. injection Hused as <-.
    destruct (class_mapping rd6) as [| |ms]; [done..|].
    destruct Hcreate as (_ & df & [= <-] & Hkeys). simpl in Hkeys.
    intros f Hf. apply dict_get_is_Some, Hkeys.
    rewrite (select_fst _ _ _ Hsel). apply list_elem_of_fmap. by exists f.
  - injection Ht1 as <- <-. rewrite Hmulti in Hcreate.
    destruct (_used_array_attrs rd2 !! "target") as [[y|used]|]; [|by destruct Hstep|done].
    destruct (class_mapping rd6) as [| |ms]; [done..|]. by destruct Hcreate.
Qed.

(** What [read] needs of a reader, after a [fit_read] that found no
    target in [used_array_attrs]: the class mapping has the shape of the
    target, and the used features are columns of the training table. *)
Lemma fit_read_fits (train_data : DataFrame) (roles : UserRoles)
    (kw : gmap string AttrVal) (rd rd' : Reader) (dataset : Dataset) :
  fit_read train_data roles kw rd = (Ok dataset, rd') →
  _used_array_attrs rd !! "target" = None →
  target_fits rd'
  ∧ ∀ f, f ∈ _used_features rd' → LStr f ∈ (df_columns train_data).*1.
Proof.
  intros Hfit Hnone.
  destruct (fit_read_returns _ _ _ _ _ _ Hfit)
    as (parsed_roles & kw1 & rd1 & parsed_roles2 & rd2 & kw2 & cols2
        & Hread & Hinfer & Hnil & Hcols & Hkw2 & Hrest).
  pose proof (read_roles_and_target_fits _ _ _ _ _ _ _ Hread Hnone) as Hfits.
  pose proof (infer_roles_same
    (fun r => (_used_array_attrs r, class_mapping r)) roles
    (df_columns (take_subsample rd1 train_data)) parsed_roles rd1) as Hsame.
  rewrite Hinfer in Hsame. injection Hsame as Hattr Hcm.
  assert (Hfinal : _used_array_attrs rd' = _used_array_attrs rd1
                   ∧ class_mapping rd' = class_mapping rd1
                   ∧ is_Ok (select train_data (_used_features rd')) = true).
  { destruct (advanced_roles rd2).
    - destruct Hrest as (rd3 & cols3 & Hadv & Hcols3 & -> & ->).
      destruct (apply_advanced_roles_returns _ _ _ _ Hadv) as (droplist & _ & Hrd3).
      split; [by rewrite Hrd3 | split; [by rewrite Hrd3 | by rewrite Hcols3]].
    - destruct Hrest as [-> ->]. do 2 (split; [done|]). by rewrite Hcols. }
  destruct Hfinal as (Hattr' & Hcm' & Hsel). split.
  - unfold target_fits in *. by rewrite Hattr', Hcm'.
  - by apply select_is_Ok.
Qed.

(** X23. A reader that has no target among its array attributes, as a
    new reader has none, reads the training table after a [fit_read]
    that returns, whatever the task, with the array attributes or
    without them; and it reads any table that has the used features as
    columns, and no other. *)
Theorem fit_read_then_read (train_data : DataFrame) (roles : UserRoles)
    (kw : gmap string AttrVal) (rd rd' : Reader) (dataset : Dataset)
    (add_array_attrs : bool) :
  fit_read train_data roles kw rd = (Ok dataset, rd') →
  _used_array_attrs rd !! "target" = None →
  is_Ok (read rd' train_data add_array_attrs) = true
  ∧ ∀ data,
      is_Ok (read rd' data add_array_attrs) = true
      ↔ ∀ f, f ∈ _used_features rd' → LStr f ∈ (df_columns data).*1.
Proof.
  intros Hfit Hnone.
  destruct (fit_read_fits _ _ _ _ _ _ Hfit Hnone) as [Hfits Hused].
  assert (Hany : ∀ data,
            is_Ok (read rd' data add_array_attrs) = true
            ↔ ∀ f, f ∈ _used_features rd' → LStr f ∈ (df_columns data).*1).
  { intros data. rewrite <- select_is_Ok. unfold read.
    pose proof (read_array_attrs_fits rd' data add_array_attrs Hfits) as Hkw.
    destruct (if add_array_attrs then _ else _) as [kwr|e]; [|done].
    by destruct (select data (_used_features rd')). }
  split; [by apply Hany | exact Hany].
Qed.

(** ** The sequential [fit_read] *)

Lemma make_plain_dataset_returns (plain_data : option DataFrame)
    (kw : gmap string AttrVal) (rd rd' : Reader) (dataset : Dataset) :
  make_plain_dataset plain_data kw rd = (Ok dataset, rd') →
  rd' = rd
  ∧ ∃ cols,
      match plain_data with
      | Some plain => select plain (plain_used_features rd) = Ok cols
      | None => cols = []
      end
      ∧ dataset = mkDataset (mkFrame cols) (plain_roles rd) (task_name rd) kw None.
Proof.
  unfold make_plain_dataset.
  intros (rd0 & rd1 & Hget & Hrest)%bind_Ok. injection Hget as <- <-.
  apply bind_Ok in Hrest as (cols & rd2 & Hcols & Hret). injection Hret as <- <-.
  destruct plain_data as [plain|].
  - unfold lift in Hcols. destruct (select plain (plain_used_features rd)); [|done].
    injection Hcols as <- <-. split; [done|]. by eexists.
  - injection Hcols as <- <-. split; [done|]. by eexists.
Qed.

(** The sequential [fit_read], when it returns: the plain features are
    set last, and the dataset is made of them. *)
Lemma seq_fit_read_returns (plain_data : option DataFrame)
    (seq_data : option (list (string * DataFrame))) (roles : UserRoles)
    (kw : gmap string AttrVal) (rd rd' : Reader) (dataset : Dataset) :
  seq_fit_read plain_data seq_data roles kw rd = (Ok dataset, rd') →
  ∃ rd0 kw' cols seq_datasets,
    set_plain_features plain_data rd0 = (Ok tt, rd')
    ∧ match plain_data with
      | Some plain => select plain (plain_used_features rd') = Ok cols
      | None => cols = []
      end
    ∧ dataset = mkDataset (mkFrame cols) (plain_roles rd') (task_name rd') kw'
                  (option_map (set_seq_idx (meta rd')) seq_datasets).
Proof.
  unfold seq_fit_read.
  intros ([[parsed_roles kw1] seq_datasets] & rd1 & _ & Hrest)%bind_Ok.
  apply bind_Ok in Hrest as (rd1b & rd1c & Hget & Hrest). injection Hget as <- <-.
  apply bind_Ok in Hrest as (t & rd1d & _ & Hrest).
  apply bind_Ok in Hrest as ([] & rd2 & Hset & Hrest).
  apply bind_Ok in Hrest as (ds1 & rd2b & Hds1 & Hrest).
  apply make_plain_dataset_returns in Hds1 as (-> & cols1 & Hcols1 & ->).
  apply bind_Ok in Hrest as (ds2 & rd3 & Hds2 & Hrest).
  apply bind_Ok in Hrest as (rd3b & rd3c & Hget & Hret). injection Hget as <- <-.
  injection Hret as <- <-.
  destruct (advanced_roles rd1).
  - apply bind_Ok in Hds2 as ([] & rd4 & _ & Hds2).
    apply bind_Ok in Hds2 as ([] & rd5 & Hset2 & Hds2).
    apply make_plain_dataset_returns in Hds2 as (-> & cols2 & Hcols2 & ->).
    by eexists rd4, _, cols2, seq_datasets.
  - injection Hds2 as <- <-. by eexists rd1d, _, cols1, seq_datasets.
Qed.

(** X24. The sequential [fit_read], when it returns, leaves in
    [plain_used_features] the used features that are columns of the plain
    table, each once and in the order of the strings, and in
    [plain_roles] the roles of these features; the plain dataset that it
    returns has these features as its columns, in this order, and these
    roles. Without a plain table there is no such feature. *)
Theorem seq_fit_read_plain (plain_data : option DataFrame)
    (seq_data : option (list (string * DataFrame))) (roles : UserRoles)
    (kw : gmap string AttrVal) (rd rd' : Reader) (dataset : Dataset) :
  seq_fit_read plain_data seq_data roles kw rd = (Ok dataset, rd') →
  (∀ f, f ∈ plain_used_features rd'
        ↔ f ∈ _used_features rd'
          ∧ LStr f ∈ from_option (fun p => (df_columns p).*1) [] plain_data)
  ∧ NoDup (plain_used_features rd')
  ∧ StronglySorted String.le (plain_used_features rd')
  ∧ (∀ f r, plain_roles rd' !! f = Some r
            ↔ _roles rd' !! f = Some r ∧ f ∈ plain_used_features rd')
  ∧ (df_columns (ds_data dataset)).*1 = LStr <$> plain_used_features rd'
  ∧ ds_roles dataset = plain_roles rd'.
Proof.
  intros (rd0 & kw' & cols & seq_datasets & Hset & Hcols & ->)%seq_fit_read_returns.
  unfold set_plain_features, modify in Hset. injection Hset as <-. simpl.
  set (plain_features := from_option (fun p => (df_columns p).*1) [] plain_data) in *.
  set (used := list_to_set
                 (filter (fun x => LStr x ∈ plain_features) (_used_features rd0))
               : gset string) in *.
  assert (Hin : ∀ f, f ∈ merge_sort String.le (elements used)
                     ↔ f ∈ _used_features rd0 ∧ LStr f ∈ plain_features).
  { intros f. rewrite merge_sort_Permutation, elem_of_elements.
    unfold used. rewrite elem_of_list_to_set, list_elem_of_filter.
    clear. split; intros [? ?]; by split. }
  split; [exact Hin|].
  split; [rewrite merge_sort_Permutation; apply NoDup_elements|].
  split; [apply StronglySorted_merge_sort; apply _|].
  split.
  - intros f r. rewrite map_lookup_filter_Some. simpl. clear. split; intros [? ?]; by split.
  - split; [|reflexivity].
    destruct plain_data as [plain|]; simpl in Hcols.
    + by apply select_fst in Hcols.
    + subst cols. simpl.
      match goal with |- [] = LStr <$> ?l => assert (Hnil : l = []) end;
        [|by rewrite Hnil].
      apply elem_of_nil_inv. intros f [_ Hf]%Hin.
      by apply not_elem_of_nil in Hf.
Qed.

End Readers.

(** * A worked scenario

    The properties above hold for every collaborator. Here the
    collaborators are simple ones, the reader is the one that
    [PandasToPandasReader.__init__] builds by default, rates and scores
    are rationals, and the code is run on small tables. *)

Module Stub.

(** The roles by name, with the defaults of the role classes. *)
Definition from_string (name : string) (role_params : kwargs) : ColumnRole :=
  if decide (name = "numeric") then NumericRole np_float32
  else if decide (name = "category") then CategoryRole np_object
  else if decide (name = "datetime") then DatetimeRole np_datetime64 None
  else if decide (name = "target") then mkRole "Target" np_float32 false None "unix" None
  else if decide (name = "group") then mkRole "Group" np_object false None "unix" None
  else DropRole.

(** Numbers and missing values cast to a float, text does not. *)
Definition astype_cell (dtype : Dtype) (c : cell) : option pyexn :=
  match c with
  | CStr _ => Some PyValueError
  | _ => None
  end.

(** Two days, the second one written with a time zone. *)
Definition is_date (c : cell) : bool :=
  bool_decide (c = CStr "2020-01-01" ∨ c = CStr "2020-01-02+00:00").

Definition to_datetime (s : Series) (format : option string) (origin : string)
    (unit : option string) : outcome Series :=
  if forallb is_date (s_values s) then Returns (mkSeries np_datetime64 (s_values s))
  else Throws PyValueError.

(** A column that knows its time zone cannot be localized. *)
Definition tz_localize (t : Series) (tz : string) : option pyexn :=
  if existsb (fun c => bool_decide (c = CStr "2020-01-02+00:00")) (s_values t)
  then Some PyTypeError else None.

(** The first [n] rows, whatever the seed. *)
Definition sample (n : N) (seed : Z) (df : DataFrame) : DataFrame :=
  mkFrame ((fun c => (c.1, mkSeries (s_dtype c.2) (take (N.to_nat n) (s_values c.2))))
             <$> df_columns df).

Definition attrs_dict : gmap string string :=
  {[ "Target" := "target"; "Group" := "group" ]}.

Definition roles_parser (roles : list (UserRole * list string))
    : list (string * UserRole) :=
  concat ((fun rc : UserRole * list string =>
             (fun c : string => (c, rc.1)) <$> rc.2) <$> roles).

Definition set_sklearn_folds (task : string) (target : AttrVal) (cv : option Z)
    (random_state : Z) (group : option AttrVal) : option (list Z) := None.

(** A row of statistics is its best score. Every numeric feature is
    scored, with a best score of 0; no rule changes a role. *)
Definition get_numeric_roles_stat (dataset : Dataset)
    (manual_roles : list (string * UserRole)) (random_state : Z)
    (subsample : option N) (n_jobs : Z) : list (string * Q) :=
  (fun xr => (xr.1, 0%Q))
    <$> filter (fun xr => r_name xr.2 = "Numeric") (map_to_list (ds_roles dataset)).

Definition calc_encoding_rules (stat : list (string * Q)) (_ _ _ _ _ _ : Q)
    : list (string * Q) := stat.

Definition rule_based_roles_guess (stat : list (string * Q))
    : gmap string ColumnRole := ∅.

Definition get_category_roles_stat (dataset : Dataset) (random_state : Z)
    (subsample : option N) (n_jobs : Z) : list (string * Q) := [].

Definition get_null_scores (dataset : Dataset) (feats : list string)
    (random_state : Z) (subsample : option N) (feat : string) : Q := 0%Q.

End Stub.

(** pandas casts no datetime64 column to a float type; the other casts
    depend on the values. *)
#[global] Instance stub_dtype_cast : DtypeCast :=
  {| astype_dtype from to :=
       match from, to with
       | np_datetime64, (np_float32 | np_float64) => Some PyTypeError
       | _, _ => None
       end |}.

(** Mapped values are integers, or floats when one is missing; a column
    keeps its storage type; no value of a column is the label of a
    column; a number is not a mapping. *)
#[global] Instance stub_series_map : SeriesMap :=
  {| map_dtype values := if existsb isnull values then np_float64 else np_int64;
     setitem_dtype dtype values := dtype;
     map_by_columns ms s := Returns (mkSeries np_float64 ((fun _ => CNaN) <$> s_values s));
     map_by_code n s := Throws PyTypeError |}.

(** [list(s)] enumerates a set in one fixed order. *)
#[global] Instance stub_set_order : SetOrder :=
  {| list_of_set _ _ _ s := elements s;
     list_of_set_perm _ _ _ s := reflexivity (elements s) |}.

(** The thresholds of the advanced guess, by default. *)
Definition default_rules : AdvancedRolesParams :=
  mkAdvParams (999 # 1000)%Q (11 # 10)%Q 2%Q (11 # 10)%Q (2 # 10)%Q (4 # 100)%Q
    (1 # 100)%Q.

(** [PandasToPandasReader(task, max_nan_rate=.., cv=..)], the rest by
    default. *)
Definition new_reader (task : string) (max_nan_rate : Q) (cv : Z) : Reader :=
  mkReader task ∅ [] ∅ [] (Some 100000%N) max_nan_rate (999 # 1000)%Q (Some cv)
    42%Z 4%Z ∅ None true default_rules CMNone None ∅ ∅ [] [] ∅ [].

(** [PandasToPandasReader(task)] *)
Definition default_reader (task : string) : Reader :=
  new_reader task (999 # 1000)%Q 5%Z.

(** A column of integers. *)
Definition ints (l : list Z) : Series := mkSeries np_int64 (CInt <$> l).

Abbreviation guess_role :=
  (_guess_role Stub.from_string Stub.astype_cell Stub.to_datetime Stub.tz_localize).

Abbreviation stub_fit_read :=
  (fit_read Stub.from_string Stub.astype_cell Stub.to_datetime Stub.tz_localize
     Stub.sample Stub.attrs_dict Q Stub.roles_parser Stub.set_sklearn_folds id
     Stub.get_numeric_roles_stat Stub.calc_encoding_rules Stub.rule_based_roles_guess
     Stub.get_category_roles_stat id Stub.rule_based_roles_guess
     Stub.get_null_scores).

(** A table with a feature [f] and a target [y]; the user pins [f] as a
    numeric feature, [force_input = True], and declares [y] the target. *)
Definition pinned_table : DataFrame :=
  mkFrame [(LStr "f", ints [1; 2; 3; 4; 5; 6]%Z); (LStr "y", ints [3; 1; 4; 1; 5; 9]%Z)].

Definition pinned_roles : list (UserRole * list string) :=
  [(RoleObj (mkRole "Numeric" np_float32 true None "unix" None), ["f"]);
   (RoleName "target", ["y"])].

(** ** The class target, run *)

(** C1, where the code departs from it. Under the binary task the count
    of the distinct values is checked only on the path that builds no
    mapping. The target 5, 3, 7 has three distinct values and the target
    5, 5 has one; neither is the range from 0, so a mapping is built, and
    both are accepted. *)
Theorem binary_class_count_unchecked :
  length (uniques (s_values (ints [5; 3; 7]%Z))) = 3
  ∧ (∃ encoded mapping,
       (check_class_target (ints [5; 3; 7]%Z) (default_reader "binary")).1
       = Ok (encoded, Some mapping)
       ∧ length mapping = 3
       ∧ s_values encoded = CInt <$> [0; 1; 2]%Z)
  ∧ length (uniques (s_values (ints [5; 5]%Z))) = 1
  ∧ (check_class_target (ints [5; 5]%Z) (default_reader "binary")).1
    = Ok (mkSeries np_int32 (CInt <$> [0; 0]%Z), Some [(CInt 5, 0)]).
Proof.
  split; [reflexivity|]. split; [|split; vm_compute; reflexivity].
  eexists _, _. split; [vm_compute; reflexivity|]. split; reflexivity.
Qed.

(** The same counts are refused on the other path: 0, 1, 2 and 0, 0. *)
Example binary_class_count_checked :
  (check_class_target (ints [0; 1; 2]%Z) (default_reader "binary")).1
  = Raise BinaryMoreThan2
  ∧ (check_class_target (ints [0; 0]%Z) (default_reader "binary")).1
    = Raise LessThan2Unique.
Proof. vm_compute. repeat split. Qed.

(** C4, a target that the claim as stated gets wrong: the smallest class
    of 0, 0 has 2 samples, which is more than 1 and less than a [cv] of
    5, and the validation fails, for want of a second class. *)
Lemma multiclass_single_class_refused :
  last (value_counts_all (s_values (ints [0; 0]%Z))) = Some (CInt 0%Z, 2)
  ∧ (1 < 2 < 5)%Z
  ∧ (check_class_target (ints [0; 0]%Z) (default_reader "multiclass")).1
    = Raise LessThan2Unique.
Proof. vm_compute. repeat split. Qed.

Lemma multiclass_smallest_class_witness :
  is_Ok (check_class_target (ints [1; 1; 2; 2; 2]%Z) (default_reader "multiclass")).1
  = true
  ∧ cv (check_class_target (ints [1; 1; 2; 2; 2]%Z) (default_reader "multiclass")).2
    = Some 2%Z.
Proof.
  refine (proj2 (proj2 (proj2
    (multiclass_smallest_class (default_reader "multiclass")
       (ints [1; 1; 2; 2; 2]%Z) (CInt 1%Z) 2 _ _ _ _))) _ _).
  - reflexivity.
  - intros c (z & -> & _)%list_elem_of_fmap. reflexivity.
  - vm_compute. reflexivity.
  - vm_compute. reflexivity.
  - reflexivity.
  - reflexivity.
Defined.

(** C5, a target that the claim as stated gets wrong: the distinct
    values of 0, 1, 2 are the range of 3, and the binary task refuses
    the target instead of returning it. *)
Lemma contiguous_target_refused :
  uniques (s_values (ints [0; 1; 2]%Z)) = CInt <$> arange 3
  ∧ (check_class_target (ints [0; 1; 2]%Z) (default_reader "binary")).1
    = Raise BinaryMoreThan2.
Proof. vm_compute. repeat split. Qed.

Lemma check_class_target_contiguous_witness :
  ∃ encoded mapping rd',
    check_class_target (ints [5; 3; 5; 3]%Z) (default_reader "binary")
    = (Ok (encoded, Some mapping), rd')
    ∧ check_class_target encoded rd' = (Ok (encoded, None), rd').
Proof.
  eexists _, _, _. split; [vm_compute; reflexivity|].
  refine (proj2 (check_class_target_contiguous (default_reader "binary")
                   (ints [5; 3; 5; 3]%Z)) _ _ _ _ _ _ _).
  - vm_compute. reflexivity.
  - vm_compute. lia.
  - intros _. vm_compute. reflexivity.
  - vm_compute. discriminate.
Defined.

(** ** The role guesser and the feature filter, run *)

(** C3, a sample that the claim as stated gets wrong: the role of the
    empty column is Numeric. *)
Lemma guess_role_empty_not_category :
  guess_role (default_reader "reg") (mkSeries np_object [])
  = Ok (NumericRole np_float32)
  ∧ r_name (NumericRole np_float32) ≠ "Category".
Proof. split; [reflexivity | discriminate]. Qed.

(** C3, an empty column of dates: pandas refuses the cast of its storage
    type to a float, and the guess goes on to Datetime. *)
Lemma guess_role_empty_sample_witness :
  guess_role (default_reader "reg") (mkSeries np_datetime64 [])
  = Ok (DatetimeRole np_datetime64 None).
Proof.
  refine (proj1 (proj2
    (guess_role_empty_sample Stub.from_string Stub.astype_cell Stub.to_datetime
       Stub.tz_localize (default_reader "reg") np_datetime64)) _ _ _ _).
  - right. reflexivity.
  - reflexivity.
  - left. reflexivity.
Defined.

Lemma guess_role_tz_probe_witness :
  guess_role (default_reader "reg") (mkSeries np_object [CStr "2020-01-02+00:00"])
  = Ok (DatetimeRole np_datetime64 None).
Proof.
  refine (proj1 (proj2 (proj1
    (guess_role_tz_probe Stub.from_string Stub.astype_cell Stub.to_datetime
       Stub.tz_localize (default_reader "reg")
       (mkSeries np_object [CStr "2020-01-02+00:00"]) _) _ _)) _).
  - left. reflexivity.
  - reflexivity.
  - reflexivity.
Defined.

(** C8, a column that the claim as stated gets wrong: with a
    [max_nan_rate] of 2 the share of the missing values of a column of
    one missing value, which is 1, is below the rate, no value is left
    to be the most frequent one, and the filter raises IndexError where
    the claim has it return true. *)
Lemma is_ok_feature_all_missing_raises :
  nan_rate_reached (new_reader "reg" 2%Q 5%Z) [CNaN] = false
  ∧ _is_ok_feature (new_reader "reg" 2%Q 5%Z) (mkSeries np_float64 [CNaN])
    = Raise (Propagated PyIndexError).
Proof. vm_compute. repeat split. Qed.

Lemma is_ok_feature_rates_witness :
  _is_ok_feature (default_reader "reg") (mkSeries np_float64 [CNaN; CNaN]) = Ok false.
Proof.
  refine (proj2 (proj2
    (is_ok_feature_rates (default_reader "reg") (mkSeries np_float64 [CNaN; CNaN]) _))
    _ _).
  - simpl. lia.
  - reflexivity.
  - reflexivity.
Defined.

(** ** The advanced guess, run *)

(** C2, where the code departs from it. The feature [f] is pinned by
    the user ([force_input]); its final score, 0, is below
    [drop_score_co], 0.01. [fit_read] keeps it among the used features
    and in the table of the dataset, as the claim says, but the role it
    leaves for it, in the reader and in the dataset, is Drop. *)
Theorem pinned_feature_gets_drop_role :
  is_Ok (stub_fit_read pinned_table pinned_roles ∅ (default_reader "reg")).1 = true
  ∧ _used_features (stub_fit_read pinned_table pinned_roles ∅ (default_reader "reg")).2
    = ["f"]
  ∧ _roles (stub_fit_read pinned_table pinned_roles ∅ (default_reader "reg")).2 !! "f"
    = Some DropRole
  ∧ r_name DropRole = "Drop"
  ∧ ∃ dataset,
      (stub_fit_read pinned_table pinned_roles ∅ (default_reader "reg")).1 = Ok dataset
      ∧ (df_columns (ds_data dataset)).*1 = [LStr "f"]
      ∧ ds_roles dataset !! "f" = Some DropRole.
Proof.
  repeat split; try (vm_compute; reflexivity).
  eexists. split; [vm_compute; reflexivity|].
  split; vm_compute; reflexivity.
Qed.

(** ** The rest of the readers, run

    The same collaborators as above, with what [read] and the sequential
    reader need besides. *)

(** [PandasToPandasReader(task, advanced_roles=..)], the rest by default. *)
Definition init_reader (task : string) (advanced_roles : bool) : Reader :=
  PandasToPandasReader_init task (Some 100000%N) (999 # 1000)%Q (999 # 1000)%Q
    (Some 5%Z) 42%Z None 4%Z advanced_roles
    (999 # 1000)%Q (11 # 10)%Q 2%Q (11 # 10)%Q (2 # 10)%Q (4 # 100)%Q (1 # 100)%Q.

(** [DictToPandasSeqReader(task)] *)
Definition seq_reader (task : string) : Reader :=
  DictToPandasSeqReader_init task (Some 100000%N) (999 # 1000)%Q (999 # 1000)%Q
    (Some 5%Z) 42%Z None 4%Z true
    (999 # 1000)%Q (11 # 10)%Q 2%Q (11 # 10)%Q (2 # 10)%Q (4 # 100)%Q (1 # 100)%Q None.

(** One window for each row of the auxiliary table, and no index of a
    target. *)
Definition stub_create_data (builder : Indexer) (seq_data : DataFrame)
    (plain_data : option DataFrame) : Idx :=
  (fun i => [Z.of_nat i]) <$> seq 0 (shape0 seq_data).

Definition stub_create_target (builder : Indexer) (seq_data : DataFrame)
    (plain_data : option DataFrame) : option Idx := None.

Abbreviation stub_read := (@read Q stub_series_map).

Abbreviation stub_parse_seq :=
  (parse_seq Stub.from_string Stub.astype_cell Stub.to_datetime Stub.tz_localize
     Stub.sample Stub.attrs_dict stub_create_data stub_create_target).

Abbreviation stub_infer_role :=
  (infer_role Stub.from_string Stub.astype_cell Stub.to_datetime Stub.tz_localize).

Lemma stub_sample_columns (n : N) (seed : Z) (df : DataFrame) :
  (df_columns (Stub.sample n seed df)).*1 = (df_columns df).*1.
Proof. unfold Stub.sample. simpl. by rewrite <- list_fmap_compose. Qed.

(** The column [y] is the target. *)
Definition target_roles : list (UserRole * list string) := [(RoleName "target", ["y"])].

(** A feature [f] and a target [y] of two classes, 5 and 3. *)
Definition class_table : DataFrame :=
  mkFrame [(LStr "f", ints [1; 2; 3; 4]%Z); (LStr "y", ints [5; 3; 5; 3]%Z)].

Lemma from_reader_raises_witness :
  from_reader (default_reader "reg") instance_attrs = Raise (Propagated PyTypeError).
Proof.
  apply from_reader_raises.
  - apply list_elem_of_further, list_elem_of_here.
  - intros attr Hin ->. unfold instance_attrs in Hin.
    repeat (apply elem_of_cons in Hin as [Hin|Hin]; [discriminate Hin|]).
    by apply not_elem_of_nil in Hin.
Defined.

Lemma class_mapping_codes_witness :
  ∃ encoded m rd',
    check_class_target (ints [5; 3; 7]%Z) (default_reader "binary")
    = (Ok (encoded, Some m), rd')
    ∧ m.*2 = [0; 1; 2]
    ∧ _n_classes rd' = Some 3.
Proof.
  destruct (check_class_target (ints [5; 3; 7]%Z) (default_reader "binary"))
    as [[[encoded [m|]]|e] rd'] eqn:Hrun.
  - exists encoded, m, rd'. split; [reflexivity|].
    destruct (class_mapping_codes _ _ _ _ _ Hrun) as (Hcodes & _ & _ & Hn & _).
    by split.
  - vm_compute in Hrun. discriminate Hrun.
  - vm_compute in Hrun. discriminate Hrun.
Defined.

Lemma create_target_rejects_nan_witness :
  (_create_target (ASeries None (mkSeries np_float64 [CInt 1%Z; CNaN]))
     (default_reader "reg")).1 = Raise NanInTarget.
Proof.
  refine (proj1 (proj2 (create_target_rejects_nan (default_reader "reg")
                          (ASeries None (mkSeries np_float64 [CInt 1%Z; CNaN])) _)
                   None (mkSeries np_float64 [CInt 1%Z; CNaN]) eq_refl _)).
  - simpl. split; [reflexivity|]. apply list_elem_of_further, list_elem_of_here.
  - discriminate.
Defined.

(** Two labels, each over the classes 0 and 1. *)
Definition label_frame : DataFrame :=
  mkFrame [(LStr "a", ints [0; 1; 1]%Z); (LStr "b", ints [1; 0; 0]%Z)].

Lemma create_target_multilabel_witness :
  ∃ t rd',
    _create_target (AFrame label_frame) (default_reader "multilabel") = (Ok t, rd')
    ∧ _n_classes rd' = Some 4.
Proof.
  destruct (_create_target (AFrame label_frame) (default_reader "multilabel"))
    as [[t|e] rd'] eqn:Hrun.
  - exists t, rd'. split; [reflexivity|].
    destruct (create_target_multilabel (default_reader "multilabel") _ _ _ eq_refl Hrun)
      as (cols & ms & _ & _ & _ & _ & _ & Hn).
    exact Hn.
  - vm_compute in Hrun. discriminate Hrun.
Defined.

Lemma fit_read_features_witness :
  ∃ dataset rd',
    stub_fit_read pinned_table target_roles ∅ (init_reader "reg" false) = (Ok dataset, rd')
    ∧ _used_features rd' ≠ []
    ∧ (df_columns (ds_data dataset)).*1 = LStr <$> _used_features rd'.
Proof.
  destruct (stub_fit_read pinned_table target_roles ∅ (init_reader "reg" false))
    as [[dataset|e] rd'] eqn:Hrun.
  - exists dataset, rd'. split; [reflexivity|].
    edestruct @fit_read_features
      as (used & dropped & _ & _ & _ & _ & Hnil & _ & _ & _ & _ & Hcols & _);
      [exact Hrun | reflexivity | exact stub_sample_columns |].
    by split.
  - vm_compute in Hrun. discriminate Hrun.
Defined.

Lemma fit_read_dataset_witness :
  ∃ dataset rd',
    stub_fit_read pinned_table pinned_roles ∅ (default_reader "reg") = (Ok dataset, rd')
    ∧ ds_roles dataset = _roles rd'
    ∧ NoDup (_used_features rd').
Proof.
  destruct (stub_fit_read pinned_table pinned_roles ∅ (default_reader "reg"))
    as [[dataset|e] rd'] eqn:Hrun.
  - exists dataset, rd'. split; [reflexivity|].
    assert (Hbefore : ∀ f, f ∈ _used_features (default_reader "reg") →
                           is_Some (_roles (default_reader "reg") !! f))
      by (intros f Hf; by apply not_elem_of_nil in Hf).
    edestruct @fit_read_dataset as (_ & Hroles & _ & _ & _ & _ & Hadv);
      [exact Hrun | exact Hbefore |].
    split; [exact Hroles|]. by destruct (Hadv eq_refl) as [Hnd _].
  - vm_compute in Hrun. discriminate Hrun.
Defined.

Lemma fit_read_no_target_witness :
  stub_fit_read pinned_table [] ∅ (default_reader "reg")
  = (Raise TargetNotDefined, default_reader "reg").
Proof.
  edestruct @fit_read_no_target as [_ Hplain]; [| | |apply Hplain].
  - apply (lookup_empty (M := gmap string)).
  - constructor.
  - intros feat r Hin. by apply not_elem_of_nil in Hin.
  - intros feat r Hin. by apply not_elem_of_nil in Hin.
Defined.

Lemma fit_read_label_not_string_witness :
  is_Ok (stub_fit_read (mkFrame [(LObj 0, ints [1; 2]%Z); (LStr "y", ints [3; 1]%Z)])
           target_roles ∅ (default_reader "reg")).1 = false.
Proof.
  eapply @fit_read_label_not_string with (z := 0%Z).
  - apply list_elem_of_here.
  - apply stub_sample_columns.
Defined.

Lemma fit_read_no_rows_witness :
  is_Ok (stub_fit_read (mkFrame [(LStr "f", ints []); (LStr "y", ints [])])
           target_roles ∅ (default_reader "reg")).1 = false.
Proof.
  eapply @fit_read_no_rows with (feat := "f") (col := ints []).
  - reflexivity.
  - apply list_elem_of_here.
  - reflexivity.
  - intros Hin. unfold target_roles in Hin. vm_compute in Hin.
    apply list_elem_of_singleton in Hin. discriminate Hin.
Defined.

Lemma read_after_fit_witness :
  ∃ dataset rd' read_back,
    stub_fit_read class_table target_roles ∅ (init_reader "binary" false)
    = (Ok dataset, rd')
    ∧ stub_read rd' class_table true = Ok read_back
    ∧ ds_data read_back = ds_data dataset.
Proof.
  destruct (stub_fit_read class_table target_roles ∅ (init_reader "binary" false))
    as [[dataset|e] rd'] eqn:Hrun.
  - assert (Hn : _n_classes rd' = Some 2).
    { pose proof (f_equal (fun p : result Dataset * Reader => _n_classes p.2) Hrun) as Hn.
      vm_compute in Hn. symmetry. exact Hn. }
    assert (Hk : ∀ k, _n_classes rd' = Some k → (Z.of_nat k ≤ 2 ^ 31)%Z).
    { intros k Hk. rewrite Hn in Hk. injection Hk as <-. vm_compute. discriminate. }
    edestruct @read_after_fit with (series_map := stub_series_map)
      as (read_back & y & fitted & encoded & Hread & Hdata & _);
      [exact Hrun | left; reflexivity | apply (lookup_empty (M := gmap string))
       | exact Hk |].
    by exists dataset, rd', read_back.
  - vm_compute in Hrun. discriminate Hrun.
Defined.

(** A reader fitted on [class_table], as [fit_read] leaves it. *)
Definition fitted_reader : Reader :=
  (stub_fit_read class_table target_roles ∅ (init_reader "binary" false)).2.

(** A table to predict on: its target holds 7, which the reader has not
    seen. *)
Definition new_table : DataFrame :=
  mkFrame [(LStr "f", ints [9; 8]%Z); (LStr "y", ints [5; 7]%Z)].

Lemma read_target_mapping_witness :
  ∃ dataset encoded,
    stub_read fitted_reader new_table true = Ok dataset
    ∧ ds_attrs dataset !! "target" = Some (ASeries (Some "y") encoded)
    ∧ s_values encoded = [CInt 0; CNaN].
Proof.
  destruct (stub_read fitted_reader new_table true) as [dataset|e] eqn:Hread.
  - edestruct @read_target_mapping
      with (series_map := stub_series_map) (rd := fitted_reader) (data := new_table)
           (m := [(CInt 5%Z, 0); (CInt 3%Z, 1)]) (y := "y") (column := ints [5; 7]%Z)
      as (encoded & Htarget & Hvalues & _);
      [vm_compute; reflexivity | vm_compute; reflexivity | vm_compute; reflexivity
       | exact Hread |].
    exists dataset, encoded. split; [reflexivity|]. split; [exact Htarget|].
    rewrite Hvalues. vm_compute. reflexivity.
  - vm_compute in Hread. discriminate Hread.
Defined.

Lemma read_succeeds_witness :
  is_Ok (stub_read fitted_reader (mkFrame [(LStr "f", ints [9; 8]%Z)]) true) = true.
Proof.
  apply (read_succeeds (series_map := stub_series_map)).
  - vm_compute. exact I.
  - intros f Hf. vm_compute in Hf. apply list_elem_of_singleton in Hf as ->.
    apply list_elem_of_here.
Defined.

(** An auxiliary table of one column. *)
Definition seq_table : DataFrame := mkFrame [(LStr "v", ints [1; 2; 3; 1]%Z)].

Lemma parse_seq_needs_builder_witness :
  ∃ returned rd',
    stub_parse_seq seq_table None "seq" [] [] (seq_reader "reg") = (Ok returned, rd')
    ∧ ∃ p, seq_params (seq_reader "reg") !! "seq" = Some p
           ∧ (sp_case p = "next_values" ∨ sp_case p = "ids"
              ∨ is_Some (ti (seq_reader "reg") !! "seq")).
Proof.
  destruct (stub_parse_seq seq_table None "seq" [] [] (seq_reader "reg"))
    as [[returned|e] rd'] eqn:Hrun.
  - exists returned, rd'. split; [reflexivity|].
    edestruct @parse_seq_needs_builder as [Hp _]; [exact Hrun | exact Hp].
  - vm_compute in Hrun. discriminate Hrun.
Defined.

Lemma parse_seq_dataset_witness :
  ∃ d parsed_roles rd',
    stub_parse_seq seq_table None "seq" [] [] (seq_reader "reg")
    = (Ok (d, parsed_roles), rd')
    ∧ sd_features d ≠ []
    ∧ _used_features rd' = _used_features (seq_reader "reg") ++ sd_features d.
Proof.
  destruct (stub_parse_seq seq_table None "seq" [] [] (seq_reader "reg"))
    as [[[d parsed_roles]|e] rd'] eqn:Hrun.
  - exists d, parsed_roles, rd'. split; [reflexivity|].
    edestruct @parse_seq_dataset as (Hnil & _ & _ & _ & _ & _ & Hused & _);
      [exact Hrun|].
    by split.
  - vm_compute in Hrun. discriminate Hrun.
Defined.

Lemma infer_role_cases_witness :
  ∃ r, stub_infer_role (default_reader "reg") (ints [1; 2; 3; 1]%Z) = Ok r
       ∧ r = NumericRole (r_dtype (_get_default_role_from_str Stub.from_string
                                     (default_reader "reg") "numeric")).
Proof.
  destruct (stub_infer_role (default_reader "reg") (ints [1; 2; 3; 1]%Z))
    as [r|e] eqn:Hrole.
  - exists r. split; [reflexivity|].
    edestruct @infer_role_cases as [[Hok _] | [_ [[_ Hr] | [Hcast _]]]];
      [exact Hrole | | |].
    + vm_compute in Hok. discriminate Hok.
    + exact Hr.
    + exfalso. apply Hcast. vm_compute. reflexivity.
  - vm_compute in Hrole. discriminate Hrole.
Defined.

Lemma default_role_case_witness :
  _get_default_role_from_str Stub.from_string (default_reader "reg") "Numeric"
  = _get_default_role_from_str Stub.from_string (default_reader "reg") "numeric".
Proof.
  apply default_role_case; [reflexivity|]. intros key _. reflexivity.
Defined.

Lemma fit_read_attr_not_feature_witness :
  ∃ dataset rd',
    stub_fit_read pinned_table target_roles ∅ (init_reader "reg" false) = (Ok dataset, rd')
    ∧ ("y" ∉ _used_features rd')
    ∧ (LStr "y" ∉ (df_columns (ds_data dataset)).*1).
Proof.
  destruct (stub_fit_read pinned_table target_roles ∅ (init_reader "reg" false))
    as [[dataset|e] rd'] eqn:Hrun.
  - exists dataset, rd'. split; [reflexivity|].
    eapply @fit_read_attr_not_feature with (r := RoleName "target").
    + exact Hrun.
    + apply NoDup_singleton.
    + apply list_elem_of_here.
    + by eexists.
    + apply not_elem_of_nil.
  - vm_compute in Hrun. discriminate Hrun.
Defined.

Lemma fit_read_declared_role_witness :
  ∃ dataset rd' r,
    stub_fit_read pinned_table pinned_roles ∅ (init_reader "reg" false) = (Ok dataset, rd')
    ∧ _roles rd' !! "f" = Some r
    ∧ ds_roles dataset !! "f" = Some r
    ∧ r_name r = "Numeric".
Proof.
  destruct (stub_fit_read pinned_table pinned_roles ∅ (init_reader "reg" false))
    as [[dataset|e] rd'] eqn:Hrun.
  - edestruct @fit_read_declared_role
      with (feat := "f")
           (declared := RoleObj (mkRole "Numeric" np_float32 true None "unix" None))
      as (r & Hr & Hds & Hdecl).
    + exact Hrun.
    + reflexivity.
    + exact stub_sample_columns.
    + apply NoDup_cons. split; [|apply NoDup_singleton].
      intros [= ]%list_elem_of_singleton.
    + apply list_elem_of_here.
    + reflexivity.
    + discriminate.
    + apply list_elem_of_here.
    + exists dataset, rd', r. do 3 (split; [done|]).
      by destruct Hdecl as [-> | [_ ->]].
  - vm_compute in Hrun. discriminate Hrun.
Defined.

(** A feature [f] and two labels: [a] over the classes 0 and 1, [b] over
    the classes 7 and 9. *)
Definition labels_table : DataFrame :=
  mkFrame [(LStr "f", ints [1; 2; 3; 4]%Z); (LStr "a", ints [0; 1; 0; 1]%Z);
           (LStr "b", ints [7; 7; 9; 9]%Z)].

Lemma fit_read_then_read_witness :
  ∃ dataset rd',
    stub_fit_read labels_table [(RoleName "target", ["a"; "b"])] ∅
      (init_reader "multilabel" false) = (Ok dataset, rd')
    ∧ is_Ok (stub_read rd' labels_table true) = true.
Proof.
  destruct (stub_fit_read labels_table [(RoleName "target", ["a"; "b"])] ∅
              (init_reader "multilabel" false)) as [[dataset|e] rd'] eqn:Hrun.
  - exists dataset, rd'. split; [reflexivity|].
    refine (proj1 (fit_read_then_read (series_map := stub_series_map)
                     _ _ _ _ _ _ _ _ _ _ _ _ _ _ _ _ _ _ _ _ _ _ _ _ Hrun eq_refl)).
  - vm_compute in Hrun. discriminate Hrun.
Defined.

(** The sequence of a dataset is its table. *)
Definition stub_to_sequence (d : SeqDataset) (cols : list string) : DataFrame := sd_data d.

Abbreviation stub_seq_fit_read :=
  (seq_fit_read Stub.from_string Stub.astype_cell Stub.to_datetime Stub.tz_localize
     Stub.sample Stub.attrs_dict Q Stub.roles_parser Stub.set_sklearn_folds id
     Stub.get_numeric_roles_stat Stub.calc_encoding_rules Stub.rule_based_roles_guess
     Stub.get_category_roles_stat id Stub.rule_based_roles_guess
     Stub.get_null_scores stub_create_data stub_create_target stub_to_sequence).

(** [DictToPandasSeqReader(task, advanced_roles=False)] *)
Definition simple_seq_reader (task : string) : Reader :=
  DictToPandasSeqReader_init task (Some 100000%N) (999 # 1000)%Q (999 # 1000)%Q
    (Some 5%Z) 42%Z None 4%Z false
    (999 # 1000)%Q (11 # 10)%Q 2%Q (11 # 10)%Q (2 # 10)%Q (4 # 100)%Q (1 # 100)%Q None.

(** A plain table with the features [g] and [f], in this order, and the
    target [y]. *)
Definition wide_table : DataFrame :=
  mkFrame [(LStr "g", ints [1; 2; 3; 4; 5; 6]%Z); (LStr "f", ints [6; 5; 4; 3; 2; 1]%Z);
           (LStr "y", ints [3; 1; 4; 1; 5; 9]%Z)].

Lemma seq_fit_read_plain_witness :
  ∃ dataset rd',
    stub_seq_fit_read (Some wide_table) (Some [("seq", seq_table)]) target_roles ∅
      (simple_seq_reader "reg") = (Ok dataset, rd')
    ∧ ("v" ∉ plain_used_features rd')
    ∧ (df_columns (ds_data dataset)).*1 = LStr <$> plain_used_features rd'.
Proof.
  destruct (stub_seq_fit_read (Some wide_table) (Some [("seq", seq_table)]) target_roles ∅
              (simple_seq_reader "reg")) as [[dataset|e] rd'] eqn:Hrun.
  - exists dataset, rd'. split; [reflexivity|].
    edestruct @seq_fit_read_plain as (Hin & _ & _ & _ & Hcols & _); [exact Hrun|].
    split; [|exact Hcols].
    intros [_ Hv]%Hin. simpl in Hv.
    repeat (apply elem_of_cons in Hv as [[=]|Hv]). by apply not_elem_of_nil in Hv.
  - vm_compute in Hrun. discriminate Hrun.
Defined.
